(** * ADB projects scraper: the resilient fetch-and-crawl engine

    A shallow embedding of the Python sources

      - [adb_scraper/exceptions.py]  (the exception hierarchy),
      - [adb_scraper/utils.py]       ([retry_with_backoff], [RateLimiter],
                                      [clean_text], [parse_amount]),
      - [adb_scraper/cloudflare.py]  ([HybridFetcher], [_rate_limit] of the
                                      two backends, [PlaywrightFetcher]),
      - [adb_scraper/scraper.py]     ([ADBProjectScraper]),

    together with the properties of these components.

    Conventions of the embedding.

      - A Python [str] is a [string]; one character stands for one code
        point (the signatures searched for are plain ASCII).
      - A Python [float] holding a duration or a time stamp is a rational
        number ([Q]); rounding is not modelled.  A power of floats whose
        value lies outside the range of the floats raises an
        [OverflowError], as [**] does.
      - A Python [int] is a [Z].
      - A method is a function in a state-and-exception monad over the pair
        (object, world); a mutation survives the exception that follows it.
      - Everything outside the program (the clock, the random generator,
        the network, the HTML parser) is an oracle of the environment
        [Env], indexed by the number of earlier interactions; the world
        records the interactions that happened.
      - Calls to the logger are left out, and so is what only configures
        the [requests] session (proxy, headers, the rotation of the
        User-Agent).
      - A generator is run to its end; what it yields is recorded in the
        world, in the order of the yields. *)

From Stdlib Require Import ZArith QArith Qpower Lqa Lia String Ascii List DecimalString.
From stdpp Require Import base option list gmap strings.

Import ListNotations.
Local Open Scope Z_scope.
Local Open Scope string_scope.

(* ===================================================================== *)
(** ** Python values: strings *)
(* ===================================================================== *)

Module PyStr.

(** [s.startswith(p)] *)
Fixpoint startswith (p s : string) : bool :=
  match p, s with
  | EmptyString, _ => true
  | String a p', String b s' => if Ascii.eqb a b then startswith p' s' else false
  | String _ _, EmptyString => false
  end.

(** [needle in hay] *)
Fixpoint contains (needle hay : string) : bool :=
  if startswith needle hay then true
  else match hay with
       | EmptyString => false
       | String _ hay' => contains needle hay'
       end.

(** [s[:n]] for a non-negative literal [n] *)
Fixpoint take (n : nat) (s : string) : string :=
  match n, s with
  | O, _ => EmptyString
  | S n', String a s' => String a (take n' s')
  | S _, EmptyString => EmptyString
  end.

Definition lower_char (c : ascii) : ascii :=
  let n := nat_of_ascii c in
  if ((65 <=? n) && (n <=? 90))%nat then ascii_of_nat (n + 32) else c.

(** [s.lower()] *)
Fixpoint lower (s : string) : string :=
  match s with
  | EmptyString => EmptyString
  | String a s' => String (lower_char a) (lower s')
  end.

(** [str(n)] for an integer *)
Definition of_Z (n : Z) : string := NilZero.string_of_int (Z.to_int n).

End PyStr.

(* ===================================================================== *)
(** ** Python values: exceptions and results *)
(* ===================================================================== *)

Module Py.

(** The exception classes that occur in the sources, with the built-in
    ones and those of the [requests] library they are caught by. *)
Inductive ExcClass : Type :=
| BaseException | KeyboardInterrupt | Exception
| RuntimeError | ImportError | TypeError | ValueError | KeyError | AttributeError
| OverflowError
| RequestException | Timeout | ConnectionError | HTTPError | RetryError
| ScraperError | NetworkError | ParseError | RateLimitError
| CloudflareBlockError | ValidationError.

Definition ExcClass_eqb (a b : ExcClass) : bool :=
  match a, b with
  | BaseException, BaseException | KeyboardInterrupt, KeyboardInterrupt
  | Exception, Exception | RuntimeError, RuntimeError
  | ImportError, ImportError | TypeError, TypeError | ValueError, ValueError
  | KeyError, KeyError | AttributeError, AttributeError
  | OverflowError, OverflowError
  | RequestException, RequestException | Timeout, Timeout
  | ConnectionError, ConnectionError | HTTPError, HTTPError
  | RetryError, RetryError
  | ScraperError, ScraperError | NetworkError, NetworkError
  | ParseError, ParseError | RateLimitError, RateLimitError
  | CloudflareBlockError, CloudflareBlockError
  | ValidationError, ValidationError => true
  | _, _ => false
  end.

(** The direct base class ([class NetworkError(ScraperError)], ...);
    [RequestException] derives from [Exception] through [OSError], and
    [OverflowError] through [ArithmeticError]. *)
Definition base (c : ExcClass) : option ExcClass :=
  match c with
  | BaseException => None
  | KeyboardInterrupt => Some BaseException
  | Exception => Some BaseException
  | RuntimeError | ImportError | TypeError | ValueError | KeyError
  | AttributeError | OverflowError | RequestException | ScraperError =>
      Some Exception
  | Timeout | ConnectionError | HTTPError | RetryError => Some RequestException
  | NetworkError | ParseError | CloudflareBlockError | ValidationError =>
      Some ScraperError
  | RateLimitError => Some NetworkError
  end.

Fixpoint issubclass_upto (depth : nat) (c d : ExcClass) : bool :=
  ExcClass_eqb c d ||
  match depth with
  | O => false
  | S depth' => match base c with
                | Some b => issubclass_upto depth' b d
                | None => false
                end
  end.

(** [issubclass(c, d)]; no class is more than four steps below
    [BaseException]. *)
Definition issubclass (c d : ExcClass) : bool := issubclass_upto 4 c d.

(** An exception object: its class, its [message] and the attributes
    [url], [status_code] and [retry_after] the scraper's exceptions
    carry. *)
Record PyExc : Type := mkExc {
  exc_class : ExcClass;
  exc_message : string;
  exc_url : option string;
  exc_status_code : option Z;
  exc_retry_after : option Z
}.

Definition isinstance (e : PyExc) (c : ExcClass) : bool :=
  issubclass (exc_class e) c.

(** [except (c1, c2, ...)]: the clause matches an instance of any class
    of the tuple. *)
Definition caught_by (e : PyExc) (classes : list ExcClass) : bool :=
  existsb (isinstance e) classes.

(** A built-in exception carrying only a message. *)
Definition builtin (c : ExcClass) (msg : string) : PyExc :=
  mkExc c msg None None None.

Inductive Result (A : Type) : Type :=
| Return (a : A)
| Raise (e : PyExc).
Arguments Return {A} a.
Arguments Raise {A} e.

(** Computations over a state [S] that return or raise. *)
Definition M (St A : Type) : Type := St -> Result A * St.

Definition ret {St A} (a : A) : M St A := fun s => (Return a, s).
Definition raise {St A} (e : PyExc) : M St A := fun s => (Raise e, s).
Definition bind {St A B} (m : M St A) (k : A -> M St B) : M St B :=
  fun s => match m s with
           | (Return a, s') => k a s'
           | (Raise e, s') => (Raise e, s')
           end.

(** [try: body / except classes as e: handler e] *)
Definition try_except {St A} (body : M St A) (classes : list ExcClass)
    (handler : PyExc -> M St A) : M St A :=
  fun s => match body s with
           | (Return a, s') => (Return a, s')
           | (Raise e, s') =>
               if caught_by e classes then handler e s' else (Raise e, s')
           end.

(** [try: body] followed by several [except] clauses: the first clause
    that matches handles the exception. *)
Fixpoint dispatch {St A} (e : PyExc)
    (clauses : list (list ExcClass * (PyExc -> M St A))) : M St A :=
  match clauses with
  | [] => raise e
  | (classes, handler) :: clauses' =>
      if caught_by e classes then handler e else dispatch e clauses'
  end.

Definition try_clauses {St A} (body : M St A)
    (clauses : list (list ExcClass * (PyExc -> M St A))) : M St A :=
  fun s => match body s with
           | (Return a, s') => (Return a, s')
           | (Raise e, s') => dispatch e clauses s'
           end.

(** Reading and updating the object of a method ([self]). *)
Definition self {O W} : M (O * W) O := fun s => (Return (fst s), s).
Definition update {O W} (f : O -> O) : M (O * W) unit :=
  fun s => (Return tt, (f (fst s), snd s)).

(** A computation on the world alone, run within a method. *)
Definition world {O W A} (m : M W A) : M (O * W) A :=
  fun s => let (r, w') := m (snd s) in (r, (fst s, w')).

(** A method of the object held in a field, run within a method of the
    owner: [self.field.method(...)]. *)
Definition on_field {O F W A} (field : O -> F) (store : F -> O -> O)
    (m : M (F * W) A) : M (O * W) A :=
  fun s => let '(r, (f', w')) := m (field (fst s), snd s) in
           (r, (store f' (fst s), w')).

End Py.

Export Py.

(** stdpp's monad notations ([x ← m; k] and [m ;; k]) for [M S]. *)
#[global] Instance M_ret {St} : MRet (M St) := fun A => @ret St A.
#[global] Instance M_bind {St} : MBind (M St) := fun A B k m => @bind St A B m k.

(* ===================================================================== *)
(** ** The world outside the program *)
(* ===================================================================== *)

Definition Qltb (x y : Q) : bool := negb (Qle_bool y x).

(** Python's [min(x, y)]: the first argument unless the second is
    strictly smaller. *)
Definition py_min (x y : Q) : Q := if Qltb y x then y else x.

Module Clock.

(** What the environment decides: how much time passes whenever the
    program consults the clock or sleeps, and what the random generator
    returns. *)
Record Env : Type := {
  lapse : nat -> Q;
  dice : nat -> Q
}.

(** The clock is monotonic and [random.random()] lies in [[0, 1)]. *)
Definition fair (env : Env) : Prop :=
  (forall n, 0 <= lapse env n)%Q /\ (forall n, 0 <= dice env n /\ dice env n < 1)%Q.

Record World : Type := {
  clock : Q;          (* the time [time.time()] would return now *)
  ticks : nat;        (* interactions with the clock so far *)
  rolls : nat;        (* calls of [random.random()] so far *)
  slept : list Q      (* arguments of [time.sleep], the latest first *)
}.

Definition pass (env : Env) (extra : Q) (w : World) : World :=
  {| clock := (clock w + extra + lapse env (ticks w))%Q;
     ticks := S (ticks w);
     rolls := rolls w;
     slept := slept w |}.

(** [time.time()] *)
Definition time_time (env : Env) : M World Q :=
  fun w => let w' := pass env 0 w in (Return (clock w'), w').

(** [time.sleep(d)]: refuses a negative length, and otherwise lasts at
    least [d]. *)
Definition time_sleep (env : Env) (d : Q) : M World unit :=
  fun w =>
    if Qltb d 0
    then (Raise (builtin ValueError "sleep length must be non-negative"), w)
    else let w' := pass env d w in
         (Return tt, {| clock := clock w'; ticks := ticks w';
                        rolls := rolls w'; slept := d :: slept w' |}).

(** [random.random()] *)
Definition random_random (env : Env) : M World Q :=
  fun w => (Return (dice env (rolls w)),
            {| clock := clock w; ticks := ticks w;
               rolls := S (rolls w); slept := slept w |}).

(** [random.uniform(a, b)], which is [a + (b - a) * random()]. *)
Definition random_uniform (env : Env) (a b : Q) : M World Q :=
  r ← random_random env; mret (a + (b - a) * r)%Q.

End Clock.

(* ===================================================================== *)
(** ** utils.py: [RateLimiter] *)
(* ===================================================================== *)

Module RateLimiter.
Import Clock.

Record t : Type := {
  min_delay : Q;
  max_delay : Q;
  last_request_time : option Q
}.

Definition __init__ (min_delay max_delay : Q) : t :=
  {| min_delay := min_delay; max_delay := max_delay;
     last_request_time := None |}.

Definition set_last_request_time (v : option Q) (rl : t) : t :=
  {| min_delay := min_delay rl; max_delay := max_delay rl;
     last_request_time := v |}.

Definition wait (env : Env) : M (t * World) unit :=
  rl ← self;
  match last_request_time rl with
  | Some last =>
      now ← world (time_time env);
      let elapsed := (now - last)%Q in
      delay ← world (random_uniform env (min_delay rl) (max_delay rl));
      if Qltb elapsed delay
      then world (time_sleep env (delay - elapsed)%Q)
      else mret tt
  | None => mret tt
  end;;
  now ← world (time_time env);
  update (set_last_request_time (Some now)).


End RateLimiter.

(* ===================================================================== *)
(** ** utils.py: [retry_with_backoff] *)
(* ===================================================================== *)

(** [range(n)] *)
Definition range (n : Z) : list Z := map Z.of_nat (seq 0 (Z.to_nat n)).

Module Retry.

(** The arguments of the decorator, except the callback [on_retry]. *)
Record Policy : Type := {
  max_retries : Z;
  base_delay : Q;
  max_delay : Q;
  exponential_base : Q;
  jitter : bool;
  exceptions : list ExcClass
}.

(** The defaults of the signature. *)
Definition default : Policy :=
  {| max_retries := 3; base_delay := 1; max_delay := 60;
     exponential_base := 2; jitter := true; exceptions := [Exception] |}.

(** The largest finite float, [sys.float_info.max]. *)
Definition float_max : Q := inject_Z (2 ^ 1024 - 2 ^ 971).

(** [x ** n] for a float [x] and an integer [n]: the power, or an
    [OverflowError] when the power lies outside the range of the floats
    (as [1e200 ** 2] does). *)
Definition float_pow (x : Q) (n : Z) : Result Q :=
  let power := (x ^ n)%Q in
  if Qltb float_max power || Qltb power (- float_max)
  then Raise (builtin OverflowError "(34, 'Numerical result out of range')")
  else Return power.

(** [min(base_delay * (exponential_base ** attempt), max_delay)] *)
Definition backoff_delay (p : Policy) (attempt : Z) : Result Q :=
  match float_pow (exponential_base p) attempt with
  | Return power => Return (py_min (base_delay p * power)%Q (max_delay p))
  | Raise e => Raise e
  end.

Section Wrapper.
Context {St A : Type}.
(** [time.sleep] and [random.random] in the state of the wrapped
    function. *)
Variable time_sleep : Q -> M St unit.
Variable random_random : M St Q.
Variable p : Policy.
Variable on_retry : option (PyExc -> Z -> M St unit).
Variable func : M St A.

(** The [except] clause once [attempt == max_retries] is excluded:
    compute the delay, tell the observer, sleep.  An exception raised
    here, within the [except] clause, leaves the wrapper. *)
Definition backoff (e : PyExc) (attempt : Z) : M St unit :=
  delay ← (fun s => (backoff_delay p attempt, s));
  delay ← (if jitter p
           then r ← random_random; mret (delay * ((1 # 2) + r))%Q
           else mret delay);
  match on_retry with
  | Some callback => callback e attempt
  | None => mret tt
  end;;
  time_sleep delay.

(** The [for attempt in range(max_retries + 1)] loop over the attempts
    that remain, and the [raise last_exception] after it. *)
Fixpoint attempts (todo : list Z) (last_exception : option PyExc) : M St A :=
  match todo with
  | [] =>
      match last_exception with
      | Some e => raise e
      | None => raise (builtin TypeError "exceptions must derive from BaseException")
      end
  | attempt :: todo' =>
      r ← try_except (v ← func; mret (inl v)) (exceptions p)
            (fun e =>
               if (attempt =? max_retries p)%Z then raise e
               else backoff e attempt;; mret (inr e));
      match r with
      | inl v => mret v
      | inr e => attempts todo' (Some e)
      end
  end.

Definition wrapper : M St A := attempts (range (max_retries p + 1)) None.

End Wrapper.

(** A test double for the wrapped function: its [n]-th invocation (from
    0) does what [script n] says; the object counts the invocations, as
    [call_count] does in the tests. *)
Definition scripted {A W} (script : nat -> Result A) : M (nat * W) A :=
  fun s => (script (fst s), (S (fst s), snd s)).

(** The wrapper over the clock and the generator of [Clock]. *)
Definition run {O A} (env : Clock.Env) (p : Policy)
    (on_retry : option (PyExc -> Z -> M (O * Clock.World) unit))
    (func : M (O * Clock.World) A) : M (O * Clock.World) A :=
  wrapper (fun d => world (Clock.time_sleep env d))
          (world (Clock.random_random env)) p on_retry func.

End Retry.

(* ===================================================================== *)
(** ** cloudflare.py: [HybridFetcher] *)
(* ===================================================================== *)

Module HybridFetcher.

Record t : Type := {
  delay : Q;
  use_playwright_fallback : bool;
  _playwright : option Q;       (* the [PlaywrightFetcher(delay=...)], once created *)
  _cloudflare_detected : bool;
  _consecutive_failures : Z
}.

Definition __init__ (delay : Q) (use_playwright_fallback : bool) : t :=
  {| delay := delay; use_playwright_fallback := use_playwright_fallback;
     _playwright := None; _cloudflare_detected := false;
     _consecutive_failures := 0 |}.

Definition set_playwright (v : option Q) (h : t) : t :=
  {| delay := delay h; use_playwright_fallback := use_playwright_fallback h;
     _playwright := v; _cloudflare_detected := _cloudflare_detected h;
     _consecutive_failures := _consecutive_failures h |}.

Definition set_cloudflare_detected (v : bool) (h : t) : t :=
  {| delay := delay h; use_playwright_fallback := use_playwright_fallback h;
     _playwright := _playwright h; _cloudflare_detected := v;
     _consecutive_failures := _consecutive_failures h |}.

Definition set_consecutive_failures (v : Z) (h : t) : t :=
  {| delay := delay h; use_playwright_fallback := use_playwright_fallback h;
     _playwright := _playwright h; _cloudflare_detected := _cloudflare_detected h;
     _consecutive_failures := v |}.

Definition blockers : list string :=
  [ "Checking your browser"; "Just a moment"; "cf-browser-verification";
    "challenge-platform"; "Cloudflare Ray ID" ].

Definition _is_blocked (content : string) (status_code : Z) : bool :=
  if (status_code =? 403)%Z || (status_code =? 503)%Z
  then existsb (fun blocker => PyStr.contains blocker content) blockers
  else false.

Definition all_failed (url : string) : PyExc :=
  builtin RuntimeError ("All fetch strategies failed for " ++ url).

Section Methods.
Context {W : Type}.
(** The two backends: [self._cloudscraper] and [self._playwright],
    each with [fetch(url, timeout)] and [close()]. *)
Variable cloudscraper_fetch : string -> Z -> M W (string * Z).
Variable playwright_fetch : string -> Z -> M W (string * Z).
Variable cloudscraper_close : M W unit.
Variable playwright_close : M W unit.

(** The first [if] of [fetch]: [Some] is a [return] from within it. *)
Definition try_cloudscraper (url : string) (timeout : Z)
    : M (t * W) (option (string * Z)) :=
  h ← self;
  if negb (_cloudflare_detected h)
  then try_except
         (r ← world (cloudscraper_fetch url timeout);
          if negb (_is_blocked (fst r) (snd r))
          then update (set_consecutive_failures 0);; mret (Some r)
          else update (set_cloudflare_detected true);; mret None)
         [Exception]
         (fun e =>
            update (fun h => set_consecutive_failures
                               (_consecutive_failures h + 1) h);;
            mret None)
  else mret None.

(** The second [if] of [fetch]. *)
Definition try_playwright (url : string) (timeout : Z)
    : M (t * W) (option (string * Z)) :=
  h ← self;
  if use_playwright_fallback h
  then (match _playwright h with
        | None => update (set_playwright (Some (delay h)))
        | Some _ => mret tt
        end);;
       try_except
         (r ← world (playwright_fetch url timeout);
          if negb (_is_blocked (fst r) (snd r))
          then mret (Some r)
          else mret None)
         [ImportError; Exception]
         (fun e => mret None)
  else mret None.

Definition fetch (url : string) (timeout : Z) : M (t * W) (string * Z) :=
  first ← try_cloudscraper url timeout;
  match first with
  | Some r => mret r
  | None =>
      second ← try_playwright url timeout;
      match second with
      | Some r => mret r
      | None => raise (all_failed url)
      end
  end.

Definition close : M (t * W) unit :=
  world cloudscraper_close;;
  h ← self;
  match _playwright h with
  | Some _ => world playwright_close
  | None => mret tt
  end.

End Methods.

End HybridFetcher.

(** *** A network that answers from a script and keeps a log *)

Module Net.

Inductive Backend : Type := Lightweight | Browser.

(** A [requests.Response]: the headers are a case-insensitive
    dictionary, which stores each entry under its lower-cased name. *)
Record Response : Type := {
  status_code : Z;
  headers : gmap string string;
  text : string
}.

(** [name in response.headers] *)
Definition has_header (name : string) (r : Response) : bool :=
  bool_decide (is_Some (headers r !! PyStr.lower name)).

(** [response.headers.get(name, default)] *)
Definition header (name default : string) (r : Response) : string :=
  match headers r !! PyStr.lower name with
  | Some v => v
  | None => default
  end.

Inductive Event : Type :=
| Fetched (b : Backend) (url : string)    (* a backend's [fetch(url, timeout)] *)
| Closed (b : Backend)                    (* a backend's [close()] *)
| Requested (url : string).               (* [session.get(url, timeout=...)] *)

(** What the [n]-th interaction with the network returns: when it is a
    [fetch(url, timeout)] on backend [b], and when it is a
    [session.get(url, timeout=timeout)]. *)
Record Env : Type := {
  respond : Backend -> nat -> string -> Z -> Result (string * Z);
  answer : nat -> string -> Z -> Result Response
}.

(** The interactions so far, the latest first. *)
Definition World : Type := list Event.

Definition backend_fetch (env : Env) (b : Backend) (url : string) (timeout : Z)
    : M World (string * Z) :=
  fun log => (respond env b (length log) url timeout, Fetched b url :: log).

Definition backend_close (b : Backend) : M World unit :=
  fun log => (Return tt, Closed b :: log).

Definition session_get (env : Env) (url : string) (timeout : Z)
    : M World Response :=
  fun log => (answer env (length log) url timeout, Requested url :: log).

Definition fetch (env : Env) : string -> Z -> M (HybridFetcher.t * World) (string * Z) :=
  HybridFetcher.fetch (backend_fetch env Lightweight) (backend_fetch env Browser).

Definition close : M (HybridFetcher.t * World) unit :=
  HybridFetcher.close (backend_close Lightweight) (backend_close Browser).

(** What a caller does with one instance: a sequence of calls whose
    results, returned or raised, do not matter to the next call. *)
Inductive Call : Type :=
| CallFetch (url : string) (timeout : Z)
| CallClose.

Definition call (env : Env) (c : Call) (s : HybridFetcher.t * World)
    : HybridFetcher.t * World :=
  match c with
  | CallFetch url timeout => snd (fetch env url timeout s)
  | CallClose => snd (close s)
  end.

Definition calls (env : Env) (cs : list Call) (s : HybridFetcher.t * World)
    : HybridFetcher.t * World :=
  fold_left (fun s c => call env c s) cs s.

(** The results of a sequence of [fetch] calls, in order. *)
Fixpoint fetches (env : Env) (reqs : list (string * Z))
    (s : HybridFetcher.t * World)
    : list (Result (string * Z)) * (HybridFetcher.t * World) :=
  match reqs with
  | [] => ([], s)
  | (url, timeout) :: reqs' =>
      let (r, s') := fetch env url timeout s in
      let (rs, s'') := fetches env reqs' s' in
      (r :: rs, s'')
  end.

End Net.

(* ===================================================================== *)
(** ** models.py: the records that are yielded *)
(* ===================================================================== *)

Module Models.

Record ProjectListing : Type := {
  project_id : string;
  title : string;
  detail_url : string;
  country : option string;
  sector : option string;
  status : option string;
  approval_date : option string;
  project_type : option string;
  region : option string
}.

(** A [ProjectDetail] has the nine attributes of a listing, kept here
    together as [basis], and the attributes only a detail page provides
    ([countries], [borrower], [description], ...), kept as [enrichment];
    the time stamp [scraped_at] is left out. *)
Record ProjectDetail : Type := {
  basis : ProjectListing;
  enrichment : gmap string string
}.

(** [ProjectDetail.from_listing]: the nine attributes are copied, the
    others keep their defaults. *)
Definition from_listing (listing : ProjectListing) : ProjectDetail :=
  {| basis := listing; enrichment := ∅ |}.

(** [Union[ProjectListing, ProjectDetail]] *)
Inductive Item : Type :=
| Listing (p : ProjectListing)
| Detail (d : ProjectDetail).

(** The item carries the data of the listing entry [p] and nothing
    from a detail page. *)
Definition listing_derived (p : ProjectListing) (i : Item) : Prop :=
  i = Listing p \/ i = Detail (from_listing p).

End Models.

(* ===================================================================== *)
(** ** scraper.py: [ADBProjectScraper] *)
(* ===================================================================== *)

Module Scraper.
Import Models.

Definition PROJECTS_URL : string := "https://www.adb.org/projects".

(** [build_url(PROJECTS_URL, page=n)]: the base URL has no query of its
    own. *)
Definition build_url_page (n : Z) : string :=
  PROJECTS_URL ++ "?page=" ++ PyStr.of_Z n.

(** What [create_fetcher] returns. *)
Inductive Fetcher : Type :=
| Cloudscraper
| Playwright
| Hybrid (h : HybridFetcher.t).

Record t : Type := {
  timeout : Z;
  rate_limiter : RateLimiter.t;
  _fetcher : option Fetcher;
  stats : gmap string Z
}.

Definition set_rate_limiter (v : RateLimiter.t) (s : t) : t :=
  {| timeout := timeout s; rate_limiter := v; _fetcher := _fetcher s;
     stats := stats s |}.

Definition set_fetcher (v : option Fetcher) (s : t) : t :=
  {| timeout := timeout s; rate_limiter := rate_limiter s; _fetcher := v;
     stats := stats s |}.

Definition set_stats (v : gmap string Z) (s : t) : t :=
  {| timeout := timeout s; rate_limiter := rate_limiter s;
     _fetcher := _fetcher s; stats := v |}.

(** [create_fetcher(strategy, delay)] for the three known strategies. *)
Definition create_fetcher (strategy : string) (delay : Q) : Result Fetcher :=
  if String.eqb strategy "cloudscraper" then Return Cloudscraper
  else if String.eqb strategy "playwright" then Return Playwright
  else if String.eqb strategy "hybrid"
       then Return (Hybrid (HybridFetcher.__init__ delay true))
  else Raise (builtin ValueError ("Unknown strategy: " ++ strategy)).

(** The constructor; the session and its headers are not part of the
    object here. *)
Definition __init__ (request_delay max_delay : Q) (timeout : Z)
    (bypass_cloudflare : bool) (fetch_strategy : string) : t :=
  {| timeout := timeout;
     rate_limiter := RateLimiter.__init__ request_delay max_delay;
     _fetcher := if bypass_cloudflare
                 then match create_fetcher fetch_strategy request_delay with
                      | Return f => Some f
                      | Raise _ => None
                      end
                 else None;
     stats := {[ "pages_scraped" := 0; "projects_found" := 0;
                 "details_fetched" := 0; "errors" := 0;
                 "cloudflare_bypassed" := 0 ]} |}.

(** [get_stats]: a copy of the dictionary. *)
Definition get_stats (s : t) : gmap string Z := stats s.

Definition reset_stats (s : t) : t :=
  set_stats {[ "pages_scraped" := 0; "projects_found" := 0;
               "details_fetched" := 0; "errors" := 0 ]} s.

(** The environment: clock, network, the page parsers of [parsers.py]
    (each a function of the page), and [int] on a string ([None] for a
    [ValueError]). *)
Record Env : Type := {
  clock_env : Clock.Env;
  net_env : Net.Env;
  parse_listing : string -> string -> Result (list ProjectListing * option string);
  parse_detail : string -> string -> ProjectListing -> Result ProjectDetail;
  py_int : string -> option Z
}.

Record World : Type := {
  time : Clock.World;
  net : Net.World;
  yielded : list Item          (* what the generator yielded, the latest first *)
}.

Definition in_time {O A} (m : M Clock.World A) : M (O * World) A :=
  world (fun w => let (r, c) := m (time w) in
                  (r, {| time := c; net := net w; yielded := yielded w |})).

Definition in_net {O A} (m : M Net.World A) : M (O * World) A :=
  world (fun w => let (r, n) := m (net w) in
                  (r, {| time := time w; net := n; yielded := yielded w |})).

(** [yield item] *)
Definition yield (i : Item) : M (t * World) unit :=
  world (fun w => (Return tt, {| time := time w; net := net w;
                                 yielded := i :: yielded w |})).

(** [self.stats[key] += n] *)
Definition stats_add (key : string) (n : Z) : M (t * World) unit :=
  s ← self;
  match stats s !! key with
  | Some v => update (set_stats (<[ key := v + n ]> (stats s)))
  | None => raise (builtin KeyError key)
  end.

Section Methods.
Variable env : Env.

(** [self._fetcher.fetch(url, timeout=...)], by the class of the
    fetcher. *)
Definition fetcher_fetch (f : Fetcher) (url : string) (timeout : Z)
    : M (t * World) (string * Z) :=
  match f with
  | Cloudscraper => in_net (Net.backend_fetch (net_env env) Net.Lightweight url timeout)
  | Playwright => in_net (Net.backend_fetch (net_env env) Net.Browser url timeout)
  | Hybrid h =>
      fun s =>
        let '(r, (h', n')) := Net.fetch (net_env env) url timeout (h, net (snd s)) in
        (r, (set_fetcher (Some (Hybrid h')) (fst s),
             {| time := time (snd s); net := n'; yielded := yielded (snd s) |}))
  end.

Definition _is_cloudflare_block (response : Net.Response) : bool :=
  let cloudflare_indicators :=
    [ Net.has_header "cf-ray" response;
      PyStr.contains "cloudflare" (PyStr.lower (Net.header "server" "" response));
      PyStr.contains "Checking your browser" (PyStr.take 1000 (Net.text response));
      PyStr.contains "cf-browser-verification" (PyStr.take 1000 (Net.text response));
      PyStr.contains "Just a moment..." (PyStr.take 500 (Net.text response)) ] in
  existsb id cloudflare_indicators
  && ((Net.status_code response =? 403)%Z || (Net.status_code response =? 503)%Z).

(** The first part of [_fetch_page]: the bypass fetcher; [Some] is a
    [return] from within it. *)
Definition fetch_bypass (url : string) : M (t * World) (option string) :=
  s ← self;
  match _fetcher s with
  | Some f =>
      try_except
        (r ← fetcher_fetch f url (timeout s);
         if (snd r =? 429)%Z
         then raise (mkExc RateLimitError "Rate limited by server"
                       (Some url) (Some 429) None)
         else if (snd r >=? 400)%Z
         then raise (mkExc NetworkError ("HTTP " ++ PyStr.of_Z (snd r))
                       (Some url) (Some (snd r)) None)
         else stats_add "cloudflare_bypassed" 1;; mret (Some (fst r)))
        [RuntimeError; Exception]
        (fun e => mret None)
  | None => mret None
  end.

(** [response.raise_for_status()] *)
Definition raise_for_status (response : Net.Response) : M (t * World) unit :=
  let c := Net.status_code response in
  if ((400 <=? c) && (c <? 600))%Z
  then raise (mkExc HTTPError (PyStr.of_Z c ++ " Error") None (Some c) None)
  else mret tt.

(** [int(response.headers.get('Retry-After', 60))] *)
Definition retry_after_of (response : Net.Response) : option Z :=
  match Net.headers response !! PyStr.lower "Retry-After" with
  | Some v => py_int env v
  | None => Some 60
  end.

(** The second part of [_fetch_page]: the pacer, then the plain session
    ([_update_headers] only touches the session's headers).  An
    [HTTPError] carries the status of its response in
    [exc_status_code]; a response is truthy when its status is below
    400. *)
Definition fetch_standard (url : string) : M (t * World) string :=
  on_field rate_limiter set_rate_limiter
    (fun s : RateLimiter.t * World =>
       let '(r, (rl, c)) := RateLimiter.wait (clock_env env) (fst s, time (snd s)) in
       (r, (rl, {| time := c; net := net (snd s); yielded := yielded (snd s) |})));;
  s ← self;
  try_clauses
    (response ← in_net (Net.session_get (net_env env) url (timeout s));
     (if (Net.status_code response =? 429)%Z
      then match retry_after_of response with
           | Some retry_after =>
               raise (mkExc RateLimitError "Rate limited by server"
                        (Some url) (Some 429) (Some retry_after))
           | None => raise (builtin ValueError "invalid literal for int()")
           end
      else mret tt);;
     (if _is_cloudflare_block response
      then raise (mkExc CloudflareBlockError
                    "Request blocked by Cloudflare protection"
                    (Some url) None None)
      else mret tt);;
     raise_for_status response;;
     mret (Net.text response))
    [ ([Timeout],
       fun e => raise (mkExc NetworkError
                         ("Request timed out after " ++ PyStr.of_Z (timeout s) ++ "s")
                         (Some url) None None));
      ([ConnectionError],
       fun e => raise (mkExc NetworkError ("Connection error: " ++ exc_message e)
                         (Some url) None None));
      ([HTTPError],
       fun e => raise (mkExc NetworkError ("HTTP error: " ++ exc_message e)
                         (Some url)
                         (match exc_status_code e with
                          | Some c => if (c <? 400)%Z then Some c else None
                          | None => None
                          end)
                         None)) ].

Definition _fetch_page (url : string) : M (t * World) string :=
  first ← fetch_bypass url;
  match first with
  | Some content => mret content
  | None => fetch_standard url
  end.

(** [@retry_with_backoff(max_retries=3, base_delay=2.0,
    exceptions=(NetworkError,))] *)
Definition retry_policy : Retry.Policy :=
  {| Retry.max_retries := 3; Retry.base_delay := 2; Retry.max_delay := 60;
     Retry.exponential_base := 2; Retry.jitter := true;
     Retry.exceptions := [NetworkError] |}.

Definition _fetch_with_retry (url : string) : M (t * World) string :=
  Retry.wrapper (fun d => in_time (Clock.time_sleep (clock_env env) d))
                (in_time (Clock.random_random (clock_env env)))
                retry_policy None (_fetch_page url).

Definition scrape_listing_page (url : option string) (page : option Z)
    : M (t * World) (list ProjectListing * option string) :=
  let url := match url with
             | Some u => u
             | None =>
                 match page with
                 | Some n => if (n =? 0)%Z || negb (n >? 1)%Z then PROJECTS_URL
                             else build_url_page (n - 1)
                 | None => PROJECTS_URL
                 end
             end in
  try_except
    (html ← _fetch_with_retry url;
     r ← (fun s => (parse_listing env html url, s));
     stats_add "pages_scraped" 1;;
     stats_add "projects_found" (Z.of_nat (length (fst r)));;
     mret r)
    [ScraperError]
    (fun e => stats_add "errors" 1;; raise e).

Definition scrape_project_detail (project : ProjectListing)
    : M (t * World) ProjectDetail :=
  try_except
    (html ← _fetch_with_retry (detail_url project);
     detail ← (fun s => (parse_detail env html (detail_url project) project, s));
     stats_add "details_fetched" 1;;
     mret detail)
    [ScraperError]
    (fun e => stats_add "errors" 1;; mret (from_listing project)).

(** The body of [for project in projects]. *)
Definition emit (include_details : bool) (project : ProjectListing)
    : M (t * World) unit :=
  if include_details
  then try_except
         (detail ← scrape_project_detail project; yield (Detail detail))
         [Exception]
         (fun e => yield (Listing project))
  else yield (Listing project).

Fixpoint emit_all (include_details : bool) (projects : list ProjectListing)
    : M (t * World) unit :=
  match projects with
  | [] => mret tt
  | project :: projects' =>
      emit include_details project;; emit_all include_details projects'
  end.

(** [max_pages and pages_scraped >= max_pages] *)
Definition limit_reached (max_pages : option Z) (pages_scraped : Z) : bool :=
  match max_pages with
  | Some m => negb (m =? 0)%Z && (pages_scraped >=? m)%Z
  | None => false
  end.

(** The URL of the next listing page: [next_url] when it is set and
    not empty, or else by the page number. *)
Definition page_url (current_page : Z) (next_url : option string) : string :=
  let by_number := if (current_page =? 1)%Z then PROJECTS_URL
                   else build_url_page (current_page - 1) in
  match next_url with
  | Some u => if String.eqb u "" then by_number else u
  | None => by_number
  end.

(** How one turn of the [while True] loop ends. *)
Inductive Turn : Type :=
| Break
| Again (next_url : option string).

(** The [try] statement of the loop. *)
Definition turn (include_details : bool) (url : string) : M (t * World) Turn :=
  try_clauses
    (r ← scrape_listing_page (Some url) None;
     match fst r with
     | [] => mret Break
     | _ :: _ =>
         emit_all include_details (fst r);;
         match snd r with
         | Some u => if String.eqb u "" then mret Break else mret (Again (snd r))
         | None => mret Break
         end
     end)
    [ ([CloudflareBlockError], fun e => mret Break);
      ([ScraperError], fun e => stats_add "errors" 1;; mret Break) ].

(** How a run of the generator ends when it does not raise: the loop
    was left, or the model has no turn left to run. *)
Inductive Halt : Type := Finished | Unfinished.

Fixpoint crawl (turns : nat) (max_pages : option Z) (include_details : bool)
    (pages_scraped current_page : Z) (next_url : option string)
    : M (t * World) Halt :=
  match turns with
  | O => mret Unfinished
  | S turns' =>
      if limit_reached max_pages pages_scraped then mret Finished
      else
        step ← turn include_details (page_url current_page next_url);
        match step with
        | Break => mret Finished
        | Again next_url' =>
            crawl turns' max_pages include_details
                  (pages_scraped + 1) (current_page + 1) next_url'
        end
  end.

(** The generator, run until it is exhausted or for [turns] turns of
    its loop. *)
Definition scrape_projects (turns : nat) (max_pages : option Z)
    (include_details : bool) (start_page : Z) : M (t * World) Halt :=
  crawl turns max_pages include_details 0 start_page None.

End Methods.

End Scraper.

(* ===================================================================== *)
(** ** Vocabulary of the properties, and the scenarios they are tried on *)
(* ===================================================================== *)

(** [needle] occurs in [hay]. *)
Definition occurs (needle hay : string) : Prop :=
  exists before after, hay = before ++ needle ++ after.

Definition protection_status (status : Z) : Prop := status = 403 \/ status = 503.

Module Stated.
Import Net.

(** The block classifier as the specification words it,
    [is_block(content, status, headers)]: a protection status together
    with a signature in the content or a provider header. *)
Definition provider_header (r : Response) : bool :=
  has_header "cf-ray" r
  || PyStr.contains "cloudflare" (PyStr.lower (header "server" "" r)).

Definition is_block (r : Response) : bool :=
  ((status_code r =? 403)%Z || (status_code r =? 503)%Z)
  && (existsb (fun sig => PyStr.contains sig (text r)) HybridFetcher.blockers
      || provider_header r).

End Stated.

Module RetrySpec.

(** The outcome is a failure that the policy retries. *)
Definition retryable {A} (p : Retry.Policy) (r : Result A) : Prop :=
  exists e, r = Raise e /\ caught_by e (Retry.exceptions p) = true.

(** No delay the policy computes is negative, so that [time.sleep]
    accepts it. *)
Definition accepted_delays (p : Retry.Policy) : Prop :=
  (0 <= Retry.base_delay p)%Q /\ (0 <= Retry.exponential_base p)%Q
  /\ (0 <= Retry.max_delay p)%Q.

(** [x] lies within the range of the floats. *)
Definition in_range (x : Q) : Prop :=
  (- Retry.float_max <= x)%Q /\ (x <= Retry.float_max)%Q.

(** The powers of [exponential_base] the policy computes, those for the
    attempts before the last one, lie within the range of the floats, so
    that none raises an [OverflowError]. *)
Definition powers_in_range (p : Retry.Policy) : Prop :=
  forall attempt, 0 <= attempt < Retry.max_retries p ->
                  in_range (Retry.exponential_base p ^ attempt).

(** The delay after the failure of attempt [attempt], by the formula:
    [min(base_delay * exponential_base ** attempt, max_delay)]. *)
Definition capped_delay (p : Retry.Policy) (attempt : Z) : Q :=
  py_min (Retry.base_delay p * Retry.exponential_base p ^ attempt)%Q
         (Retry.max_delay p).


(** The outcome of invocation [attempt] ends the loop: a value, a failure
    the policy does not retry, or the failure of the last attempt. *)
Definition settles {A} (p : Retry.Policy) (attempt : nat) (r : Result A) : Prop :=
  match r with
  | Return _ => True
  | Raise e => caught_by e (Retry.exceptions p) = false
               \/ Z.of_nat attempt = Retry.max_retries p
  end.

(** The sleep after the failure of attempt [attempt] when [roll] values
    have been drawn from the generator before: the capped exponential
    delay, times a factor [0.5 + random.random()] when jitter is on. *)
Definition sleep_at (env : Clock.Env) (p : Retry.Policy) (attempt roll : nat) : Q :=
  if Retry.jitter p
  then (capped_delay p (Z.of_nat attempt) * ((1 # 2) + Clock.dice env roll))%Q
  else capped_delay p (Z.of_nat attempt).

(** The same for the [i]-th failure of a run that starts in world [w] and
    has no observer: the run draws one value per failure. *)
Definition sleep_length (env : Clock.Env) (p : Retry.Policy) (w : Clock.World)
    (i : nat) : Q :=
  sleep_at env p i (Clock.rolls w + i).

End RetrySpec.

(** A computation of the scraper that yields nothing. *)
Definition silent {A} (m : M (Scraper.t * Scraper.World) A) : Prop :=
  forall s, Scraper.yielded (snd (snd (m s))) = Scraper.yielded (snd s).

(** A computation of the scraper that leaves the counter [errors] as it
    is. *)
Definition uncounted {A} (m : M (Scraper.t * Scraper.World) A) : Prop :=
  forall s, Scraper.stats (fst (snd (m s))) !! "errors"
            = Scraper.stats (fst s) !! "errors".

Module Scenario.
Import Net.

(** A 403 that carries the provider's header and an empty body. *)
Definition bare_403 : Response :=
  {| status_code := 403; headers := {[ "cf-ray" := "8a1b2c3d4e5f-FRA" ]};
     text := "" |}.

(** A 403 without headers whose body has the challenge-platform marker. *)
Definition challenge_403 : Response :=
  {| status_code := 403; headers := ∅;
     text := "<script src='/cdn-cgi/challenge-platform/h/b'></script>" |}.

(** A clock that advances by a hundredth of a second at every
    interaction, and a generator that always returns one half. *)
Definition steady : Clock.Env :=
  {| Clock.lapse := fun _ => 1 # 100; Clock.dice := fun _ => 1 # 2 |}.

Definition dawn : Clock.World :=
  {| Clock.clock := 0; Clock.ticks := 0; Clock.rolls := 0; Clock.slept := [] |}.

(** A limiter that recorded a request at time 0. *)
Definition used_limiter : RateLimiter.t :=
  {| RateLimiter.min_delay := 1; RateLimiter.max_delay := 2;
     RateLimiter.last_request_time := Some 0%Q |}.

(** The policy and the function of [test_retry_on_failure]: two
    [ValueError]s, then success. *)
Definition test_policy : Retry.Policy :=
  {| Retry.max_retries := 3; Retry.base_delay := 1 # 100; Retry.max_delay := 60;
     Retry.exponential_base := 2; Retry.jitter := true;
     Retry.exceptions := [ValueError] |}.

Definition flaky_func (n : nat) : Result string :=
  if (n <? 2)%nat then Raise (builtin ValueError "Temporary error")
  else Return "success".

(** A policy whose base is below one: the delays shrink. *)
Definition shrinking : Retry.Policy :=
  {| Retry.max_retries := 3; Retry.base_delay := 1; Retry.max_delay := 60;
     Retry.exponential_base := 1 # 2; Retry.jitter := false;
     Retry.exceptions := [Exception] |}.

(** A policy whose second power is out of the floats' range:
    [exponential_base = 1e200]. *)
Definition exploding : Retry.Policy :=
  {| Retry.max_retries := 3; Retry.base_delay := 1; Retry.max_delay := 60;
     Retry.exponential_base := inject_Z (10 ^ 200); Retry.jitter := false;
     Retry.exceptions := [ValueError] |}.

(** A function that always fails with a [ValueError]. *)
Definition failing_func (n : nat) : Result string :=
  Raise (builtin ValueError "Temporary error").

(** A site behind a challenge: the lightweight backend gets the
    interstitial page with a 403, the browser gets through. *)
Definition challenged : Net.Env :=
  {| respond := fun b _ _ _ =>
       match b with
       | Lightweight => Return ("<title>Just a moment...</title>", 403)
       | Browser => Return ("<html>projects</html>", 200)
       end;
     answer := fun _ _ _ =>
       Return {| status_code := 200; headers := ∅; text := "<html>projects</html>" |} |}.

(** A site the lightweight backend cannot connect to. *)
Definition unreachable : Net.Env :=
  {| respond := fun b _ _ _ =>
       match b with
       | Lightweight => Raise (builtin ConnectionError "Connection refused")
       | Browser => Return ("<html>projects</html>", 200)
       end;
     answer := fun _ _ _ =>
       Return {| status_code := 200; headers := ∅; text := "<html>projects</html>" |} |}.

Definition with_fallback : HybridFetcher.t := HybridFetcher.__init__ (3 # 2) true.
Definition without_fallback : HybridFetcher.t := HybridFetcher.__init__ (3 # 2) false.

(** *** Crawls *)

Definition page_html : string := "<html>projects</html>".
Definition challenge_html : string := "<title>Just a moment...</title>".

Definition road : Models.ProjectListing :=
  {| Models.project_id := "55220-001";
     Models.title := "Road Improvement Project";
     Models.detail_url := "https://www.adb.org/projects/55220-001";
     Models.country := Some "Nepal"; Models.sector := Some "Transport";
     Models.status := Some "Active"; Models.approval_date := None;
     Models.project_type := None; Models.region := None |}.

Definition dam : Models.ProjectListing :=
  {| Models.project_id := "41924-014";
     Models.title := "Hydropower Project";
     Models.detail_url := "https://www.adb.org/projects/41924-014";
     Models.country := Some "Lao PDR"; Models.sector := Some "Energy";
     Models.status := Some "Closed"; Models.approval_date := None;
     Models.project_type := None; Models.region := None |}.

Definition parses_two : string -> string ->
    Result (list Models.ProjectListing * option string) :=
  fun _ _ => Return ([road; dam], None).

Definition parses_detail : string -> string -> Models.ProjectListing ->
    Result Models.ProjectDetail :=
  fun _ _ p => Return {| Models.basis := p;
                         Models.enrichment := {[ "borrower" := "Government" ]} |}.

(** Every answer of the site is a challenge page with a 403, for the
    backends and for the plain session alike. *)
Definition walled : Scraper.Env :=
  {| Scraper.clock_env := steady;
     Scraper.net_env :=
       {| respond := fun _ _ _ _ => Return (challenge_html, 403);
          answer := fun _ _ _ =>
            Return {| status_code := 403;
                      headers := {[ "cf-ray" := "8a1b2c3d4e5f-FRA" ]};
                      text := challenge_html |} |};
     Scraper.parse_listing := parses_two;
     Scraper.parse_detail := parses_detail;
     Scraper.py_int := fun _ => None |}.

(** The site answers, and the listing parser fails on the page. *)
Definition garbled : Scraper.Env :=
  {| Scraper.clock_env := steady;
     Scraper.net_env :=
       {| respond := fun _ _ _ _ => Return (page_html, 200);
          answer := fun _ _ _ =>
            Return {| status_code := 200; headers := ∅; text := page_html |} |};
     Scraper.parse_listing := fun _ url =>
       Raise (mkExc ParseError "No project container" (Some url) None None);
     Scraper.parse_detail := parses_detail;
     Scraper.py_int := fun _ => None |}.

(** The listing page is served; each detail page keeps answering 503,
    until the session's adapter gives up with a [RetryError]. *)
Definition details_down : Scraper.Env :=
  {| Scraper.clock_env := steady;
     Scraper.net_env :=
       {| respond := fun _ _ _ _ => Return (page_html, 200);
          answer := fun _ url _ =>
            if String.eqb url Scraper.PROJECTS_URL
            then Return {| status_code := 200; headers := ∅; text := page_html |}
            else Raise (builtin RetryError "Max retries exceeded: too many 503 error responses") |};
     Scraper.parse_listing := parses_two;
     Scraper.parse_detail := parses_detail;
     Scraper.py_int := fun _ => None |}.

(** The backends and the session serve every page. *)
Definition open_site : Scraper.Env :=
  {| Scraper.clock_env := steady;
     Scraper.net_env :=
       {| respond := fun _ _ _ _ => Return (page_html, 200);
          answer := fun _ _ _ =>
            Return {| status_code := 200; headers := ∅; text := page_html |} |};
     Scraper.parse_listing := parses_two;
     Scraper.parse_detail := parses_detail;
     Scraper.py_int := fun _ => None |}.

(** The first listing page shows one entry and a next link, the page
    behind the link shows the other entry and no link. *)
Definition two_pages : Scraper.Env :=
  {| Scraper.clock_env := steady;
     Scraper.net_env :=
       {| respond := fun _ _ _ _ => Return (page_html, 200);
          answer := fun _ _ _ =>
            Return {| status_code := 200; headers := ∅; text := page_html |} |};
     Scraper.parse_listing := fun _ url =>
       if String.eqb url Scraper.PROJECTS_URL
       then Return ([road], Some "https://www.adb.org/projects?page=1")
       else Return ([dam], None);
     Scraper.parse_detail := parses_detail;
     Scraper.py_int := fun _ => None |}.

(** The session times out on every request. *)
Definition timing_out : Scraper.Env :=
  {| Scraper.clock_env := steady;
     Scraper.net_env :=
       {| respond := fun _ _ _ _ => Raise (builtin Timeout "Read timed out");
          answer := fun _ _ _ => Raise (builtin Timeout "Read timed out") |};
     Scraper.parse_listing := parses_two;
     Scraper.parse_detail := parses_detail;
     Scraper.py_int := fun _ => None |}.

(** [ADBProjectScraper()] and [ADBProjectScraper(bypass_cloudflare=False)]. *)
Definition scraper : Scraper.t := Scraper.__init__ (3 # 2) 3 30 true "hybrid".
Definition plain_scraper : Scraper.t := Scraper.__init__ (3 # 2) 3 30 false "hybrid".

Definition start : Scraper.World :=
  {| Scraper.time := dawn; Scraper.net := []; Scraper.yielded := [] |}.

End Scenario.

(** *** Vocabulary of the further properties *)

Module Further.

(** The event involves the browser backend. *)
Definition browser_event (ev : Net.Event) : bool :=
  match ev with
  | Net.Fetched Net.Browser _ | Net.Closed Net.Browser => true
  | _ => false
  end.

(** As long as the instance holds no browser backend, the browser has
    been neither asked nor closed. *)
Definition no_browser_yet (s : HybridFetcher.t * Net.World) : Prop :=
  HybridFetcher._playwright (fst s) = None ->
  Forall (fun ev => browser_event ev = false) (snd s).

(** A sleep that took place was not negative, and under a fair generator
    it is at most one and a half times the cap. *)
Definition sleep_bounded (env : Clock.Env) (p : Retry.Policy) (d : Q) : Prop :=
  (0 <= d)%Q /\ (Clock.fair env -> (d <= (3 # 2) * Retry.max_delay p)%Q).

(** What the crawl may yield for the listing entry [p]: the entry itself,
    a detail made from the entry alone, or the detail the parser made of
    the entry's detail page. *)
Definition item_of (env : Scraper.Env) (p : Models.ProjectListing)
    (i : Models.Item) : Prop :=
  i = Models.Listing p
  \/ i = Models.Detail (Models.from_listing p)
  \/ exists html d,
       Scraper.parse_detail env html (Models.detail_url p) p = Return d
       /\ i = Models.Detail d.

(** [if next_url] for the pointer a listing page gave. *)
Definition has_next (next_url : option string) : bool :=
  match next_url with
  | Some u => negb (String.eqb u "")
  | None => false
  end.

(** The turns of the retry loop after which the wrapper may sleep: all
    but the one whose index is [max_retries]. *)
Definition sleeping_turns (p : Retry.Policy) (todo : list Z) : nat :=
  length (List.filter (fun attempt => negb (attempt =? Retry.max_retries p)%Z) todo).

End Further.

(* ===================================================================== *)
(** ** scraper.py: the methods beside the crawl *)
(* ===================================================================== *)

Module Lookup.
Import Models Scraper.

Definition BASE_URL : string := "https://www.adb.org".

(** [scrape_single_project]: the page of one project, parsed without a
    listing entry, or [None] after a [ScraperError].  [parse_page] is
    [DetailPageParser(html, url).parse()]. *)
Definition scrape_single_project (env : Env)
    (parse_page : string -> string -> Result ProjectDetail)
    (project_id : string) : M (t * World) (option ProjectDetail) :=
  let url := BASE_URL ++ "/projects/" ++ project_id in
  try_except
    (html ← _fetch_with_retry env url;
     detail ← ((fun s => (parse_page html url, s)) : M (t * World) ProjectDetail);
     mret (Some detail))
    [ScraperError]
    (fun e => mret None).

End Lookup.

Module Cases.
Import Net.

(** The site answers, and the listing parser trips over the page with
    an exception of its own. *)
Definition tripping : Scraper.Env :=
  {| Scraper.clock_env := Scenario.steady;
     Scraper.net_env :=
       {| respond := fun _ _ _ _ => Return (Scenario.page_html, 200);
          answer := fun _ _ _ =>
            Return {| status_code := 200; headers := ∅;
                      text := Scenario.page_html |} |};
     Scraper.parse_listing := fun _ _ =>
       Raise (builtin AttributeError "'NoneType' object has no attribute 'get'");
     Scraper.parse_detail := Scenario.parses_detail;
     Scraper.py_int := fun _ => None |}.

End Cases.

(* ===================================================================== *)
(** ** utils.py: the text helpers *)
(* ===================================================================== *)

(** The methods of [str] the helpers use.  A character stands for a code
    point below 256; among these, [str.isspace] holds for the ASCII
    controls 9 to 13 and 28 to 31, the space, and the code points 133
    and 160, and [\d] of a [str] pattern matches the ten ASCII digits. *)
Module PyText.

Definition isspace (c : ascii) : bool :=
  let n := nat_of_ascii c in
  ((9 <=? n) && (n <=? 13) || (28 <=? n) && (n <=? 32)
   || (n =? 133) || (n =? 160))%nat.

(** [s.split()]: one scan that gathers the maximal runs of characters
    that are not whitespace; [word] is the run being gathered. *)
Fixpoint scan (word : option string) (s : string) : list string :=
  match s with
  | EmptyString => match word with Some w => [w] | None => [] end
  | String c s' =>
      if isspace c
      then match word with
           | Some w => w :: scan None s'
           | None => scan None s'
           end
      else scan (Some (match word with
                       | Some w => w ++ String c EmptyString
                       | None => String c EmptyString
                       end)) s'
  end.

Definition split (s : string) : list string := scan None s.

(** [sep.join(words)] *)
Fixpoint join (sep : string) (words : list string) : string :=
  match words with
  | [] => EmptyString
  | [w] => w
  | w :: words' => w ++ sep ++ join sep words'
  end.

(** [s.lstrip()], [s.rstrip()] and [s.strip()] *)
Fixpoint lstrip (s : string) : string :=
  match s with
  | EmptyString => EmptyString
  | String c s' => if isspace c then lstrip s' else s
  end.

Fixpoint rstrip (s : string) : string :=
  match s with
  | EmptyString => EmptyString
  | String c s' =>
      match rstrip s' with
      | EmptyString => if isspace c then EmptyString else String c EmptyString
      | kept => String c kept
      end
  end.

Definition strip (s : string) : string := rstrip (lstrip s).

(** [not s] for a string *)
Definition falsy (s : string) : bool := String.eqb s "".

End PyText.

Module Utils.

Definition clean_text (text : option string) : option string :=
  match text with
  | None => None
  | Some text =>
      if PyText.falsy text then None
      else
        let text := PyText.join " " (PyText.split text) in
        let text := PyText.strip text in
        if PyText.falsy text then None else Some text
  end.

Definition parse_amount (amount_string : option string) : option string :=
  match amount_string with
  | None => None
  | Some a => if PyText.falsy a then None else clean_text amount_string
  end.

End Utils.

(** Vocabulary for texts. *)
Module Text.

(** No character of [s] is whitespace. *)
Fixpoint solid (s : string) : bool :=
  match s with
  | EmptyString => true
  | String c s' => negb (PyText.isspace c) && solid s'
  end.

(** A word: not empty, and without whitespace. *)
Definition word (w : string) : Prop := w <> "" /\ solid w = true.

(** Every character of [s] is whitespace. *)
Fixpoint blank (s : string) : bool :=
  match s with
  | EmptyString => true
  | String c s' => PyText.isspace c && blank s'
  end.

(** [s] is not empty, neither starts nor ends with whitespace, and its
    only whitespace is single spaces: [tidy_from after_space s] reads [s]
    knowing whether the character before was a space (or the start). *)
Fixpoint tidy_from (after_space : bool) (s : string) : bool :=
  match s with
  | EmptyString => negb after_space
  | String c s' =>
      if PyText.isspace c
      then negb after_space && Ascii.eqb c " " && tidy_from true s'
      else tidy_from false s'
  end.

Definition tidy (s : string) : bool := tidy_from true s.

End Text.

(* ===================================================================== *)
(** ** cloudflare.py: the two backends *)
(* ===================================================================== *)

(** [_rate_limit], which [CloudscraperFetcher] and [PlaywrightFetcher]
    both define, with the same text but for the bounds [lo] and [hi] of
    the jitter; [delay] and [last] read the attributes [delay] and
    [_last_request] of the object and [set_last] assigns the latter. *)
Definition rate_limit {O : Type} (env : Clock.Env)
    (delay last : O -> Q) (set_last : Q -> O -> O) (lo hi : Q)
    : M (O * Clock.World) unit :=
  o ← self;
  now ← world (Clock.time_time env);
  let elapsed := (now - last o)%Q in
  (if Qltb elapsed (delay o)
   then jitter ← world (Clock.random_uniform env lo hi);
        world (Clock.time_sleep env (delay o - elapsed + jitter)%Q)
   else mret tt);;
  now ← world (Clock.time_time env);
  update (set_last now).

Module CloudscraperFetcher.

Record t : Type := {
  delay : Q;
  _session : bool;          (* whether a session has been created *)
  _last_request : Q
}.

Definition __init__ (delay : Q) : t :=
  {| delay := delay; _session := false; _last_request := 0 |}.

Definition set_last_request (v : Q) (o : t) : t :=
  {| delay := delay o; _session := _session o; _last_request := v |}.

Definition _rate_limit (env : Clock.Env) : M (t * Clock.World) unit :=
  rate_limit env delay _last_request set_last_request (1 # 10) (1 # 2).

End CloudscraperFetcher.

(** The objects of the Playwright library, as an oracle: what each call
    of the driver does is decided by the environment, by the number of
    earlier calls. *)
Module Driver.

Inductive Call : Type :=
| Import                                  (* from playwright.sync_api import ... *)
| Start                                   (* sync_playwright().start() *)
| Launch                                  (* chromium.launch(...) *)
| NewContext                              (* browser.new_context(...) *)
| AddInitScript                           (* context.add_init_script(...) *)
| NewPage                                 (* context.new_page() *)
| Goto (url : string) (timeout : Z)       (* page.goto(url, timeout=...) *)
| WaitForTimeout (ms : Z)                 (* page.wait_for_timeout(ms) *)
| Content                                 (* page.content() *)
| ClosePage | CloseContext | CloseBrowser | Stop.

Record Env : Type := {
  (* the outcome of a call that gives no value *)
  outcome : nat -> Call -> Result unit;
  (* [page.goto]: the status of the response, or [None] for no response *)
  response : nat -> string -> Z -> Result (option Z);
  (* [page.content()] *)
  shown : nat -> Result string
}.

(** The calls made, the latest first. *)
Definition World : Type := list Call.

Definition call (env : Env) (c : Call) : M World unit :=
  fun w => (outcome env (length w) c, c :: w).

Definition goto (env : Env) (url : string) (timeout : Z) : M World (option Z) :=
  fun w => (response env (length w) url timeout, Goto url timeout :: w).

Definition content (env : Env) : M World string :=
  fun w => (shown env (length w), Content :: w).

End Driver.

Module PlaywrightFetcher.

Record t : Type := {
  headless : bool;
  delay : Q;
  slow_mo : Z;
  (* whether the attribute holds an object ([true]) or [None] *)
  _browser : bool;
  _context : bool;
  _page : bool;
  _playwright : bool;
  _last_request : Q
}.

Definition __init__ (headless : bool) (delay : Q) (slow_mo : Z) : t :=
  {| headless := headless; delay := delay; slow_mo := slow_mo;
     _browser := false; _context := false; _page := false;
     _playwright := false; _last_request := 0 |}.

Definition set_browser (v : bool) (o : t) : t :=
  {| headless := headless o; delay := delay o; slow_mo := slow_mo o;
     _browser := v; _context := _context o; _page := _page o;
     _playwright := _playwright o; _last_request := _last_request o |}.

Definition set_context (v : bool) (o : t) : t :=
  {| headless := headless o; delay := delay o; slow_mo := slow_mo o;
     _browser := _browser o; _context := v; _page := _page o;
     _playwright := _playwright o; _last_request := _last_request o |}.

Definition set_page (v : bool) (o : t) : t :=
  {| headless := headless o; delay := delay o; slow_mo := slow_mo o;
     _browser := _browser o; _context := _context o; _page := v;
     _playwright := _playwright o; _last_request := _last_request o |}.

Definition set_playwright (v : bool) (o : t) : t :=
  {| headless := headless o; delay := delay o; slow_mo := slow_mo o;
     _browser := _browser o; _context := _context o; _page := _page o;
     _playwright := v; _last_request := _last_request o |}.

Definition set_last_request (v : Q) (o : t) : t :=
  {| headless := headless o; delay := delay o; slow_mo := slow_mo o;
     _browser := _browser o; _context := _context o; _page := _page o;
     _playwright := _playwright o; _last_request := v |}.

Record Env : Type := {
  clock_env : Clock.Env;
  driver_env : Driver.Env
}.

Record World : Type := {
  time : Clock.World;
  calls : Driver.World
}.

Definition in_time {A} (m : M (t * Clock.World) A) : M (t * World) A :=
  fun s => let '(r, (o, c)) := m (fst s, time (snd s)) in
           (r, (o, {| time := c; calls := calls (snd s) |})).

Definition drive {A} (m : M Driver.World A) : M (t * World) A :=
  world (fun w => let (r, d) := m (calls w) in
                  (r, {| time := time w; calls := d |})).

Definition max_wait : Z := 30000.
Definition wait_interval : Z := 2000.

Section Methods.
Variable env : Env.

Definition _ensure_browser : M (t * World) unit :=
  o ← self;
  if _browser o then mret tt
  else
    try_clauses
      (drive (Driver.call (driver_env env) Driver.Import);;
       drive (Driver.call (driver_env env) Driver.Start);;
       update (set_playwright true);;
       drive (Driver.call (driver_env env) Driver.Launch);;
       update (set_browser true);;
       drive (Driver.call (driver_env env) Driver.NewContext);;
       update (set_context true);;
       drive (Driver.call (driver_env env) Driver.AddInitScript);;
       drive (Driver.call (driver_env env) Driver.NewPage);;
       update (set_page true))
      [ ([ImportError],
         fun e => raise (builtin ImportError
                    "Playwright is not installed. Run: pip install playwright && playwright install chromium"));
        ([Exception],
         fun e => raise (builtin RuntimeError
                    ("Failed to initialize Playwright: " ++ exc_message e))) ].

Definition _rate_limit : M (t * World) unit :=
  in_time (rate_limit (clock_env env) delay _last_request set_last_request
             (2 # 10) 1).

(** [self._page.m(...)]: an [AttributeError] when [_page] is [None]. *)
Definition on_page {A} (method : string) (m : M Driver.World A) : M (t * World) A :=
  o ← self;
  if _page o then drive m
  else raise (builtin AttributeError
                ("'NoneType' object has no attribute '" ++ method ++ "'")).

Definition challenged (content : string) : bool :=
  PyStr.contains "Checking your browser" content
  || PyStr.contains "Just a moment" content.

(** The [while] loop of [fetch], for at most [fuel] tests of its
    condition; [None] when they do not suffice. *)
Fixpoint challenge_wait (fuel : nat) (waited : Z) (content : string)
    : M (t * World) (option string) :=
  match fuel with
  | O => mret None
  | S fuel' =>
      if (waited <? max_wait)%Z && challenged content
      then on_page "wait_for_timeout"
             (Driver.call (driver_env env) (Driver.WaitForTimeout wait_interval));;
           content' ← on_page "content" (Driver.content (driver_env env));
           challenge_wait fuel' (waited + wait_interval) content'
      else mret (Some content)
  end.

(** [fetch]; its [except Exception as e: ...; raise] passes every
    exception on.  [None] when [fuel] did not suffice for the loop. *)
Definition fetch (fuel : nat) (url : string) (timeout : Z)
    : M (t * World) (option (string * Z)) :=
  _ensure_browser;;
  _rate_limit;;
  response ← on_page "goto" (Driver.goto (driver_env env) url (timeout * 1000));
  on_page "wait_for_timeout"
    (Driver.call (driver_env env) (Driver.WaitForTimeout 3000));;
  content ← on_page "content" (Driver.content (driver_env env));
  waited ← challenge_wait fuel 0 content;
  match waited with
  | None => mret None
  | Some _ =>
      on_page "wait_for_timeout"
        (Driver.call (driver_env env) (Driver.WaitForTimeout 2000));;
      content ← on_page "content" (Driver.content (driver_env env));
      let status := match response with Some status => status | None => 200 end in
      mret (Some (content, status))
  end.

Definition close : M (t * World) unit :=
  o ← self;
  (if _page o then drive (Driver.call (driver_env env) Driver.ClosePage)
   else mret tt);;
  (if _context o then drive (Driver.call (driver_env env) Driver.CloseContext)
   else mret tt);;
  (if _browser o then drive (Driver.call (driver_env env) Driver.CloseBrowser)
   else mret tt);;
  (if _playwright o then drive (Driver.call (driver_env env) Driver.Stop)
   else mret tt);;
  update (set_page false);;
  update (set_context false);;
  update (set_browser false);;
  update (set_playwright false).

End Methods.

End PlaywrightFetcher.

(** Vocabulary for the driver's calls. *)
Module Watch.
Import PlaywrightFetcher.

(** The time the calls spent in [wait_for_timeout], in milliseconds. *)
Fixpoint waited_ms (made : list Driver.Call) : Z :=
  match made with
  | [] => 0
  | Driver.WaitForTimeout ms :: made' => ms + waited_ms made'
  | _ :: made' => waited_ms made'
  end.

(** The computation only adds calls, and these wait at most [bound]
    milliseconds in total. *)
Definition waits_at_most {A} (bound : Z) (m : M (t * World) A) : Prop :=
  forall s, exists new,
    calls (snd (snd (m s))) = (new ++ calls (snd s))%list
    /\ 0 <= waited_ms new <= bound.

(** The steps of [_ensure_browser] that come after the launch. *)
Definition after_launch (c : Driver.Call) : bool :=
  match c with
  | Driver.NewContext | Driver.AddInitScript | Driver.NewPage => true
  | _ => false
  end.

(** The closers [close] has to call for the attributes that are set. *)
Definition closers (o : t) : list Driver.Call :=
  (if _page o then [Driver.ClosePage] else [])
  ++ (if _context o then [Driver.CloseContext] else [])
  ++ (if _browser o then [Driver.CloseBrowser] else [])
  ++ (if _playwright o then [Driver.Stop] else []).

(** A page that never gets past the challenge. *)
Definition stuck_site : Env :=
  {| clock_env := Scenario.steady;
     driver_env :=
       {| Driver.outcome := fun _ _ => Return tt;
          Driver.response := fun _ _ _ => Return (Some 403);
          Driver.shown := fun _ => Return Scenario.challenge_html |} |}.

(** A driver whose browser starts but cannot open a context. *)
Definition no_context : Env :=
  {| clock_env := Scenario.steady;
     driver_env :=
       {| Driver.outcome := fun _ c =>
            match c with
            | Driver.NewContext => Raise (builtin Exception "Target closed")
            | _ => Return tt
            end;
          Driver.response := fun _ _ _ => Return (Some 200);
          Driver.shown := fun _ => Return Scenario.page_html |} |}.

Definition fresh : t := __init__ false 2 100.

Definition start : World := {| time := Scenario.dawn; calls := [] |}.

End Watch.

(* ===================================================================== *)
(** * Properties *)
(* ===================================================================== *)

(** Unfolding the monad. *)
Ltac py_unfold :=
  cbv beta iota zeta delta
    [mbind M_bind bind mret M_ret ret raise self update world on_field
     try_except try_clauses dispatch fst snd].

(** ** Strings *)

Lemma startswith_spec (p s : string) :
  PyStr.startswith p s = true <-> exists after, s = p ++ after.
Proof.
  revert s; induction p as [|a p IH]; intros s; simpl.
  - split; [intros _; now exists s | easy].
  - destruct s as [|b s].
    + split; [discriminate | intros [after H]; discriminate].
    + destruct (Ascii.eqb_spec a b) as [->|Hne].
      * rewrite IH. split; intros [after H]; exists after.
        -- now rewrite H.
        -- now injection H.
      * split; [discriminate | intros [after H]; injection H; congruence].
Qed.

Lemma contains_spec (needle hay : string) :
  PyStr.contains needle hay = true <-> occurs needle hay.
Proof.
  induction hay as [|b hay IH]; simpl.
  - destruct (PyStr.startswith needle "") eqn:E.
    + split; [intros _ | easy].
      apply startswith_spec in E as [after E]. now exists "", after.
    + split; [discriminate|].
      intros ([|c before] & after & H); simpl in H.
      * assert (PyStr.startswith needle "" = true)
          by (apply startswith_spec; now exists after).
        congruence.
      * discriminate.
  - destruct (PyStr.startswith needle (String b hay)) eqn:E.
    + split; [intros _ | easy].
      apply startswith_spec in E as [after E]. now exists "", after.
    + rewrite IH. split.
      * intros (before & after & ->). now exists (String b before), after.
      * intros ([|c before] & after & H); simpl in H.
        -- assert (PyStr.startswith needle (String b hay) = true)
             by (apply startswith_spec; now exists after).
           congruence.
        -- injection H as _ ->. now exists before, after.
Qed.

(** ** The two block classifiers *)

Section Classifier.
Import Net.

Lemma protection_status_spec (status : Z) :
  (status =? 403)%Z || (status =? 503)%Z = true <-> protection_status status.
Proof. unfold protection_status. rewrite orb_true_iff, !Z.eqb_eq. tauto. Qed.

Lemma is_blocked_iff (content : string) (status : Z) :
  HybridFetcher._is_blocked content status = true <->
  protection_status status /\
  exists sig, In sig HybridFetcher.blockers /\ occurs sig content.
Proof.
  unfold HybridFetcher._is_blocked.
  destruct ((status =? 403)%Z || (status =? 503)%Z) eqn:E.
  - apply protection_status_spec in E. rewrite existsb_exists.
    split.
    + intros (sig & Hin & Hc). split; [assumption|].
      exists sig. now rewrite <- contains_spec.
    + intros (_ & sig & Hin & Hc). exists sig. now rewrite contains_spec.
  - split; [discriminate|]. intros [H _].
    apply protection_status_spec in H. congruence.
Qed.

Lemma is_cloudflare_block_iff (r : Response) :
  Scraper._is_cloudflare_block r = true <->
  protection_status (status_code r) /\
  (is_Some (headers r !! "cf-ray")
   \/ occurs "cloudflare" (PyStr.lower (header "server" "" r))
   \/ occurs "Checking your browser" (PyStr.take 1000 (text r))
   \/ occurs "cf-browser-verification" (PyStr.take 1000 (text r))
   \/ occurs "Just a moment..." (PyStr.take 500 (text r))).
Proof.
  unfold Scraper._is_cloudflare_block.
  rewrite andb_true_iff, protection_status_spec.
  cbn [existsb id]. rewrite !orb_true_iff, !contains_spec.
  unfold has_header. rewrite bool_decide_eq_true.
  change (PyStr.lower "cf-ray") with "cf-ray".
  intuition discriminate.
Qed.

End Classifier.

(** C4, as stated, fails for each classifier: [HybridFetcher._is_blocked]
    does not look at headers, so a 403 with the provider's header and no
    signature is not blocked; [_is_cloudflare_block] knows three of the
    signatures only, so a 403 whose body has the challenge-platform marker
    is not blocked. *)
Lemma C4_counterexample :
  (Stated.is_block Scenario.bare_403 = true
   /\ HybridFetcher._is_blocked (Net.text Scenario.bare_403)
        (Net.status_code Scenario.bare_403) = false)
  /\ (Stated.is_block Scenario.challenge_403 = true
      /\ Scraper._is_cloudflare_block Scenario.challenge_403 = false).
Proof. repeat split; vm_compute; reflexivity. Qed.

(** C4, amended: [HybridFetcher._is_blocked] declares a response blocked
    exactly when the status is 403 or 503 and the content contains one of
    its five signatures; [ADBProjectScraper._is_cloudflare_block] exactly
    when the status is 403 or 503 and the [cf-ray] header is present, or
    the [server] header mentions cloudflare, or one of its three phrases
    occurs at the start of the body; and neither ever declares a 2xx
    response blocked, whatever the content and the headers. *)
Theorem C4_block_classifiers :
  (forall content status,
     HybridFetcher._is_blocked content status = true <->
     protection_status status /\
     exists sig, In sig HybridFetcher.blockers /\ occurs sig content)
  /\ (forall r,
       Scraper._is_cloudflare_block r = true <->
       protection_status (Net.status_code r) /\
       (is_Some (Net.headers r !! "cf-ray")
        \/ occurs "cloudflare" (PyStr.lower (Net.header "server" "" r))
        \/ occurs "Checking your browser" (PyStr.take 1000 (Net.text r))
        \/ occurs "cf-browser-verification" (PyStr.take 1000 (Net.text r))
        \/ occurs "Just a moment..." (PyStr.take 500 (Net.text r))))
  /\ (forall content status hdrs,
       (200 <= status < 300)%Z ->
       HybridFetcher._is_blocked content status = false
       /\ Scraper._is_cloudflare_block
            {| Net.status_code := status; Net.headers := hdrs;
               Net.text := content |} = false).
Proof.
  split; [exact is_blocked_iff|]. split; [exact is_cloudflare_block_iff|].
  intros content status hdrs Hs. split.
  - destruct (HybridFetcher._is_blocked content status) eqn:E; [|reflexivity].
    apply is_blocked_iff in E as [[?|?] _]; lia.
  - destruct (Scraper._is_cloudflare_block _) eqn:E; [|reflexivity].
    apply is_cloudflare_block_iff in E as [[?|?] _]; simpl in *; lia.
Qed.

Lemma C4_witness :
  HybridFetcher._is_blocked "Just a moment" 200 = false
  /\ Scraper._is_cloudflare_block
       {| Net.status_code := 200;
          Net.headers := {[ "cf-ray" := "8a1b2c3d4e5f-FRA" ]};
          Net.text := "Just a moment" |} = false.
Proof.
  apply (proj2 (proj2 C4_block_classifiers)). lia.
Defined.

(** ** The pacer *)

Lemma Qltb_true (x y : Q) : Qltb x y = true <-> (x < y)%Q.
Proof.
  unfold Qltb. rewrite negb_true_iff, <- not_true_iff_false, Qle_bool_iff.
  split; [apply Qnot_le_lt | apply Qlt_not_le].
Qed.

Lemma Qltb_false (x y : Q) : Qltb x y = false <-> (y <= x)%Q.
Proof. unfold Qltb. now rewrite negb_false_iff, Qle_bool_iff. Qed.

Lemma uniform_between (lo hi r : Q) :
  (lo <= hi)%Q -> (0 <= r)%Q -> (r < 1)%Q ->
  (lo <= lo + (hi - lo) * r)%Q /\ (lo + (hi - lo) * r <= hi)%Q.
Proof.
  intros Hle H0 H1.
  assert (0 <= (hi - lo) * r)%Q by (apply Qmult_le_0_compat; lra).
  assert ((hi - lo) * r <= (hi - lo) * 1)%Q.
  { rewrite !(Qmult_comm (hi - lo)). apply Qmult_le_compat_r; lra. }
  lra.
Qed.


(** ** The backoff retrier *)

Section RetrySteps.
Context {St A : Type}.
Variable time_sleep : Q -> M St unit.
Variable random_random : M St Q.
Variable p : Retry.Policy.
Variable on_retry : option (PyExc -> Z -> M St unit).
Variable func : M St A.

Abbreviation attempts := (Retry.attempts time_sleep random_random p on_retry func).
Abbreviation backoff := (Retry.backoff time_sleep random_random p on_retry).

(** One turn of the loop, by what the wrapped function does. *)
Lemma attempts_return attempt todo last s v s' :
  func s = (Return v, s') ->
  attempts (attempt :: todo) last s = (Return v, s').
Proof. intros H. cbn [Retry.attempts]. py_unfold. now rewrite H. Qed.

Lemma attempts_uncaught attempt todo last s e s' :
  func s = (Raise e, s') -> caught_by e (Retry.exceptions p) = false ->
  attempts (attempt :: todo) last s = (Raise e, s').
Proof. intros H Hc. cbn [Retry.attempts]. py_unfold. now rewrite H, Hc. Qed.

Lemma attempts_exhausted todo last s e s' :
  func s = (Raise e, s') -> caught_by e (Retry.exceptions p) = true ->
  attempts (Retry.max_retries p :: todo) last s = (Raise e, s').
Proof.
  intros H Hc. cbn [Retry.attempts]. py_unfold. now rewrite H, Hc, Z.eqb_refl.
Qed.

Lemma attempts_retry attempt todo last s e s' s'' :
  func s = (Raise e, s') -> caught_by e (Retry.exceptions p) = true ->
  attempt <> Retry.max_retries p ->
  backoff e attempt s' = (Return tt, s'') ->
  attempts (attempt :: todo) last s = attempts todo (Some e) s''.
Proof.
  intros H Hc Hne Hb. apply Z.eqb_neq in Hne.
  cbn [Retry.attempts]. py_unfold. now rewrite H, Hc, Hne, Hb.
Qed.

End RetrySteps.

Section RetryRuns.
Import RetrySpec.
Context {O A : Type}.
Variable env : Clock.Env.
Variable p : Retry.Policy.
Variable on_retry : option (PyExc -> Z -> M (O * Clock.World) unit).

Lemma py_min_nonneg (x y : Q) : (0 <= x)%Q -> (0 <= y)%Q -> (0 <= py_min x y)%Q.
Proof. intros. unfold py_min. now destruct (Qltb y x). Qed.

Lemma capped_delay_nonneg (attempt : Z) :
  accepted_delays p -> (0 <= capped_delay p attempt)%Q.
Proof.
  intros (Hb & He & Hm). apply py_min_nonneg; [|assumption].
  apply Qmult_le_0_compat; [assumption|]. now apply Qpower_0_le.
Qed.

(** A power within the range of the floats is computed, any other
    raises. *)
Lemma float_pow_in_range (x : Q) (n : Z) :
  in_range (x ^ n) -> Retry.float_pow x n = Return (x ^ n)%Q.
Proof.
  intros [Hlo Hhi]. unfold Retry.float_pow. cbv zeta.
  apply Qltb_false in Hlo, Hhi. now rewrite Hlo, Hhi.
Qed.

Lemma float_pow_overflow (x : Q) (n : Z) :
  ~ in_range (x ^ n) ->
  Retry.float_pow x n
  = Raise (builtin OverflowError "(34, 'Numerical result out of range')").
Proof.
  intros Hout. unfold Retry.float_pow. cbv zeta.
  destruct (Qltb Retry.float_max (x ^ n)) eqn:Ehi; [reflexivity|].
  destruct (Qltb (x ^ n) (- Retry.float_max)) eqn:Elo; [reflexivity|].
  exfalso. apply Hout. split; now apply Qltb_false.
Qed.

Lemma backoff_delay_in_range (attempt : Z) :
  in_range (Retry.exponential_base p ^ attempt) ->
  Retry.backoff_delay p attempt = Return (capped_delay p attempt).
Proof.
  intros H. unfold Retry.backoff_delay. now rewrite float_pow_in_range.
Qed.

Lemma backoff_delay_overflow (attempt : Z) :
  ~ in_range (Retry.exponential_base p ^ attempt) ->
  Retry.backoff_delay p attempt
  = Raise (builtin OverflowError "(34, 'Numerical result out of range')").
Proof.
  intros H. unfold Retry.backoff_delay. now rewrite float_pow_overflow.
Qed.

Lemma sleep_returns (d : Q) (o : O) (w : Clock.World) :
  (0 <= d)%Q ->
  exists w', world (Clock.time_sleep env d) (o, w) = (Return tt, (o, w'))
             /\ Clock.slept w' = d :: Clock.slept w
             /\ Clock.rolls w' = Clock.rolls w.
Proof.
  intros Hd. unfold Clock.time_sleep. py_unfold.
  apply Qltb_false in Hd. rewrite Hd. eexists. split; [reflexivity|].
  split; reflexivity.
Qed.


End RetryRuns.

Section RetryScripted.
Import RetrySpec.
Context {A : Type}.
Variable env : Clock.Env.
Variable p : Retry.Policy.
Variable script : nat -> Result A.
Hypothesis env_fair : Clock.fair env.
Hypothesis p_accepted : accepted_delays p.

(** The power computed after the failure of attempt [attempt] is within
    range. *)
Abbreviation power_in_range attempt :=
  (in_range (Retry.exponential_base p ^ Z.of_nat attempt)).

Abbreviation loop on_retry :=
  (Retry.attempts (fun d => world (Clock.time_sleep env d))
     (world (Clock.random_random env)) p on_retry
     (@Retry.scripted A Clock.World script)).


(** Without an observer the sleeps of the run are known exactly. *)
Lemma backoff_sleeps (e : PyExc) (attempt o : nat) (w : Clock.World) :
  power_in_range attempt ->
  exists w',
    Retry.backoff (fun d => world (Clock.time_sleep env d))
      (world (Clock.random_random env)) p None e (Z.of_nat attempt) (o, w)
    = (Return tt, (o, w'))
    /\ Clock.slept w' = sleep_at env p attempt (Clock.rolls w) :: Clock.slept w
    /\ (Retry.jitter p = true -> Clock.rolls w' = S (Clock.rolls w)).
Proof.
  intros Ha. destruct env_fair as [_ Hdice].
  pose proof (capped_delay_nonneg p (Z.of_nat attempt) p_accepted) as Hd.
  unfold Retry.backoff, sleep_at. py_unfold.
  rewrite (backoff_delay_in_range p _ Ha).
  destruct (Retry.jitter p).
  - unfold Clock.random_random at 1. cbv beta iota zeta.
    destruct (Hdice (Clock.rolls w)) as [Hr _].
    assert (Hd' : (0 <= capped_delay p (Z.of_nat attempt)
                        * ((1 # 2) + Clock.dice env (Clock.rolls w)))%Q)
      by (apply Qmult_le_0_compat; [assumption | lra]).
    destruct (sleep_returns env _ o
                {| Clock.clock := Clock.clock w; Clock.ticks := Clock.ticks w;
                   Clock.rolls := S (Clock.rolls w);
                   Clock.slept := Clock.slept w |} Hd') as (w' & Hs & Hsl & Hro).
    exists w'. split; [exact Hs|]. split; [exact Hsl|]. intros _. exact Hro.
  - destruct (sleep_returns env _ o w Hd) as (w' & Hs & Hsl & Hro).
    exists w'. split; [exact Hs|]. split; [exact Hsl|]. discriminate.
Qed.

Lemma sleep_at_roll (attempt r r' : nat) :
  (Retry.jitter p = true -> r = r') -> sleep_at env p attempt r = sleep_at env p attempt r'.
Proof. unfold sleep_at. destruct (Retry.jitter p); [intros ->|]; auto. Qed.

Lemma attempts_sleeps (k : nat) :
  forall a n last w,
    (k < n)%nat ->
    Z.of_nat (a + k) <= Retry.max_retries p ->
    (forall i, (i < k)%nat -> retryable p (script (a + i))) ->
    (forall i, (i < k)%nat -> power_in_range (a + i)) ->
    settles p (a + k) (script (a + k)) ->
    exists w',
      loop None (map Z.of_nat (seq a n)) last (a, w)
      = (script (a + k), (S (a + k), w'))
      /\ Clock.slept w'
         = (rev (map (fun i => sleep_at env p (a + i) (Clock.rolls w + i)) (seq 0 k))
            ++ Clock.slept w)%list.
Proof.
  induction k as [|k IH]; intros a n last w Hn Hmax Hfail Hin Hend.
  - destruct n as [|n]; [lia|]. rewrite Nat.add_0_r in *.
    exists w. split; [|reflexivity].
    cbn [seq map] in *.
    destruct (script a) as [v|e] eqn:E.
    + apply attempts_return. unfold Retry.scripted. cbn. now rewrite E.
    + destruct (caught_by e (Retry.exceptions p)) eqn:Ec.
      * destruct Hend as [Hend|Hend]; [congruence|]. rewrite Hend.
        apply attempts_exhausted; [|assumption].
        unfold Retry.scripted. cbn. now rewrite E.
      * apply attempts_uncaught; [|assumption].
        unfold Retry.scripted. cbn. now rewrite E.
  - destruct n as [|n]; [lia|]. cbn [seq map].
    destruct (Hfail 0%nat ltac:(lia)) as (e & E & Ec).
    rewrite Nat.add_0_r in E.
    assert (Ha : power_in_range a).
    { specialize (Hin 0%nat ltac:(lia)). now rewrite Nat.add_0_r in Hin. }
    destruct (backoff_sleeps e a (S a) w Ha) as (w1 & Hb & Hsl & Hro).
    erewrite attempts_retry; [| unfold Retry.scripted; cbn; now rewrite E
                              | assumption | lia | exact Hb].
    destruct (IH (S a) n (Some e) w1) as (w' & Hw' & Hsl').
    + lia.
    + replace (S a + k)%nat with (a + S k)%nat by lia. assumption.
    + intros i Hi. replace (S a + i)%nat with (a + S i)%nat by lia.
      apply Hfail. lia.
    + intros i Hi. replace (S a + i)%nat with (a + S i)%nat by lia.
      apply Hin. lia.
    + replace (S a + k)%nat with (a + S k)%nat by lia. assumption.
    + exists w'. split.
      * rewrite Hw'. now replace (S a + k)%nat with (a + S k)%nat by lia.
      * rewrite Hsl', Hsl. cbn [seq map rev].
        rewrite <- seq_shift, map_map, Nat.add_0_r.
        rewrite <- app_assoc. cbn [app]. f_equal.
        -- f_equal. apply map_ext. intros i.
           replace (S a + i)%nat with (a + S i)%nat by lia.
           apply sleep_at_roll. intros Hj. rewrite (Hro Hj). lia.
        -- now rewrite Nat.add_0_r.
Qed.

(** The turn in which the power is out of range: the failure is caught,
    the delay is computed, and the [OverflowError] leaves the wrapper
    before anything is slept. *)
Lemma attempts_overflows_now attempt todo last (a : nat) w e :
  script a = Raise e -> caught_by e (Retry.exceptions p) = true ->
  attempt <> Retry.max_retries p ->
  ~ in_range (Retry.exponential_base p ^ attempt) ->
  loop None (attempt :: todo) last (a, w)
  = (Raise (builtin OverflowError "(34, 'Numerical result out of range')"),
     (S a, w)).
Proof.
  intros E Ec Hne Hout. apply Z.eqb_neq in Hne.
  cbn [Retry.attempts]. unfold try_except, mbind, M_bind, bind.
  unfold Retry.scripted at 1. cbn [fst snd]. rewrite E. cbn [mret M_ret ret].
  rewrite Ec, Hne. unfold Retry.backoff, mbind, M_bind, bind.
  now rewrite (backoff_delay_overflow p _ Hout).
Qed.

(** A run whose power overflows after the failure of attempt [a + k]:
    the wrapper has slept [k] times and raises the [OverflowError] after
    invocation [a + k]. *)
Lemma attempts_overflow (k : nat) :
  forall a n last w,
    (k < n)%nat ->
    Z.of_nat (a + k) < Retry.max_retries p ->
    (forall i, (i <= k)%nat -> retryable p (script (a + i))) ->
    (forall i, (i < k)%nat -> power_in_range (a + i)) ->
    ~ power_in_range (a + k) ->
    exists w',
      loop None (map Z.of_nat (seq a n)) last (a, w)
      = (Raise (builtin OverflowError "(34, 'Numerical result out of range')"),
         (S (a + k), w'))
      /\ Clock.slept w'
         = (rev (map (fun i => sleep_at env p (a + i) (Clock.rolls w + i)) (seq 0 k))
            ++ Clock.slept w)%list.
Proof.
  induction k as [|k IH]; intros a n last w Hn Hmax Hfail Hin Hout.
  - destruct n as [|n]; [lia|]. rewrite Nat.add_0_r in *.
    exists w. split; [|reflexivity]. cbn [seq map].
    destruct (Hfail 0%nat ltac:(lia)) as (e & E & Ec).
    rewrite Nat.add_0_r in E.
    apply (attempts_overflows_now _ _ _ _ _ e); [assumption | assumption | lia | assumption].
  - destruct n as [|n]; [lia|]. cbn [seq map].
    destruct (Hfail 0%nat ltac:(lia)) as (e & E & Ec).
    rewrite Nat.add_0_r in E.
    assert (Ha : power_in_range a).
    { specialize (Hin 0%nat ltac:(lia)). now rewrite Nat.add_0_r in Hin. }
    destruct (backoff_sleeps e a (S a) w Ha) as (w1 & Hb & Hsl & Hro).
    erewrite attempts_retry; [| unfold Retry.scripted; cbn; now rewrite E
                              | assumption | lia | exact Hb].
    destruct (IH (S a) n (Some e) w1) as (w' & Hw' & Hsl').
    + lia.
    + replace (S a + k)%nat with (a + S k)%nat by lia. assumption.
    + intros i Hi. replace (S a + i)%nat with (a + S i)%nat by lia.
      apply Hfail. lia.
    + intros i Hi. replace (S a + i)%nat with (a + S i)%nat by lia.
      apply Hin. lia.
    + replace (S a + k)%nat with (a + S k)%nat by lia. assumption.
    + exists w'. split.
      * rewrite Hw'. now replace (S a + k)%nat with (a + S k)%nat by lia.
      * rewrite Hsl', Hsl. cbn [seq map rev].
        rewrite <- seq_shift, map_map, Nat.add_0_r.
        rewrite <- app_assoc. cbn [app]. f_equal.
        -- f_equal. apply map_ext. intros i.
           replace (S a + i)%nat with (a + S i)%nat by lia.
           apply sleep_at_roll. intros Hj. rewrite (Hro Hj). lia.
        -- now rewrite Nat.add_0_r.
Qed.

End RetryScripted.


(** ** The delays of the retrier *)

Lemma py_min_le_r (x y : Q) : (py_min x y <= y)%Q.
Proof.
  unfold py_min. destruct (Qltb y x) eqn:E; [lra|].
  now apply Qltb_false in E.
Qed.

Lemma py_min_mono (x x' y : Q) : (x <= x')%Q -> (py_min x y <= py_min x' y)%Q.
Proof.
  intros H. unfold py_min.
  destruct (Qltb y x) eqn:E, (Qltb y x') eqn:E';
    rewrite ?Qltb_true, ?Qltb_false in *; lra.
Qed.

Lemma py_min_is_min (x y : Q) :
  (py_min x y <= x)%Q /\ (py_min x y <= y)%Q
  /\ (py_min x y = x \/ py_min x y = y).
Proof.
  unfold py_min. destruct (Qltb y x) eqn:E;
    rewrite ?Qltb_true, ?Qltb_false in *; repeat split; auto; lra.
Qed.

Lemma capped_delay_mono (p : Retry.Policy) (i j : Z) :
  (0 <= Retry.base_delay p)%Q -> (1 <= Retry.exponential_base p)%Q ->
  i <= j -> (RetrySpec.capped_delay p i <= RetrySpec.capped_delay p j)%Q.
Proof.
  intros Hb He Hij. apply py_min_mono.
  rewrite !(Qmult_comm (Retry.base_delay p)).
  apply Qmult_le_compat_r; [|assumption].
  now apply Qpower_le_compat_l.
Qed.

(** The delay the wrapper computes, when it computes one, is the delay
    of the formula. *)
Lemma backoff_delay_value (p : Retry.Policy) (attempt : Z) (d : Q) :
  Retry.backoff_delay p attempt = Return d -> d = RetrySpec.capped_delay p attempt.
Proof.
  unfold Retry.backoff_delay, Retry.float_pow. cbv zeta.
  destruct (Qltb Retry.float_max (Retry.exponential_base p ^ attempt)
            || Qltb (Retry.exponential_base p ^ attempt) (- Retry.float_max));
    [discriminate|].
  now intros [= <-].
Qed.

(** C8, as stated, fails in its last part: with [exponential_base = 1/2]
    the delay after attempt 1 is below the delay after attempt 0, though
    both are under the cap. *)
Lemma C8_counterexample :
  exists d0 d1,
    Retry.backoff_delay Scenario.shrinking 0 = Return d0
    /\ Retry.backoff_delay Scenario.shrinking 1 = Return d1
    /\ (d1 < d0)%Q /\ (d0 < Retry.max_delay Scenario.shrinking)%Q.
Proof.
  eexists _, _. split; [vm_compute; reflexivity|].
  split; [vm_compute; reflexivity|]. split; vm_compute; reflexivity.
Qed.

(** C8, amended: in a run without observer where the failures of attempts
    0 to [k - 1] are retried and the powers [exponential_base ** i] lie
    within the range of the floats, the wrapper sleeps [k] times, and the
    sleep after attempt [i] is [min(base_delay * exponential_base ** i,
    max_delay)], multiplied when jitter is on by [0.5 + r] for the value
    [r] the generator returns then, a factor between 0.5 and 1.5; a delay
    the wrapper computes is the smaller of the two arguments and never
    exceeds [max_delay]; and it does not decrease with the attempt index
    when [base_delay >= 0] and [exponential_base >= 1].  When the power
    for attempt [k] is out of range, the wrapper does not sleep after
    that attempt: it raises the [OverflowError] of the power, after the
    [k] sleeps of the attempts before. *)
Theorem C8_backoff_delays (env : Clock.Env) (p : Retry.Policy) :
  (Clock.fair env -> RetrySpec.accepted_delays p -> RetrySpec.powers_in_range p ->
   forall (A : Type) (script : nat -> Result A) (k : nat) (w : Clock.World),
     Z.of_nat k <= Retry.max_retries p ->
     (forall i, (i < k)%nat -> RetrySpec.retryable p (script i)) ->
     RetrySpec.settles p k (script k) ->
     exists w',
       Retry.run env p None (Retry.scripted script) (0%nat, w)
       = (script k, (S k, w'))
       /\ Clock.slept w'
          = (rev (map (RetrySpec.sleep_length env p w) (seq 0 k)) ++ Clock.slept w)%list)
  /\ (forall (w : Clock.World) (i : nat),
       RetrySpec.sleep_length env p w i
       = if Retry.jitter p
         then (py_min (Retry.base_delay p * Retry.exponential_base p ^ Z.of_nat i)
                      (Retry.max_delay p)
               * ((1 # 2) + Clock.dice env (Clock.rolls w + i)))%Q
         else py_min (Retry.base_delay p * Retry.exponential_base p ^ Z.of_nat i)%Q
                     (Retry.max_delay p))
  /\ (Clock.fair env ->
      forall n, ((1 # 2) <= (1 # 2) + Clock.dice env n)%Q
                /\ ((1 # 2) + Clock.dice env n <= (3 # 2))%Q)
  /\ (forall attempt d,
       Retry.backoff_delay p attempt = Return d ->
       (d <= Retry.max_delay p)%Q
       /\ (d <= Retry.base_delay p * Retry.exponential_base p ^ attempt)%Q
       /\ (d = (Retry.base_delay p * Retry.exponential_base p ^ attempt)%Q
           \/ d = Retry.max_delay p))
  /\ ((0 <= Retry.base_delay p)%Q -> (1 <= Retry.exponential_base p)%Q ->
      forall i j di dj, 0 <= i <= j ->
        Retry.backoff_delay p i = Return di ->
        Retry.backoff_delay p j = Return dj ->
        (di <= dj)%Q)
  /\ (Clock.fair env -> RetrySpec.accepted_delays p ->
      forall (A : Type) (script : nat -> Result A) (k : nat) (w : Clock.World),
        Z.of_nat k < Retry.max_retries p ->
        (forall i, (i <= k)%nat -> RetrySpec.retryable p (script i)) ->
        (forall i, (i < k)%nat ->
                   RetrySpec.in_range (Retry.exponential_base p ^ Z.of_nat i)) ->
        ~ RetrySpec.in_range (Retry.exponential_base p ^ Z.of_nat k) ->
        exists w',
          Retry.run env p None (Retry.scripted script) (0%nat, w)
          = (Raise (builtin OverflowError "(34, 'Numerical result out of range')"),
             (S k, w'))
          /\ Clock.slept w'
             = (rev (map (RetrySpec.sleep_length env p w) (seq 0 k))
                ++ Clock.slept w)%list).
Proof.
  split; [|split; [|split; [|split; [|split]]]].
  - intros Hf Hp Hr A script k w Hk Hfail Hend.
    destruct (attempts_sleeps env p script Hf Hp k 0%nat
                (Z.to_nat (Retry.max_retries p + 1)) None w) as (w' & Hw' & Hs).
    + lia.
    + exact Hk.
    + exact Hfail.
    + intros i Hi. apply Hr. lia.
    + exact Hend.
    + exists w'. split; [exact Hw'|]. exact Hs.
  - intros w i. reflexivity.
  - intros [_ Hdice] n. destruct (Hdice n). split; lra.
  - intros attempt d Hd. apply backoff_delay_value in Hd as ->.
    unfold RetrySpec.capped_delay.
    destruct (py_min_is_min
                (Retry.base_delay p * Retry.exponential_base p ^ attempt)%Q
                (Retry.max_delay p)) as (H1 & H2 & H3).
    repeat split; assumption.
  - intros Hb He i j di dj [_ Hij] Hi Hj.
    apply backoff_delay_value in Hi as ->. apply backoff_delay_value in Hj as ->.
    now apply capped_delay_mono.
  - intros Hf Hp A script k w Hk Hfail Hin Hout.
    destruct (attempts_overflow env p script Hf Hp k 0%nat
                (Z.to_nat (Retry.max_retries p + 1)) None w) as (w' & Hw' & Hs).
    + lia.
    + exact Hk.
    + exact Hfail.
    + exact Hin.
    + exact Hout.
    + exists w'. split; [exact Hw'|]. exact Hs.
Qed.

(** ** The escalating fetcher *)

Ltac net_unfold :=
  unfold Net.fetch, HybridFetcher.fetch, HybridFetcher.try_cloudscraper,
    HybridFetcher.try_playwright, Net.backend_fetch;
  py_unfold; cbn.

#[local] Arguments caught_by : simpl never.
#[local] Arguments HybridFetcher._is_blocked : simpl never.

(** Case analysis on whatever the fetcher branches on next. *)
Ltac branch :=
  match goal with
  | |- context [Net.respond ?e ?b ?n ?u ?t] =>
      destruct (Net.respond e b n u t) as [[? ?]|?] eqn:?
  | |- context [HybridFetcher._playwright ?h] =>
      is_var h; destruct (HybridFetcher._playwright h) eqn:?
  | |- context [HybridFetcher.use_playwright_fallback ?h] =>
      is_var h; destruct (HybridFetcher.use_playwright_fallback h) eqn:?
  | |- context [HybridFetcher._is_blocked ?c ?s] =>
      destruct (HybridFetcher._is_blocked c s) eqn:?
  | |- context [caught_by ?e ?cs] => destruct (caught_by e cs) eqn:?
  end; cbn.

Section Escalation.
Import Net.
Variable env : Net.Env.

(** Once the flag is set and no fallback is allowed, a call fails at once
    and touches nothing. *)
Lemma fetch_dead h w url timeout :
  HybridFetcher.use_playwright_fallback h = false ->
  HybridFetcher._cloudflare_detected h = true ->
  Net.fetch env url timeout (h, w) = (Raise (HybridFetcher.all_failed url), (h, w)).
Proof. intros Hf Hd. net_unfold. rewrite Hd. cbn. now rewrite Hf. Qed.

(** A call never clears the flag. *)
Lemma fetch_keeps_flag h w url timeout :
  HybridFetcher._cloudflare_detected h = true ->
  HybridFetcher._cloudflare_detected (fst (snd (Net.fetch env url timeout (h, w)))) = true.
Proof.
  intros Hd. net_unfold. rewrite Hd. cbn.
  repeat branch; assumption.
Qed.

Lemma close_keeps_flag h w :
  HybridFetcher._cloudflare_detected (fst (snd (Net.close (h, w))))
  = HybridFetcher._cloudflare_detected h.
Proof.
  unfold Net.close, HybridFetcher.close, Net.backend_close. py_unfold. cbn.
  now destruct (HybridFetcher._playwright h).
Qed.

Lemma calls_keep_flag cs : forall h w,
  HybridFetcher._cloudflare_detected h = true ->
  HybridFetcher._cloudflare_detected (fst (Net.calls env cs (h, w))) = true.
Proof.
  induction cs as [|c cs IH]; intros h w Hd; [exact Hd|].
  unfold Net.calls. cbn [fold_left]. fold (Net.calls env cs).
  destruct (call env c (h, w)) as [h' w'] eqn:E. apply IH.
  destruct c as [url timeout|]; unfold call in E.
  - pose proof (fetch_keeps_flag h w url timeout Hd) as H.
    now rewrite E in H.
  - pose proof (close_keeps_flag h w) as H. rewrite E in H. cbn in H. congruence.
Qed.

(** A blocked answer of the lightweight backend sets the flag; what
    follows depends on the fallback. *)
Lemma fetch_blocked h w url timeout content status :
  HybridFetcher._cloudflare_detected h = false ->
  respond env Lightweight (length w) url timeout = Return (content, status) ->
  HybridFetcher._is_blocked content status = true ->
  exists r h' w',
    Net.fetch env url timeout (h, w) = (r, (h', w'))
    /\ HybridFetcher._cloudflare_detected h' = true
    /\ HybridFetcher.use_playwright_fallback h' = HybridFetcher.use_playwright_fallback h
    /\ (HybridFetcher.use_playwright_fallback h = true ->
        w' = Fetched Browser url :: Fetched Lightweight url :: w)
    /\ (HybridFetcher.use_playwright_fallback h = false ->
        w' = Fetched Lightweight url :: w /\ r = Raise (HybridFetcher.all_failed url)).
Proof.
  intros Hd Hr Hb. net_unfold. rewrite Hd. cbn. rewrite Hr. cbn. rewrite Hb. cbn.
  repeat branch;
    eexists _, _, _; (split; [reflexivity|]); cbn;
    repeat split; auto; discriminate.
Qed.

(** A call in NORMAL state starts with the lightweight backend. *)
Lemma fetch_normal_first h w url timeout :
  HybridFetcher._cloudflare_detected h = false ->
  exists later,
    snd (snd (Net.fetch env url timeout (h, w)))
    = (later ++ Fetched Lightweight url :: w)%list.
Proof.
  intros Hd. net_unfold. rewrite Hd. cbn.
  repeat branch;
    first [now exists [] | now exists [Fetched Browser url]].
Qed.

End Escalation.

Lemma caught_by_one (e : PyExc) (c : ExcClass) :
  caught_by e [c] = isinstance e c.
Proof. unfold caught_by. cbn [existsb]. apply orb_false_r. Qed.

(** C1, as stated, fails for an instance built without fallback: the
    blocked answer sets the flag, but the browser backend is not tried;
    the call fails after the lightweight request alone. *)
Lemma C1_counterexample :
  HybridFetcher._cloudflare_detected Scenario.without_fallback = false
  /\ (exists content status,
        Net.respond Scenario.challenged Net.Lightweight 0
          "https://www.adb.org/projects" 30 = Return (content, status)
        /\ HybridFetcher._is_blocked content status = true)
  /\ Net.fetch Scenario.challenged "https://www.adb.org/projects" 30
       (Scenario.without_fallback, [])
     = (Raise (HybridFetcher.all_failed "https://www.adb.org/projects"),
        (HybridFetcher.set_cloudflare_detected true Scenario.without_fallback,
         [Net.Fetched Net.Lightweight "https://www.adb.org/projects"]))
  /\ ~ In (Net.Fetched Net.Browser "https://www.adb.org/projects")
          (snd (snd (Net.fetch Scenario.challenged "https://www.adb.org/projects" 30
                       (Scenario.without_fallback, [])))).
Proof.
  split; [reflexivity|]. split.
  - eexists _, _. split; [reflexivity|]. vm_compute. reflexivity.
  - split; [vm_compute; reflexivity|].
    vm_compute. intros [H|[]]. discriminate.
Qed.

(** C1, amended: when a call in NORMAL state gets a lightweight answer
    that is classified as blocked, the flag is set within that call, and
    if the instance was built with [use_playwright_fallback] the browser
    backend is tried, for the same URL, before the call ends; and through
    any sequence of calls on the instance a flag that is set stays set. *)
Theorem C1_escalation (env : Net.Env) :
  (forall h w url timeout content status,
     HybridFetcher._cloudflare_detected h = false ->
     Net.respond env Net.Lightweight (length w) url timeout = Return (content, status) ->
     HybridFetcher._is_blocked content status = true ->
     exists r h' w',
       Net.fetch env url timeout (h, w) = (r, (h', w'))
       /\ HybridFetcher._cloudflare_detected h' = true
       /\ (HybridFetcher.use_playwright_fallback h = true ->
           w' = Net.Fetched Net.Browser url :: Net.Fetched Net.Lightweight url :: w))
  /\ (forall cs h w,
       HybridFetcher._cloudflare_detected h = true ->
       HybridFetcher._cloudflare_detected (fst (Net.calls env cs (h, w))) = true).
Proof.
  split.
  - intros h w url timeout content status Hd Hr Hb.
    destruct (fetch_blocked env h w url timeout content status Hd Hr Hb)
      as (r & h' & w' & E & Hflag & _ & Hfb & _).
    exists r, h', w'. auto.
  - intros cs h w. apply calls_keep_flag.
Qed.

Lemma C1_witness :
  exists r h' w',
    Net.fetch Scenario.challenged "https://www.adb.org/projects" 30
      (Scenario.with_fallback, []) = (r, (h', w'))
    /\ HybridFetcher._cloudflare_detected h' = true
    /\ (HybridFetcher.use_playwright_fallback Scenario.with_fallback = true ->
        w' = [Net.Fetched Net.Browser "https://www.adb.org/projects";
              Net.Fetched Net.Lightweight "https://www.adb.org/projects"]).
Proof.
  apply (proj1 (C1_escalation Scenario.challenged) Scenario.with_fallback []
           "https://www.adb.org/projects" 30
           "<title>Just a moment...</title>" 403).
  - reflexivity.
  - reflexivity.
  - vm_compute. reflexivity.
Defined.

(** C5, as stated, fails: after the lightweight backend raised, with the
    fallback enabled, the instance is still in NORMAL state. *)
Lemma C5_counterexample :
  HybridFetcher._cloudflare_detected Scenario.with_fallback = false
  /\ HybridFetcher.use_playwright_fallback Scenario.with_fallback = true
  /\ (exists e, Net.respond Scenario.unreachable Net.Lightweight 0
                  "https://www.adb.org/projects" 30 = Raise e)
  /\ HybridFetcher._cloudflare_detected
       (fst (snd (Net.fetch Scenario.unreachable "https://www.adb.org/projects" 30
                    (Scenario.with_fallback, [])))) = false.
Proof.
  split; [reflexivity|]. split; [reflexivity|]. split.
  - eexists. reflexivity.
  - vm_compute. reflexivity.
Qed.

(** C5, amended: when the lightweight backend raises an [Exception]
    during a call in NORMAL state with the fallback enabled, the instance
    stays in NORMAL state, its count of consecutive failures grows by
    one, and the browser backend is tried within the same call; the next
    call starts with the lightweight backend again. *)
Theorem C5_lightweight_raises (env : Net.Env) :
  forall h w url timeout e,
    HybridFetcher._cloudflare_detected h = false ->
    HybridFetcher.use_playwright_fallback h = true ->
    Net.respond env Net.Lightweight (length w) url timeout = Raise e ->
    isinstance e Exception = true ->
    exists r h' w',
      Net.fetch env url timeout (h, w) = (r, (h', w'))
      /\ HybridFetcher._cloudflare_detected h' = false
      /\ HybridFetcher._consecutive_failures h'
         = HybridFetcher._consecutive_failures h + 1
      /\ w' = Net.Fetched Net.Browser url :: Net.Fetched Net.Lightweight url :: w
      /\ (forall url2 timeout2, exists later,
            snd (snd (Net.fetch env url2 timeout2 (h', w')))
            = (later ++ Net.Fetched Net.Lightweight url2 :: w')%list).
Proof.
  intros h w url timeout e Hd Hf Hr He.
  assert (Hc : caught_by e [Exception] = true) by now rewrite caught_by_one.
  assert (exists r h' w',
            Net.fetch env url timeout (h, w) = (r, (h', w'))
            /\ HybridFetcher._cloudflare_detected h' = false
            /\ HybridFetcher._consecutive_failures h'
               = HybridFetcher._consecutive_failures h + 1
            /\ w' = Net.Fetched Net.Browser url :: Net.Fetched Net.Lightweight url :: w)
    as (r & h' & w' & E & Hd' & Hn & Hw).
  { net_unfold. rewrite Hd. cbn. rewrite Hr. cbn. rewrite Hc. cbn. rewrite Hf. cbn.
    repeat branch; eexists _, _, _; (split; [reflexivity|]); cbn; auto. }
  exists r, h', w'. repeat split; try assumption.
  intros url2 timeout2. now apply fetch_normal_first.
Qed.

Lemma C5_witness :
  exists r h' w',
    Net.fetch Scenario.unreachable "https://www.adb.org/projects" 30
      (Scenario.with_fallback, []) = (r, (h', w'))
    /\ HybridFetcher._cloudflare_detected h' = false
    /\ HybridFetcher._consecutive_failures h'
       = HybridFetcher._consecutive_failures Scenario.with_fallback + 1
    /\ w' = [Net.Fetched Net.Browser "https://www.adb.org/projects";
             Net.Fetched Net.Lightweight "https://www.adb.org/projects"]
    /\ (forall url2 timeout2, exists later,
          snd (snd (Net.fetch Scenario.unreachable url2 timeout2 (h', w')))
          = (later ++ Net.Fetched Net.Lightweight url2 :: w')%list).
Proof.
  apply (C5_lightweight_raises Scenario.unreachable Scenario.with_fallback []
           "https://www.adb.org/projects" 30
           (builtin ConnectionError "Connection refused")); reflexivity.
Defined.

(** C10: on an instance built with [use_playwright_fallback = False], a
    call that gets a blocked lightweight answer sets the flag, and every
    later [fetch] raises the all-strategies-failed error at once: neither
    backend is called again and the instance does not change. *)
Theorem C10_no_fallback_dead_end (env : Net.Env) :
  forall h w url timeout content status,
    HybridFetcher.use_playwright_fallback h = false ->
    HybridFetcher._cloudflare_detected h = false ->
    Net.respond env Net.Lightweight (length w) url timeout = Return (content, status) ->
    HybridFetcher._is_blocked content status = true ->
    exists h',
      Net.fetch env url timeout (h, w)
      = (Raise (HybridFetcher.all_failed url), (h', Net.Fetched Net.Lightweight url :: w))
      /\ HybridFetcher._cloudflare_detected h' = true
      /\ forall reqs,
           Net.fetches env reqs (h', Net.Fetched Net.Lightweight url :: w)
           = (map (fun req => Raise (HybridFetcher.all_failed (fst req))) reqs,
              (h', Net.Fetched Net.Lightweight url :: w)).
Proof.
  intros h w url timeout content status Hf Hd Hr Hb.
  destruct (fetch_blocked env h w url timeout content status Hd Hr Hb)
    as (r & h' & w' & E & Hflag & Hsame & _ & Hno).
  destruct (Hno Hf) as [-> ->].
  exists h'. split; [exact E|]. split; [exact Hflag|].
  set (s1 := (h', Net.Fetched Net.Lightweight url :: w)).
  assert (Hdead : forall url' timeout',
            Net.fetch env url' timeout' s1
            = (Raise (HybridFetcher.all_failed url'), s1))
    by (intros; apply fetch_dead; congruence).
  clearbody s1.
  induction reqs as [|[url' timeout'] reqs IH]; [reflexivity|].
  cbn [Net.fetches map fst]. rewrite Hdead. now rewrite IH.
Qed.

Lemma C10_witness :
  exists h',
    Net.fetch Scenario.challenged "https://www.adb.org/projects" 30
      (Scenario.without_fallback, [])
    = (Raise (HybridFetcher.all_failed "https://www.adb.org/projects"),
       (h', [Net.Fetched Net.Lightweight "https://www.adb.org/projects"]))
    /\ HybridFetcher._cloudflare_detected h' = true
    /\ forall reqs,
         Net.fetches Scenario.challenged reqs
           (h', [Net.Fetched Net.Lightweight "https://www.adb.org/projects"])
         = (map (fun req => Raise (HybridFetcher.all_failed (fst req))) reqs,
            (h', [Net.Fetched Net.Lightweight "https://www.adb.org/projects"])).
Proof.
  apply (C10_no_fallback_dead_end Scenario.challenged Scenario.without_fallback []
           "https://www.adb.org/projects" 30
           "<title>Just a moment...</title>" 403).
  - reflexivity.
  - reflexivity.
  - reflexivity.
  - vm_compute. reflexivity.
Defined.

(** ** The theorems on the pacer and the retrier, tried on the scenarios *)

Lemma steady_fair : Clock.fair Scenario.steady.
Proof. split; intros n; cbn; lra. Defined.

Lemma test_policy_accepted : RetrySpec.accepted_delays Scenario.test_policy.
Proof. repeat split; cbn; lra. Defined.

Lemma test_policy_in_range : RetrySpec.powers_in_range Scenario.test_policy.
Proof.
  intros attempt Ha. cbn in Ha.
  assert (attempt = 0 \/ attempt = 1 \/ attempt = 2) as [->|[->| ->]] by lia;
    split; vm_compute; discriminate.
Defined.

Lemma exploding_accepted : RetrySpec.accepted_delays Scenario.exploding.
Proof. repeat split; vm_compute; discriminate. Defined.

Lemma flaky_twice (i : nat) :
  (i < 2)%nat -> RetrySpec.retryable Scenario.test_policy (Scenario.flaky_func i).
Proof.
  intros Hi. exists (builtin ValueError "Temporary error").
  destruct i as [|[|i]]; [split; reflexivity | split; reflexivity | lia].
Defined.




Lemma C8_witness :
  (exists w',
     Retry.run Scenario.steady Scenario.test_policy None
       (Retry.scripted Scenario.flaky_func) (0%nat, Scenario.dawn)
     = (Scenario.flaky_func 2, (3%nat, w'))
     /\ Clock.slept w'
        = (rev (map (RetrySpec.sleep_length Scenario.steady Scenario.test_policy
                       Scenario.dawn) (seq 0 2)) ++ Clock.slept Scenario.dawn)%list)
  /\ (exists w',
        Retry.run Scenario.steady Scenario.exploding None
          (Retry.scripted Scenario.failing_func) (0%nat, Scenario.dawn)
        = (Raise (builtin OverflowError "(34, 'Numerical result out of range')"),
           (3%nat, w'))
        /\ Clock.slept w'
           = (rev (map (RetrySpec.sleep_length Scenario.steady Scenario.exploding
                          Scenario.dawn) (seq 0 2)) ++ Clock.slept Scenario.dawn)%list).
Proof.
  split.
  - apply (proj1 (C8_backoff_delays Scenario.steady Scenario.test_policy)
             steady_fair test_policy_accepted test_policy_in_range
             string Scenario.flaky_func 2%nat Scenario.dawn).
    + cbn. lia.
    + exact flaky_twice.
    + exact I.
  - apply (proj2 (proj2 (proj2 (proj2 (proj2
             (C8_backoff_delays Scenario.steady Scenario.exploding)))))
             steady_fair exploding_accepted
             string Scenario.failing_func 2%nat Scenario.dawn).
    + cbn. lia.
    + intros i _. exists (builtin ValueError "Temporary error").
      split; reflexivity.
    + intros i Hi. destruct i as [|[|i]]; [| |lia]; split; vm_compute; discriminate.
    + intros [_ H]. vm_compute in H. now apply H.
Defined.

(** ** The crawl: what yields and what does not *)

Section Silence.
Import Scraper.
Context {A B : Type}.

Lemma silent_ret (a : A) : silent (mret a).
Proof. intros s. reflexivity. Qed.

Lemma silent_raise (e : PyExc) : silent (@raise _ A e).
Proof. intros s. reflexivity. Qed.

Lemma silent_pure (r : Result A) : silent (fun s => (r, s)).
Proof. intros s. reflexivity. Qed.

Lemma silent_bind (m : M (t * World) A) (k : A -> M (t * World) B) :
  silent m -> (forall a, silent (k a)) -> silent (m ≫= k).
Proof.
  intros Hm Hk s. specialize (Hm s). unfold mbind, M_bind, bind.
  destruct (m s) as [[a|e] s1]; cbn [fst snd] in *; [|exact Hm].
  now rewrite (Hk a s1).
Qed.

Lemma silent_try_except (body : M (t * World) A) classes handler :
  silent body -> (forall e, silent (handler e)) ->
  silent (try_except body classes handler).
Proof.
  intros Hm Hk s. specialize (Hm s). unfold try_except.
  destruct (body s) as [[a|e] s1]; cbn in *; [exact Hm|].
  destruct (caught_by e classes); [|exact Hm].
  now rewrite (Hk e s1).
Qed.

Lemma silent_dispatch (e : PyExc) clauses :
  Forall (fun c : list ExcClass * (PyExc -> M (t * World) A) =>
            forall e, silent (snd c e)) clauses ->
  silent (dispatch e clauses).
Proof.
  induction 1 as [|[classes handler] clauses Hc _ IH]; cbn [dispatch].
  - apply silent_raise.
  - destruct (caught_by e classes); [apply Hc | exact IH].
Qed.

Lemma silent_try_clauses (body : M (t * World) A) clauses :
  silent body ->
  Forall (fun c : list ExcClass * (PyExc -> M (t * World) A) =>
            forall e, silent (snd c e)) clauses ->
  silent (try_clauses body clauses).
Proof.
  intros Hm Hk s. specialize (Hm s). unfold try_clauses.
  destruct (body s) as [[a|e] s1]; cbn in *; [exact Hm|].
  now rewrite (silent_dispatch e clauses Hk s1).
Qed.

Lemma silent_in_time (m : M Clock.World A) : silent (in_time m).
Proof.
  intros s. unfold in_time, world. now destruct (m _).
Qed.

Lemma silent_in_net (m : M Net.World A) : silent (in_net m).
Proof.
  intros s. unfold in_net, world. now destruct (m _).
Qed.

End Silence.

Section SilentScraper.
Import Scraper.
Variable env : Env.

Lemma silent_self : silent self.
Proof. intros s. reflexivity. Qed.

Lemma silent_update (f : t -> t) : silent (update f).
Proof. intros s. reflexivity. Qed.

Lemma silent_stats_add (key : string) (n : Z) : silent (stats_add key n).
Proof.
  intros s. unfold stats_add, mbind, M_bind, bind, self. cbn [fst snd].
  now destruct (stats _ !! key).
Qed.

Lemma silent_fetcher_fetch f url timeout : silent (fetcher_fetch env f url timeout).
Proof.
  destruct f; cbn [fetcher_fetch]; try apply silent_in_net.
  intros s. now destruct (Net.fetch _ _ _ _) as [r [h' n']].
Qed.

Lemma silent_fetch_bypass url : silent (fetch_bypass env url).
Proof.
  unfold fetch_bypass. apply silent_bind; [apply silent_self|]. intros s.
  destruct (_fetcher s); [|apply silent_ret].
  apply silent_try_except; [|intros; apply silent_ret].
  apply silent_bind; [apply silent_fetcher_fetch|]. intros r.
  destruct (snd r =? 429)%Z; [apply silent_raise|].
  destruct (snd r >=? 400)%Z; [apply silent_raise|].
  apply silent_bind; [apply silent_stats_add | intros; apply silent_ret].
Qed.

Lemma silent_fetch_standard url : silent (fetch_standard env url).
Proof.
  unfold fetch_standard. apply silent_bind.
  { intros s. unfold on_field.
    now destruct (RateLimiter.wait _ _) as [r [rl c]]. }
  intros _. apply silent_bind; [apply silent_self|]. intros s.
  apply silent_try_clauses.
  - apply silent_bind; [apply silent_in_net|]. intros response.
    apply silent_bind.
    { destruct (Net.status_code response =? 429)%Z; [|apply silent_ret].
      destruct (retry_after_of env response); apply silent_raise. }
    intros _. apply silent_bind.
    { destruct (_is_cloudflare_block response);
        [apply silent_raise | apply silent_ret]. }
    intros _. apply silent_bind; [|intros; apply silent_ret].
    unfold raise_for_status.
    destruct (_ && _); [apply silent_raise | apply silent_ret].
  - repeat constructor; intros e; apply silent_raise.
Qed.

Lemma silent_fetch_page url : silent (_fetch_page env url).
Proof.
  unfold _fetch_page. apply silent_bind; [apply silent_fetch_bypass|].
  intros [content|]; [apply silent_ret | apply silent_fetch_standard].
Qed.

Lemma silent_attempts {A} p (func : M (t * World) A) :
  silent func ->
  forall todo last,
    silent (Retry.attempts (fun d => in_time (Clock.time_sleep (clock_env env) d))
              (in_time (Clock.random_random (clock_env env))) p None func todo last).
Proof.
  intros Hf. induction todo as [|attempt todo IH]; intros last; cbn [Retry.attempts].
  - destruct last; apply silent_raise.
  - apply silent_bind.
    + apply silent_try_except.
      * apply silent_bind; [exact Hf | intros; apply silent_ret].
      * intros e. destruct (attempt =? Retry.max_retries p)%Z; [apply silent_raise|].
        apply silent_bind; [|intros; apply silent_ret].
        unfold Retry.backoff.
        apply silent_bind; [apply silent_pure|]. intros delay.
        apply silent_bind.
        { destruct (Retry.jitter p); [|apply silent_ret].
          apply silent_bind; [apply silent_in_time | intros; apply silent_ret]. }
        intros d. apply silent_bind; [apply silent_ret|].
        intros _. apply silent_in_time.
    + intros [v|e]; [apply silent_ret | apply IH].
Qed.

Lemma silent_fetch_with_retry url : silent (_fetch_with_retry env url).
Proof. apply silent_attempts, silent_fetch_page. Qed.

Lemma silent_scrape_listing_page url page : silent (scrape_listing_page env url page).
Proof.
  unfold scrape_listing_page. apply silent_try_except.
  - apply silent_bind; [apply silent_fetch_with_retry|]. intros html.
    apply silent_bind; [apply silent_pure|]. intros r.
    apply silent_bind; [apply silent_stats_add|]. intros _.
    apply silent_bind; [apply silent_stats_add | intros; apply silent_ret].
  - intros e. apply silent_bind; [apply silent_stats_add | intros; apply silent_raise].
Qed.

Lemma silent_scrape_project_detail project :
  silent (scrape_project_detail env project).
Proof.
  unfold scrape_project_detail. apply silent_try_except.
  - apply silent_bind; [apply silent_fetch_with_retry|]. intros html.
    apply silent_bind; [apply silent_pure|]. intros r.
    apply silent_bind; [apply silent_stats_add | intros; apply silent_ret].
  - intros e. apply silent_bind; [apply silent_stats_add | intros; apply silent_ret].
Qed.

End SilentScraper.

(** ** The crawl: a listing page that fails *)

(** ** The crawl: what counts an error and what does not *)

Section Uncounted.
Import Scraper.
Variable env : Env.

Lemma uncounted_ret {A} (a : A) : uncounted (mret a).
Proof. intros s. reflexivity. Qed.

Lemma uncounted_raise {A} (e : PyExc) : uncounted (@raise _ A e).
Proof. intros s. reflexivity. Qed.

Lemma uncounted_pure {A} (r : Result A) : uncounted (fun s => (r, s)).
Proof. intros s. reflexivity. Qed.

Lemma uncounted_self : uncounted self.
Proof. intros s. reflexivity. Qed.

Lemma uncounted_bind {A B} (m : M (t * World) A) (k : A -> M (t * World) B) :
  uncounted m -> (forall a, uncounted (k a)) -> uncounted (m ≫= k).
Proof.
  intros Hm Hk s. specialize (Hm s). unfold mbind, M_bind, bind.
  destruct (m s) as [[a|e] s1]; cbn [fst snd] in *; [|exact Hm].
  now rewrite (Hk a s1).
Qed.

Lemma uncounted_try_except {A} (body : M (t * World) A) classes handler :
  uncounted body -> (forall e, uncounted (handler e)) ->
  uncounted (try_except body classes handler).
Proof.
  intros Hm Hk s. specialize (Hm s). unfold try_except.
  destruct (body s) as [[a|e] s1]; cbn in *; [exact Hm|].
  destruct (caught_by e classes); [|exact Hm].
  now rewrite (Hk e s1).
Qed.

Lemma uncounted_try_clauses {A} (body : M (t * World) A) clauses :
  uncounted body ->
  Forall (fun c : list ExcClass * (PyExc -> M (t * World) A) =>
            forall e, uncounted (snd c e)) clauses ->
  uncounted (try_clauses body clauses).
Proof.
  intros Hm Hk s. specialize (Hm s). unfold try_clauses.
  destruct (body s) as [[a|e] s1]; cbn [fst snd] in *; [exact Hm|].
  rewrite <- Hm. clear Hm.
  induction Hk as [|[classes handler] clauses Hc _ IH]; cbn [dispatch].
  - reflexivity.
  - destruct (caught_by e classes); [apply Hc | exact IH].
Qed.

Lemma uncounted_in_time {A} (m : M Clock.World A) : uncounted (in_time m).
Proof. intros s. unfold in_time, world. now destruct (m _). Qed.

Lemma uncounted_in_net {A} (m : M Net.World A) : uncounted (in_net m).
Proof. intros s. unfold in_net, world. now destruct (m _). Qed.

(** Counting under another key leaves [errors] alone. *)
Lemma uncounted_stats_add (key : string) (n : Z) :
  key <> "errors" -> uncounted (stats_add key n).
Proof.
  intros Hkey s. unfold stats_add, mbind, M_bind, bind, self, update, raise.
  cbn [fst snd]. destruct (stats (fst s) !! key); [|reflexivity].
  cbn. now rewrite lookup_insert_ne.
Qed.

Lemma uncounted_fetcher_fetch f url timeout :
  uncounted (fetcher_fetch env f url timeout).
Proof.
  destruct f; cbn [fetcher_fetch]; try apply uncounted_in_net.
  intros s. now destruct (Net.fetch _ _ _ _) as [r [h' n']].
Qed.

Lemma uncounted_fetch_bypass url : uncounted (fetch_bypass env url).
Proof.
  unfold fetch_bypass. apply uncounted_bind; [apply uncounted_self|]. intros s.
  destruct (_fetcher s); [|apply uncounted_ret].
  apply uncounted_try_except; [|intros; apply uncounted_ret].
  apply uncounted_bind; [apply uncounted_fetcher_fetch|]. intros r.
  destruct (snd r =? 429)%Z; [apply uncounted_raise|].
  destruct (snd r >=? 400)%Z; [apply uncounted_raise|].
  apply uncounted_bind; [now apply uncounted_stats_add | intros; apply uncounted_ret].
Qed.

Lemma uncounted_fetch_standard url : uncounted (fetch_standard env url).
Proof.
  unfold fetch_standard. apply uncounted_bind.
  { intros s. unfold on_field.
    now destruct (RateLimiter.wait _ _) as [r [rl c]]. }
  intros _. apply uncounted_bind; [apply uncounted_self|]. intros s.
  apply uncounted_try_clauses.
  - apply uncounted_bind; [apply uncounted_in_net|]. intros response.
    apply uncounted_bind.
    { destruct (Net.status_code response =? 429)%Z; [|apply uncounted_ret].
      destruct (retry_after_of env response); apply uncounted_raise. }
    intros _. apply uncounted_bind.
    { destruct (_is_cloudflare_block response);
        [apply uncounted_raise | apply uncounted_ret]. }
    intros _. apply uncounted_bind; [|intros; apply uncounted_ret].
    unfold raise_for_status.
    destruct (_ && _); [apply uncounted_raise | apply uncounted_ret].
  - repeat constructor; intros e; apply uncounted_raise.
Qed.

Lemma uncounted_fetch_page url : uncounted (_fetch_page env url).
Proof.
  unfold _fetch_page. apply uncounted_bind; [apply uncounted_fetch_bypass|].
  intros [content|]; [apply uncounted_ret | apply uncounted_fetch_standard].
Qed.

Lemma uncounted_attempts {A} p (func : M (t * World) A) :
  uncounted func ->
  forall todo last,
    uncounted (Retry.attempts (fun d => in_time (Clock.time_sleep (clock_env env) d))
                 (in_time (Clock.random_random (clock_env env))) p None func
                 todo last).
Proof.
  intros Hf. induction todo as [|attempt todo IH]; intros last; cbn [Retry.attempts].
  - destruct last; apply uncounted_raise.
  - apply uncounted_bind.
    + apply uncounted_try_except.
      * apply uncounted_bind; [exact Hf | intros; apply uncounted_ret].
      * intros e. destruct (attempt =? Retry.max_retries p)%Z; [apply uncounted_raise|].
        apply uncounted_bind; [|intros; apply uncounted_ret].
        unfold Retry.backoff.
        apply uncounted_bind; [apply uncounted_pure|]. intros delay.
        apply uncounted_bind.
        { destruct (Retry.jitter p); [|apply uncounted_ret].
          apply uncounted_bind; [apply uncounted_in_time | intros; apply uncounted_ret]. }
        intros d. apply uncounted_bind; [apply uncounted_ret|].
        intros _. apply uncounted_in_time.
    + intros [v|e]; [apply uncounted_ret | apply IH].
Qed.

Lemma uncounted_fetch_with_retry url : uncounted (_fetch_with_retry env url).
Proof. apply uncounted_attempts, uncounted_fetch_page. Qed.

End Uncounted.

Section ListingFailure.
Import Scraper.
Variable env : Env.

Lemma stats_add_present key n (s : t * World) v :
  stats (fst s) !! key = Some v ->
  stats_add key n s
  = (Return tt, (set_stats (<[ key := v + n ]> (stats (fst s))) (fst s), snd s)).
Proof.
  intros H. unfold stats_add, mbind, M_bind, bind, self, update. cbn [fst snd].
  now rewrite H.
Qed.

Lemma stats_add_absent key n (s : t * World) :
  stats (fst s) !! key = None ->
  stats_add key n s = (Raise (builtin KeyError key), s).
Proof.
  intros H. unfold stats_add, mbind, M_bind, bind, self, raise. cbn [fst snd].
  now rewrite H.
Qed.

(** A [ScraperError] leaves [scrape_listing_page] only through its
    handler, after the handler counted it. *)
Lemma listing_failure_counted url page s e s' :
  scrape_listing_page env url page s = (Raise e, s') ->
  isinstance e ScraperError = true ->
  is_Some (stats (fst s') !! "errors").
Proof.
  unfold scrape_listing_page, try_except.
  match goal with |- context [match ?body s with _ => _ end] =>
    destruct (body s) as [[r|e0] s0] end; [discriminate|].
  destruct (caught_by e0 [ScraperError]) eqn:Ec.
  - unfold mbind, M_bind, bind.
    destruct (stats (fst s0) !! "errors") as [v|] eqn:Ev.
    + rewrite (stats_add_present _ _ _ _ Ev). unfold raise.
      intros [= <- <-] _. cbn. rewrite lookup_insert_eq. eauto.
    + rewrite (stats_add_absent _ _ _ Ev). intros [= <- <-]. discriminate.
  - intros [= <- <-] He. rewrite caught_by_one in Ec. congruence.
Qed.

(** The handler of [scrape_listing_page] is the only place where a
    failing listing scrape touches [errors]: a [ScraperError] leaves it
    with the counter one above the value before the scrape. *)
Lemma listing_failure_counts_once url page s e s' v :
  scrape_listing_page env url page s = (Raise e, s') ->
  isinstance e ScraperError = true ->
  stats (fst s) !! "errors" = Some v ->
  stats (fst s') !! "errors" = Some (v + 1).
Proof.
  intros Hrun He Hv. revert Hrun.
  unfold scrape_listing_page, try_except. cbv zeta.
  match goal with |- context [match ?body s with _ => _ end] =>
    set (listing := body) end.
  assert (Hbody : uncounted listing).
  { subst listing.
    apply uncounted_bind; [apply uncounted_fetch_with_retry|]. intros html.
    apply uncounted_bind; [apply uncounted_pure|]. intros r.
    apply uncounted_bind; [now apply uncounted_stats_add|]. intros _.
    apply uncounted_bind; [now apply uncounted_stats_add | intros; apply uncounted_ret]. }
  specialize (Hbody s). destruct (listing s) as [[r|e0] s0]; [discriminate|].
  cbn [fst snd] in Hbody.
  destruct (caught_by e0 [ScraperError]) eqn:Ec.
  - unfold mbind, M_bind, bind. rewrite <- Hbody in Hv.
    rewrite (stats_add_present _ _ _ _ Hv). unfold raise.
    intros [= <- <-]. cbn. now rewrite lookup_insert_eq.
  - intros [= <- <-]. rewrite caught_by_one in Ec. congruence.
Qed.

(** The turn of the loop in which the listing page fails: the loop is
    left without an exception, nothing is yielded, nothing more is
    requested, and the failure is counted unless it is a
    [CloudflareBlockError]. *)
Lemma turn_listing_failure include_details url s e s' :
  scrape_listing_page env (Some url) None s = (Raise e, s') ->
  isinstance e ScraperError = true ->
  exists v,
    stats (fst s') !! "errors" = Some v
    /\ turn env include_details url s
       = (Return Break,
          (if isinstance e CloudflareBlockError then fst s'
           else set_stats (<[ "errors" := v + 1 ]> (stats (fst s'))) (fst s'),
           snd s')).
Proof.
  intros Hl He.
  destruct (listing_failure_counted _ _ _ _ _ Hl He) as [v Hv].
  exists v. split; [exact Hv|].
  unfold turn, try_clauses, mbind, M_bind, bind. rewrite Hl. cbn [dispatch].
  rewrite !caught_by_one, He.
  destruct (isinstance e CloudflareBlockError).
  - now destruct s'.
  - now rewrite (stats_add_present _ _ _ _ Hv).
Qed.

End ListingFailure.

(** C2, as stated, fails: the fetch strategies are exhausted on the first
    listing page (both backends and then the plain session are answered
    by a challenge), the listing scrape raises a [CloudflareBlockError],
    and the generator ends normally: nothing is raised to its caller.
    The same happens when the parser of the listing page raises a
    [ParseError]. *)
Lemma C2_counterexample :
  (fst (Net.fetch (Scraper.net_env Scenario.walled) Scraper.PROJECTS_URL 30
          (HybridFetcher.__init__ (3 # 2) true, []))
   = Raise (HybridFetcher.all_failed Scraper.PROJECTS_URL)
   /\ fst (Scraper.scrape_listing_page Scenario.walled (Some Scraper.PROJECTS_URL) None
             (Scenario.scraper, Scenario.start))
      = Raise (mkExc CloudflareBlockError "Request blocked by Cloudflare protection"
                 (Some Scraper.PROJECTS_URL) None None)
   /\ fst (Scraper.scrape_projects Scenario.walled 5 None false 1
             (Scenario.scraper, Scenario.start))
      = Return Scraper.Finished)
  /\ (fst (Scraper.scrape_listing_page Scenario.garbled (Some Scraper.PROJECTS_URL) None
             (Scenario.plain_scraper, Scenario.start))
      = Raise (mkExc ParseError "No project container"
                 (Some Scraper.PROJECTS_URL) None None)
      /\ fst (Scraper.scrape_projects Scenario.garbled 5 None false 1
                (Scenario.plain_scraper, Scenario.start))
         = Return Scraper.Finished).
Proof. repeat split; vm_compute; reflexivity. Qed.

(** C2, amended: when the scrape of a listing page fails with a
    [ScraperError] (a [CloudflareBlockError] once the fetch strategies
    are exhausted, a [NetworkError] that outlasts the retries, a
    [ParseError]), the crawl stops there without raising: the generator
    ends normally, no further request is made, the records yielded before
    are all there, and the failure is counted: [errors] ends one above
    its value before the scrape ([scrape_listing_page] counts it), and
    two above when the failure is not a [CloudflareBlockError] (the loop
    counts it again). *)
Theorem C2_listing_failure_stops_crawl (env : Scraper.Env) :
  forall turns max_pages include_details pages_scraped current_page next_url
         s e s' v,
    Scraper.limit_reached max_pages pages_scraped = false ->
    Scraper.scrape_listing_page env
      (Some (Scraper.page_url current_page next_url)) None s = (Raise e, s') ->
    isinstance e ScraperError = true ->
    Scraper.stats (fst s) !! "errors" = Some v ->
    exists s'',
      Scraper.crawl env (S turns) max_pages include_details pages_scraped
        current_page next_url s = (Return Scraper.Finished, s'')
      /\ Scraper.yielded (snd s'') = Scraper.yielded (snd s)
      /\ Scraper.net (snd s'') = Scraper.net (snd s')
      /\ Scraper.stats (fst s'') !! "errors"
         = Some (if isinstance e CloudflareBlockError then v + 1 else v + 2).
Proof.
  intros turns max_pages include_details pages_scraped current_page next_url
    s e s' v Hlim Hl He Hv.
  pose proof (listing_failure_counts_once env _ _ s e s' v Hl He Hv) as Hv1.
  destruct (turn_listing_failure env include_details _ s e s' Hl He)
    as (v1 & Hv1' & Ht).
  assert (v1 = v + 1) as -> by congruence.
  eexists. split.
  - cbn [Scraper.crawl]. rewrite Hlim. unfold mbind, M_bind, bind.
    rewrite Ht. reflexivity.
  - cbn [fst snd]. split; [|split; [reflexivity|]].
    + pose proof (silent_scrape_listing_page env
                    (Some (Scraper.page_url current_page next_url)) None s) as H.
      now rewrite Hl in H.
    + destruct (isinstance e CloudflareBlockError); [exact Hv1|].
      cbn. rewrite lookup_insert_eq. f_equal. lia.
Qed.

Lemma C2_witness :
  exists s'',
    Scraper.crawl Scenario.walled 5 None false 0 1 None
      (Scenario.scraper, Scenario.start) = (Return Scraper.Finished, s'')
    /\ Scraper.yielded (snd s'') = Scraper.yielded Scenario.start
    /\ Scraper.net (snd s'')
       = Scraper.net (snd (snd (Scraper.scrape_listing_page Scenario.walled
                                  (Some Scraper.PROJECTS_URL) None
                                  (Scenario.scraper, Scenario.start))))
    /\ Scraper.stats (fst s'') !! "errors" = Some (0 + 1).
Proof.
  apply (C2_listing_failure_stops_crawl Scenario.walled 4 None false 0 1 None
           (Scenario.scraper, Scenario.start)
           (mkExc CloudflareBlockError "Request blocked by Cloudflare protection"
              (Some Scraper.PROJECTS_URL) None None)
           (snd (Scraper.scrape_listing_page Scenario.walled
                   (Some Scraper.PROJECTS_URL) None
                   (Scenario.scraper, Scenario.start)))
           0).
  - reflexivity.
  - vm_compute. reflexivity.
  - reflexivity.
  - vm_compute. reflexivity.
Defined.

(** ** The crawl: a detail page that fails *)

Section DetailFailure.
Import Scraper Models.
Variable env : Env.

(** When fetching the detail page of [project] fails with an exception
    [e] (after the retries, if it was retried), the loop body yields one
    record derived from the listing and goes on; [errors] grows by one
    when [e] is a [ScraperError], and stays as it is when [e] is another
    [Exception]. *)
Lemma emit_fetch_failure project s e s1 v :
  _fetch_with_retry env (detail_url project) s = (Raise e, s1) ->
  isinstance e Exception = true ->
  stats (fst s1) !! "errors" = Some v ->
  exists item,
    listing_derived project item
    /\ emit env true project s
       = (Return tt,
          (if isinstance e ScraperError
           then set_stats (<[ "errors" := v + 1 ]> (stats (fst s1))) (fst s1)
           else fst s1,
           {| time := time (snd s1); net := net (snd s1);
              yielded := item :: yielded (snd s1) |})).
Proof.
  intros Hf He Hv.
  unfold emit, scrape_project_detail, try_except, mbind, M_bind, bind.
  rewrite Hf. rewrite !caught_by_one.
  destruct (isinstance e ScraperError) eqn:Es.
  - rewrite (stats_add_present _ _ _ _ Hv). cbn.
    exists (Detail (from_listing project)). split; [now right|]. reflexivity.
  - rewrite caught_by_one, He. exists (Listing project).
    split; [now left|]. reflexivity.
Qed.

End DetailFailure.

(** C6, at the failing input: the listing page has two projects and the
    fetch of each detail page ends in a [RetryError] of the session,
    which is no [ScraperError].  The crawl yields the two listing records
    and ends normally, as the claim says, but [errors] is still 0 at the
    end: the handler in [scrape_projects] does not count the failure,
    whereas the handler in [scrape_project_detail] would have. *)
Theorem C6_detail_failure_not_counted :
  fst (Scraper.scrape_project_detail Scenario.details_down Scenario.road
         (Scenario.plain_scraper, Scenario.start))
  = Raise (builtin RetryError "Max retries exceeded: too many 503 error responses")
  /\ fst (Scraper.scrape_projects Scenario.details_down 5 None true 1
            (Scenario.plain_scraper, Scenario.start))
     = Return Scraper.Finished
  /\ Scraper.yielded
       (snd (snd (Scraper.scrape_projects Scenario.details_down 5 None true 1
                    (Scenario.plain_scraper, Scenario.start))))
     = [Models.Listing Scenario.dam; Models.Listing Scenario.road]
  /\ Scraper.stats
       (fst (snd (Scraper.scrape_projects Scenario.details_down 5 None true 1
                    (Scenario.plain_scraper, Scenario.start))))
     !! "errors" = Some 0.
Proof. repeat split; vm_compute; reflexivity. Qed.

(** ** The statistics *)

(** C9, at the failing input: the constructor creates five counters,
    [reset_stats] puts back four of them; [cloudflare_bypassed] is gone
    after the reset, for every scraper. *)
Theorem C9_reset_stats_drops_counter :
  (forall request_delay max_delay timeout bypass_cloudflare fetch_strategy,
     Scraper.get_stats
       (Scraper.__init__ request_delay max_delay timeout bypass_cloudflare
          fetch_strategy) !! "cloudflare_bypassed" = Some 0)
  /\ (forall s,
       Scraper.get_stats (Scraper.reset_stats s) !! "cloudflare_bypassed" = None)
  /\ (forall s,
       Scraper.get_stats (Scraper.reset_stats s) !! "pages_scraped" = Some 0
       /\ Scraper.get_stats (Scraper.reset_stats s) !! "projects_found" = Some 0
       /\ Scraper.get_stats (Scraper.reset_stats s) !! "details_fetched" = Some 0
       /\ Scraper.get_stats (Scraper.reset_stats s) !! "errors" = Some 0).
Proof.
  split; [|split].
  - intros. vm_compute. reflexivity.
  - intros s. vm_compute. reflexivity.
  - intros s. repeat split; vm_compute; reflexivity.
Qed.

(** What the missing counter does to the next fetch: the page the bypass
    fetcher got is dropped on the [KeyError], and the page is requested
    again through the plain session. *)
Lemma reset_stats_defeats_bypass :
  Scraper.net (snd (snd (Scraper._fetch_page Scenario.open_site Scraper.PROJECTS_URL
                           (Scenario.scraper, Scenario.start))))
  = [Net.Fetched Net.Lightweight Scraper.PROJECTS_URL]
  /\ Scraper.net (snd (snd (Scraper._fetch_page Scenario.open_site Scraper.PROJECTS_URL
                              (Scraper.reset_stats Scenario.scraper, Scenario.start))))
     = [Net.Requested Scraper.PROJECTS_URL;
        Net.Fetched Net.Lightweight Scraper.PROJECTS_URL].
Proof. split; vm_compute; reflexivity. Qed.

(* ===================================================================== *)
(** * Further properties *)
(* ===================================================================== *)

#[local] Arguments isinstance : simpl never.

(** ** The escalating fetcher, over any two backends *)

Section AnyBackends.
Context {W : Type}.
Variable cloudscraper_fetch : string -> Z -> M W (string * Z).
Variable playwright_fetch : string -> Z -> M W (string * Z).

Abbreviation hybrid_fetch :=
  (HybridFetcher.fetch cloudscraper_fetch playwright_fetch).

Ltac hybrid_cases :=
  repeat (match goal with
          | |- context [HybridFetcher._cloudflare_detected ?h] =>
              is_var h; destruct (HybridFetcher._cloudflare_detected h) eqn:?
          | |- context [HybridFetcher.use_playwright_fallback ?h] =>
              is_var h; destruct (HybridFetcher.use_playwright_fallback h) eqn:?
          | |- context [HybridFetcher._playwright ?h] =>
              is_var h; destruct (HybridFetcher._playwright h) eqn:?
          | |- context [cloudscraper_fetch ?u ?t ?w] =>
              destruct (cloudscraper_fetch u t w) as [[[? ?]|?] ?] eqn:?
          | |- context [playwright_fetch ?u ?t ?w] =>
              destruct (playwright_fetch u t w) as [[[? ?]|?] ?] eqn:?
          | |- context [HybridFetcher._is_blocked ?c ?s] =>
              destruct (HybridFetcher._is_blocked c s) eqn:?
          | |- context [caught_by ?e ?cs] => destruct (caught_by e cs) eqn:?
          end; cbn).

(** X1: whatever the two backends do, a page that [fetch] returns is not
    classified as blocked. *)
Theorem X1_fetch_never_returns_blocked h w url timeout content status s' :
  hybrid_fetch url timeout (h, w) = (Return (content, status), s') ->
  HybridFetcher._is_blocked content status = false.
Proof.
  unfold HybridFetcher.fetch, HybridFetcher.try_cloudscraper,
    HybridFetcher.try_playwright.
  py_unfold. cbn. hybrid_cases;
    intros H; try discriminate H; inversion H; subst; congruence.
Qed.

Lemma caught_by_cons (e : PyExc) (c : ExcClass) (cs : list ExcClass) :
  caught_by e (c :: cs) = isinstance e c || caught_by e cs.
Proof. reflexivity. Qed.

(** X2: an exception that leaves [fetch] is either the error it raises
    itself when every strategy failed, or an exception of a backend that
    is no [Exception] (a [KeyboardInterrupt], say): every [Exception] of a
    backend is absorbed. *)
Theorem X2_fetch_raises_all_failed_only h w url timeout e s' :
  hybrid_fetch url timeout (h, w) = (Raise e, s') ->
  e = HybridFetcher.all_failed url \/ isinstance e Exception = false.
Proof.
  assert (Hpw : forall e0, caught_by e0 [ImportError; Exception] = false ->
                           isinstance e0 Exception = false).
  { intros e0. rewrite caught_by_cons, caught_by_one.
    now intros [_ ?]%orb_false_iff. }
  assert (Hcs : forall e0, caught_by e0 [Exception] = false ->
                           isinstance e0 Exception = false).
  { intros e0. now rewrite caught_by_one. }
  unfold HybridFetcher.fetch, HybridFetcher.try_cloudscraper,
    HybridFetcher.try_playwright.
  py_unfold. cbn. hybrid_cases;
    intros H; try discriminate H; inversion H; subst; auto.
Qed.

End AnyBackends.

Lemma X1_witness :
  Net.fetch Scenario.challenged "https://www.adb.org/projects" 30
    (Scenario.with_fallback, [])
  = (Return ("<html>projects</html>", 200),
     (HybridFetcher.set_playwright (Some (3 # 2))
        (HybridFetcher.set_cloudflare_detected true Scenario.with_fallback),
      [Net.Fetched Net.Browser "https://www.adb.org/projects";
       Net.Fetched Net.Lightweight "https://www.adb.org/projects"]))
  /\ HybridFetcher._is_blocked "<html>projects</html>" 200 = false.
Proof.
  assert (H : Net.fetch Scenario.challenged "https://www.adb.org/projects" 30
                (Scenario.with_fallback, [])
              = (Return ("<html>projects</html>", 200),
                 (HybridFetcher.set_playwright (Some (3 # 2))
                    (HybridFetcher.set_cloudflare_detected true Scenario.with_fallback),
                  [Net.Fetched Net.Browser "https://www.adb.org/projects";
                   Net.Fetched Net.Lightweight "https://www.adb.org/projects"])))
    by (vm_compute; reflexivity).
  split; [exact H|].
  exact (X1_fetch_never_returns_blocked _ _ _ _ _ _ _ _ _ H).
Defined.

Lemma X2_witness :
  Net.fetch Scenario.challenged "https://www.adb.org/projects" 30
    (Scenario.without_fallback, [])
  = (Raise (HybridFetcher.all_failed "https://www.adb.org/projects"),
     (HybridFetcher.set_cloudflare_detected true Scenario.without_fallback,
      [Net.Fetched Net.Lightweight "https://www.adb.org/projects"]))
  /\ (HybridFetcher.all_failed "https://www.adb.org/projects"
      = HybridFetcher.all_failed "https://www.adb.org/projects"
      \/ isinstance (HybridFetcher.all_failed "https://www.adb.org/projects")
           Exception = false).
Proof.
  assert (H : Net.fetch Scenario.challenged "https://www.adb.org/projects" 30
                (Scenario.without_fallback, [])
              = (Raise (HybridFetcher.all_failed "https://www.adb.org/projects"),
                 (HybridFetcher.set_cloudflare_detected true Scenario.without_fallback,
                  [Net.Fetched Net.Lightweight "https://www.adb.org/projects"])))
    by (vm_compute; reflexivity).
  split; [exact H|].
  exact (X2_fetch_raises_all_failed_only _ _ _ _ _ _ _ _ H).
Defined.

(** ** The escalating fetcher, over the scripted network *)

(** Case analysis that starts with the state of the instance. *)
Ltac branch_flag :=
  first [ match goal with
          | |- context [HybridFetcher._cloudflare_detected ?h] =>
              is_var h; destruct (HybridFetcher._cloudflare_detected h) eqn:?
          end; cbn
        | branch ].

(** X3: in ESCALATED state, with the fallback enabled, a call asks the
    browser backend and nothing else; it returns the browser's answer
    when that is not blocked and raises the all-strategies-failed error
    when it is; the instance stays ESCALATED. *)
Theorem X3_escalated_uses_browser_only (env : Net.Env) h w url timeout :
  HybridFetcher._cloudflare_detected h = true ->
  HybridFetcher.use_playwright_fallback h = true ->
  snd (snd (Net.fetch env url timeout (h, w))) = Net.Fetched Net.Browser url :: w
  /\ HybridFetcher._cloudflare_detected (fst (snd (Net.fetch env url timeout (h, w))))
     = true
  /\ (forall content status,
        Net.respond env Net.Browser (length w) url timeout = Return (content, status) ->
        fst (Net.fetch env url timeout (h, w))
        = if HybridFetcher._is_blocked content status
          then Raise (HybridFetcher.all_failed url)
          else Return (content, status)).
Proof.
  intros Hd Hf. net_unfold. rewrite Hd. cbn. rewrite Hf. cbn.
  repeat split.
  - repeat branch; reflexivity.
  - repeat branch; assumption.
  - intros content status Hr.
    destruct (HybridFetcher._playwright h); cbn; rewrite Hr; cbn;
      now destruct (HybridFetcher._is_blocked content status).
Qed.

Lemma X3_witness :
  snd (snd (Net.fetch Scenario.challenged "https://www.adb.org/projects" 30
              (HybridFetcher.set_cloudflare_detected true Scenario.with_fallback, [])))
  = [Net.Fetched Net.Browser "https://www.adb.org/projects"]
  /\ HybridFetcher._cloudflare_detected
       (fst (snd (Net.fetch Scenario.challenged "https://www.adb.org/projects" 30
                    (HybridFetcher.set_cloudflare_detected true Scenario.with_fallback,
                     [])))) = true
  /\ (forall content status,
        Net.respond Scenario.challenged Net.Browser 0
          "https://www.adb.org/projects" 30 = Return (content, status) ->
        fst (Net.fetch Scenario.challenged "https://www.adb.org/projects" 30
               (HybridFetcher.set_cloudflare_detected true Scenario.with_fallback, []))
        = if HybridFetcher._is_blocked content status
          then Raise (HybridFetcher.all_failed "https://www.adb.org/projects")
          else Return (content, status)).
Proof.
  apply (X3_escalated_uses_browser_only Scenario.challenged
           (HybridFetcher.set_cloudflare_detected true Scenario.with_fallback) []
           "https://www.adb.org/projects" 30); reflexivity.
Defined.

(** X4: in NORMAL state an answer of the lightweight backend that is not
    blocked is returned as it is; the browser backend is not asked, the
    count of consecutive failures is back at 0 and the state is still
    NORMAL. *)
Theorem X4_normal_answer_is_returned (env : Net.Env) h w url timeout content status :
  HybridFetcher._cloudflare_detected h = false ->
  Net.respond env Net.Lightweight (length w) url timeout = Return (content, status) ->
  HybridFetcher._is_blocked content status = false ->
  Net.fetch env url timeout (h, w)
  = (Return (content, status),
     (HybridFetcher.set_consecutive_failures 0 h, Net.Fetched Net.Lightweight url :: w)).
Proof.
  intros Hd Hr Hb. net_unfold. rewrite Hd. cbn. rewrite Hr. cbn. rewrite Hb.
  reflexivity.
Qed.

Lemma X4_witness :
  Net.fetch (Scraper.net_env Scenario.open_site) "https://www.adb.org/projects" 30
    (Scenario.with_fallback, [])
  = (Return ("<html>projects</html>", 200),
     (HybridFetcher.set_consecutive_failures 0 Scenario.with_fallback,
      [Net.Fetched Net.Lightweight "https://www.adb.org/projects"])).
Proof.
  apply (X4_normal_answer_is_returned (Scraper.net_env Scenario.open_site)
           Scenario.with_fallback [] "https://www.adb.org/projects" 30
           "<html>projects</html>" 200).
  - reflexivity.
  - reflexivity.
  - vm_compute. reflexivity.
Defined.

Section LazyBrowser.
Import Net Further.
Variable env : Net.Env.

Lemma fetch_no_browser_yet s url timeout :
  no_browser_yet s -> no_browser_yet (snd (Net.fetch env url timeout s)).
Proof.
  destruct s as [h w]. unfold no_browser_yet. cbn [fst snd]. intros Hinv.
  net_unfold. repeat branch_flag; intros Hp; try congruence;
    repeat (constructor; [reflexivity|]); auto.
Qed.

Lemma close_no_browser_yet s :
  no_browser_yet s -> no_browser_yet (snd (Net.close s)).
Proof.
  destruct s as [h w]. unfold no_browser_yet. cbn [fst snd]. intros Hinv.
  unfold Net.close, HybridFetcher.close, Net.backend_close. py_unfold. cbn.
  destruct (HybridFetcher._playwright h) eqn:Ep; cbn; intros Hp;
    [congruence|]. constructor; [reflexivity | auto].
Qed.

Lemma calls_no_browser_yet cs : forall s,
  no_browser_yet s -> no_browser_yet (Net.calls env cs s).
Proof.
  induction cs as [|c cs IH]; intros s Hs; [exact Hs|].
  unfold Net.calls. cbn [fold_left]. apply IH.
  destruct c; cbn [call]; [now apply fetch_no_browser_yet
                          | now apply close_no_browser_yet].
Qed.

(** Without the fallback no browser backend is ever created. *)
Lemma calls_no_fallback cs : forall s,
  HybridFetcher.use_playwright_fallback (fst s) = false ->
  HybridFetcher._playwright (fst s) = None ->
  HybridFetcher.use_playwright_fallback (fst (Net.calls env cs s)) = false
  /\ HybridFetcher._playwright (fst (Net.calls env cs s)) = None.
Proof.
  induction cs as [|c cs IH]; intros [h w] Hf Hp; [now split|].
  unfold Net.calls. cbn [fold_left]. apply IH; cbn [fst] in *.
  - destruct c as [url timeout|]; cbn [call].
    + net_unfold. repeat branch_flag; congruence.
    + unfold Net.close, HybridFetcher.close, Net.backend_close. py_unfold. cbn.
      now rewrite Hp.
  - destruct c as [url timeout|]; cbn [call].
    + net_unfold. repeat branch_flag; congruence.
    + unfold Net.close, HybridFetcher.close, Net.backend_close. py_unfold. cbn.
      now rewrite Hp.
Qed.

(** X5: the browser backend is created lazily and closed only when it
    exists.  Through any sequence of [fetch] and [close] calls on a fresh
    instance, as long as the instance holds no browser backend, the
    browser has been neither asked nor closed; and an instance built
    without the fallback never asks or closes a browser at all. *)
Theorem X5_browser_is_lazy (delay : Q) (cs : list Call) :
  (forall fallback,
     HybridFetcher._playwright
       (fst (Net.calls env cs (HybridFetcher.__init__ delay fallback, []))) = None ->
     Forall (fun ev => browser_event ev = false)
       (snd (Net.calls env cs (HybridFetcher.__init__ delay fallback, []))))
  /\ Forall (fun ev => browser_event ev = false)
       (snd (Net.calls env cs (HybridFetcher.__init__ delay false, []))).
Proof.
  assert (H : forall fallback,
            no_browser_yet (Net.calls env cs (HybridFetcher.__init__ delay fallback, [])))
    by (intros; apply calls_no_browser_yet; intros _; constructor).
  split; [exact H|].
  apply H. now apply calls_no_fallback.
Qed.

End LazyBrowser.

Lemma X5_witness :
  Forall (fun ev => Further.browser_event ev = false)
    (snd (Net.calls Scenario.challenged
            [Net.CallFetch "https://www.adb.org/projects" 30; Net.CallClose]
            (HybridFetcher.__init__ (3 # 2) false, []))).
Proof.
  apply (proj1 (X5_browser_is_lazy Scenario.challenged (3 # 2)
                  [Net.CallFetch "https://www.adb.org/projects" 30; Net.CallClose])
           false).
  reflexivity.
Defined.

(** ** The backoff retrier: what it does at once, and its bounds *)

Section RetryEdges.
Context {St A : Type}.
Variable time_sleep : Q -> M St unit.
Variable random_random : M St Q.
Variable p : Retry.Policy.
Variable on_retry : option (PyExc -> Z -> M St unit).
Variable func : M St A.

Lemma range_succ (n : Z) :
  0 <= n -> range (n + 1) = 0 :: map Z.of_nat (seq 1 (Z.to_nat n)).
Proof.
  intros Hn. unfold range.
  replace (Z.to_nat (n + 1)) with (S (Z.to_nat n)) by lia. reflexivity.
Qed.

(** X6: when the first invocation returns, or fails with an exception
    that is not among [exceptions], the wrapper is done at once: it gives
    that very outcome and leaves the state as the invocation left it,
    with no sleep, no draw and no call of the observer. *)
Theorem X6_first_outcome_passes_through (s s' : St) (r : Result A) :
  0 <= Retry.max_retries p ->
  func s = (r, s') ->
  match r with
  | Return _ => True
  | Raise e => caught_by e (Retry.exceptions p) = false
  end ->
  Retry.wrapper time_sleep random_random p on_retry func s = (r, s').
Proof.
  intros Hm Hf Hr. unfold Retry.wrapper. rewrite range_succ by assumption.
  destruct r as [v|e].
  - now apply attempts_return.
  - now apply attempts_uncaught.
Qed.

(** X7: with a negative [max_retries] the loop has no turn: the wrapped
    function is never invoked, and the [raise last_exception] that
    follows the loop fails with a [TypeError], as nothing was caught. *)
Theorem X7_negative_bound_never_invokes (s : St) :
  Retry.max_retries p < 0 ->
  Retry.wrapper time_sleep random_random p on_retry func s
  = (Raise (builtin TypeError "exceptions must derive from BaseException"), s).
Proof.
  intros Hm. unfold Retry.wrapper, range.
  replace (Z.to_nat (Retry.max_retries p + 1)) with 0%nat by lia.
  reflexivity.
Qed.

End RetryEdges.

Lemma X6_witness :
  Retry.run Scenario.steady Scenario.test_policy None
    (Retry.scripted (fun _ => @Raise string (builtin KeyError "title")))
    (0%nat, Scenario.dawn)
  = (Raise (builtin KeyError "title"), (1%nat, Scenario.dawn)).
Proof.
  apply (X6_first_outcome_passes_through
           (fun d => world (Clock.time_sleep Scenario.steady d))
           (world (Clock.random_random Scenario.steady))
           Scenario.test_policy None
           (Retry.scripted (fun _ => @Raise string (builtin KeyError "title")))
           (0%nat, Scenario.dawn) (1%nat, Scenario.dawn)
           (Raise (builtin KeyError "title"))).
  - cbn. lia.
  - reflexivity.
  - reflexivity.
Defined.

Lemma X7_witness :
  Retry.run Scenario.steady
    {| Retry.max_retries := -1; Retry.base_delay := 1; Retry.max_delay := 60;
       Retry.exponential_base := 2; Retry.jitter := true;
       Retry.exceptions := [Exception] |}
    None (Retry.scripted Scenario.flaky_func) (0%nat, Scenario.dawn)
  = (Raise (builtin TypeError "exceptions must derive from BaseException"),
     (0%nat, Scenario.dawn)).
Proof.
  apply (X7_negative_bound_never_invokes
           (fun d => world (Clock.time_sleep Scenario.steady d))
           (world (Clock.random_random Scenario.steady))
           {| Retry.max_retries := -1; Retry.base_delay := 1; Retry.max_delay := 60;
              Retry.exponential_base := 2; Retry.jitter := true;
              Retry.exceptions := [Exception] |}
           None (Retry.scripted Scenario.flaky_func) (0%nat, Scenario.dawn)).
  cbn. lia.
Defined.

Section RetryBounds.
Import RetrySpec Further.
Context {A : Type}.
Variable env : Clock.Env.
Variable p : Retry.Policy.
Variable script : nat -> Result A.

Abbreviation sleep_bounded := (Further.sleep_bounded env p).

Lemma jittered_bound (bd r cap : Q) :
  (bd <= cap)%Q -> (0 <= r)%Q -> (r < 1)%Q -> (0 <= bd * ((1 # 2) + r))%Q ->
  (bd * ((1 # 2) + r) <= (3 # 2) * cap)%Q.
Proof.
  intros Hcap Hr0 Hr1 Hd.
  assert (Hbd : (0 <= bd)%Q).
  { destruct (Qlt_le_dec bd 0) as [Hneg|]; [|assumption].
    assert (Hlt : (bd * ((1 # 2) + r) < 0 * ((1 # 2) + r))%Q)
      by (apply Qmult_lt_compat_r; lra).
    lra. }
  assert ((bd * ((1 # 2) + r) <= bd * (3 # 2))%Q).
  { rewrite !(Qmult_comm bd). apply Qmult_le_compat_r; lra. }
  lra.
Qed.

(** What the backoff does without an observer: it sleeps once, for a
    bounded time, or it raises (the power overflows, or [time.sleep]
    refuses the delay) and nothing is slept. *)
Lemma backoff_outcome (e : PyExc) (attempt : Z) (o : nat) (w : Clock.World) :
  (exists w' d,
     Retry.backoff (fun d => world (Clock.time_sleep env d))
       (world (Clock.random_random env)) p None e attempt (o, w)
     = (Return tt, (o, w'))
     /\ Clock.slept w' = d :: Clock.slept w /\ sleep_bounded d)
  \/ (exists w' e',
        Retry.backoff (fun d => world (Clock.time_sleep env d))
          (world (Clock.random_random env)) p None e attempt (o, w)
        = (Raise e', (o, w'))
        /\ Clock.slept w' = Clock.slept w).
Proof.
  unfold Retry.backoff. py_unfold.
  destruct (Retry.backoff_delay p attempt) as [delay|e0] eqn:Edelay.
  2:{ right. eexists _, _. split; reflexivity. }
  assert (Hcap : (delay <= Retry.max_delay p)%Q).
  { apply backoff_delay_value in Edelay as ->. apply py_min_le_r. }
  destruct (Retry.jitter p).
  - unfold Clock.random_random at 1. cbv beta iota zeta.
    unfold Clock.time_sleep. cbn.
    set (d := (delay * ((1 # 2) + Clock.dice env (Clock.rolls w)))%Q).
    destruct (Qltb d 0) eqn:Ed.
    + right. eexists _, _. split; reflexivity.
    + left. eexists _, d. split; [reflexivity|]. split; [reflexivity|].
      apply Qltb_false in Ed. split; [assumption|].
      intros [_ Hdice]. destruct (Hdice (Clock.rolls w)).
      now apply jittered_bound.
  - unfold Clock.time_sleep. cbn.
    destruct (Qltb delay 0) eqn:Ed.
    + right. eexists _, _. split; reflexivity.
    + left. eexists _, delay.
      split; [reflexivity|]. split; [reflexivity|].
      apply Qltb_false in Ed. split; [assumption|]. intros _. lra.
Qed.

Lemma attempts_bounded (todo : list Z) :
  forall last a w,
    exists r n w' new,
      Retry.attempts (fun d => world (Clock.time_sleep env d))
        (world (Clock.random_random env)) p None
        (@Retry.scripted A Clock.World script) todo last (a, w)
      = (r, (n, w'))
      /\ (n <= a + length todo)%nat
      /\ Clock.slept w' = (new ++ Clock.slept w)%list
      /\ (length new <= sleeping_turns p todo)%nat
      /\ Forall sleep_bounded new.
Proof.
  induction todo as [|attempt todo IH]; intros last a w.
  - cbn [Retry.attempts].
    destruct last; eexists _, a, w, []; (split; [reflexivity|]);
      cbn; repeat split; auto; lia.
  - unfold sleeping_turns. cbn [List.filter length].
    destruct (script a) as [v|e] eqn:E.
    + exists (Return v), (S a), w, [].
      split; [apply attempts_return; unfold Retry.scripted; cbn; now rewrite E|].
      cbn. repeat split; auto; lia.
    + destruct (caught_by e (Retry.exceptions p)) eqn:Ec.
      2:{ exists (Raise e), (S a), w, [].
          split; [apply attempts_uncaught; [unfold Retry.scripted; cbn; now rewrite E
                                           | assumption]|].
          cbn. repeat split; auto; lia. }
      destruct (Z.eqb_spec attempt (Retry.max_retries p)) as [->|Hne].
      { exists (Raise e), (S a), w, [].
        split; [apply attempts_exhausted; [unfold Retry.scripted; cbn; now rewrite E
                                          | assumption]|].
        cbn. repeat split; auto; lia. }
      cbn [negb length].
      destruct (backoff_outcome e attempt (S a) w)
        as [(w1 & d & Hb & Hs & Hd) | (w1 & e' & Hb & Hs)].
      * destruct (IH (Some e) (S a) w1) as (r & n & w' & new & Hrun & Hn & Hsl & Hlen & Hall).
        exists r, n, w', (new ++ [d])%list.
        split; [erewrite attempts_retry;
                [exact Hrun | unfold Retry.scripted; cbn; now rewrite E
                | assumption | assumption | exact Hb]|].
        split; [cbn; lia|]. split; [rewrite Hsl, Hs, <- app_assoc; reflexivity|].
        split.
        -- rewrite length_app. cbn [length]. unfold sleeping_turns in Hlen. lia.
        -- apply Forall_app. split; [assumption | now constructor].
      * exists (Raise e'), (S a), w1, [].
        split.
        -- cbn [Retry.attempts]. unfold try_except, mbind, M_bind, bind.
           unfold Retry.scripted at 1. cbn [fst snd]. rewrite E. cbn [mret M_ret ret].
           rewrite Ec. apply Z.eqb_neq in Hne. rewrite Hne.
           unfold mbind, M_bind, bind in Hb |- *. now rewrite Hb.
        -- cbn. repeat split; auto; lia.
Qed.

Lemma sleeping_turns_range :
  (sleeping_turns p (range (Retry.max_retries p + 1))
   <= Z.to_nat (Retry.max_retries p))%nat.
Proof.
  unfold sleeping_turns, range.
  destruct (Z.ltb_spec (Retry.max_retries p) 0) as [Hneg|Hpos].
  - replace (Z.to_nat (Retry.max_retries p + 1)) with 0%nat by lia. cbn. lia.
  - replace (Z.to_nat (Retry.max_retries p + 1))
      with (S (Z.to_nat (Retry.max_retries p))) by lia.
    rewrite seq_S, map_app, List.filter_app, length_app.
    cbn [map List.filter Nat.add].
    replace (Z.of_nat (Z.to_nat (Retry.max_retries p))) with (Retry.max_retries p)
      by lia.
    rewrite Z.eqb_refl. cbn [negb length].
    pose proof (List.filter_length_le
                  (fun attempt => negb (attempt =? Retry.max_retries p)%Z)
                  (map Z.of_nat (seq 0 (Z.to_nat (Retry.max_retries p))))) as H.
    rewrite length_map, length_seq in H. lia.
Qed.

(** X8: a run of the wrapper is bounded, whatever the wrapped function
    does, whether or not the power [exponential_base ** attempt]
    overflows and whether or not [time.sleep] accepts the delays: the function
    is invoked at most [max_retries + 1] times, the wrapper sleeps at most
    [max_retries] times, and no sleep is longer than one and a half times
    [max_delay] (under a generator that returns values in [[0, 1)]). *)
Theorem X8_retry_is_bounded (w : Clock.World) :
  exists r n w' new,
    Retry.run env p None (Retry.scripted script) (0%nat, w) = (r, (n, w'))
    /\ (n <= Z.to_nat (Retry.max_retries p + 1))%nat
    /\ Clock.slept w' = (new ++ Clock.slept w)%list
    /\ (length new <= Z.to_nat (Retry.max_retries p))%nat
    /\ Forall (fun d => (0 <= d)%Q
                        /\ (Clock.fair env -> (d <= (3 # 2) * Retry.max_delay p)%Q)) new.
Proof.
  destruct (attempts_bounded (range (Retry.max_retries p + 1)) None 0%nat w)
    as (r & n & w' & new & Hrun & Hn & Hsl & Hlen & Hall).
  exists r, n, w', new. split; [exact Hrun|].
  split. { unfold range in Hn. rewrite length_map, length_seq in Hn. lia. }
  split; [exact Hsl|]. split; [|exact Hall].
  pose proof sleeping_turns_range. lia.
Qed.

End RetryBounds.

Lemma X8_witness :
  exists r n w' new,
    Retry.run Scenario.steady Scenario.test_policy None
      (Retry.scripted Scenario.flaky_func) (0%nat, Scenario.dawn) = (r, (n, w'))
    /\ (n <= Z.to_nat (Retry.max_retries Scenario.test_policy + 1))%nat
    /\ Clock.slept w' = (new ++ Clock.slept Scenario.dawn)%list
    /\ (length new <= Z.to_nat (Retry.max_retries Scenario.test_policy))%nat
    /\ Forall (fun d => (0 <= d)%Q
                        /\ (Clock.fair Scenario.steady ->
                            (d <= (3 # 2) * Retry.max_delay Scenario.test_policy)%Q))
         new.
Proof.
  exact (X8_retry_is_bounded Scenario.steady Scenario.test_policy
           Scenario.flaky_func Scenario.dawn).
Defined.

(** ** The pacer: what a call costs *)

(** X9: [wait()] never raises and sleeps at most once; afterwards the
    recorded time is the time of the clock.  When [min_delay <=
    max_delay], the clock is monotonic and the recorded time is not in
    the future, the sleep is positive and at most [max_delay]. *)
Theorem X9_wait_is_cheap (env : Clock.Env) (rl : RateLimiter.t) (w : Clock.World) :
  exists rl' w' new,
    RateLimiter.wait env (rl, w) = (Return tt, (rl', w'))
    /\ RateLimiter.last_request_time rl' = Some (Clock.clock w')
    /\ Clock.slept w' = (new ++ Clock.slept w)%list
    /\ (length new <= 1)%nat
    /\ (Clock.fair env ->
        (RateLimiter.min_delay rl <= RateLimiter.max_delay rl)%Q ->
        (forall t0, RateLimiter.last_request_time rl = Some t0 ->
                    (t0 <= Clock.clock w)%Q) ->
        Forall (fun d => (0 < d)%Q /\ (d <= RateLimiter.max_delay rl)%Q) new).
Proof.
  unfold RateLimiter.wait, Clock.random_uniform, Clock.random_random,
    Clock.time_time, Clock.time_sleep.
  py_unfold.
  destruct (RateLimiter.last_request_time rl) as [t0|] eqn:Hlast; cbn.
  - set (delay := (RateLimiter.min_delay rl
                   + (RateLimiter.max_delay rl - RateLimiter.min_delay rl)
                     * Clock.dice env (Clock.rolls w))%Q).
    set (elapsed := (Clock.clock w + 0 + Clock.lapse env (Clock.ticks w) - t0)%Q).
    destruct (Qltb elapsed delay) eqn:Elt; cbn.
    + apply Qltb_true in Elt.
      assert (Hnn : Qltb (delay - elapsed) 0 = false) by (apply Qltb_false; lra).
      rewrite Hnn. cbn.
      eexists _, _, [(delay - elapsed)%Q]. split; [reflexivity|].
      split; [reflexivity|]. split; [reflexivity|]. split; [cbn; lia|].
      intros [Hlapse Hdice] Hle Hpast. constructor; [|constructor].
      specialize (Hpast t0 eq_refl). pose proof (Hlapse (Clock.ticks w)).
      destruct (Hdice (Clock.rolls w)) as [Hr0 Hr1].
      destruct (uniform_between _ _ _ Hle Hr0 Hr1) as [_ Hd].
      fold delay in Hd. unfold elapsed in *. clearbody delay. split; lra.
    + eexists _, _, []. split; [reflexivity|].
      split; [reflexivity|]. split; [reflexivity|]. split; [cbn; lia|].
      intros; constructor.
  - eexists _, _, []. split; [reflexivity|].
    split; [reflexivity|]. split; [reflexivity|]. split; [cbn; lia|].
    intros; constructor.
Qed.

Lemma X9_witness :
  exists rl' w' new,
    RateLimiter.wait Scenario.steady (Scenario.used_limiter, Scenario.dawn)
    = (Return tt, (rl', w'))
    /\ RateLimiter.last_request_time rl' = Some (Clock.clock w')
    /\ Clock.slept w' = (new ++ Clock.slept Scenario.dawn)%list
    /\ (length new <= 1)%nat
    /\ (Clock.fair Scenario.steady ->
        (RateLimiter.min_delay Scenario.used_limiter
         <= RateLimiter.max_delay Scenario.used_limiter)%Q ->
        (forall t0, RateLimiter.last_request_time Scenario.used_limiter = Some t0 ->
                    (t0 <= Clock.clock Scenario.dawn)%Q) ->
        Forall (fun d => (0 < d)%Q
                         /\ (d <= RateLimiter.max_delay Scenario.used_limiter)%Q) new).
Proof.
  exact (X9_wait_is_cheap Scenario.steady Scenario.used_limiter Scenario.dawn).
Defined.

(** ** The crawl: one record per entry *)

Section Entries.
Import Scraper Models Further.
Variable env : Env.

Lemma detail_origin project s d s' :
  scrape_project_detail env project s = (Return d, s') ->
  d = from_listing project
  \/ exists html, parse_detail env html (detail_url project) project = Return d.
Proof.
  unfold scrape_project_detail, try_except, mbind, M_bind, bind, mret, M_ret, ret.
  destruct (_fetch_with_retry env (detail_url project) s) as [[html|e] s1].
  - destruct (parse_detail env html (detail_url project) project) as [d0|e] eqn:Ep.
    + destruct (stats_add "details_fetched" 1 s1) as [[[]|e] s2].
      * intros [= <- _]. right. now exists html.
      * destruct (caught_by e [ScraperError]); [|discriminate].
        destruct (stats_add "errors" 1 s2) as [[[]|e'] s3];
          [intros [= <- _]; now left | discriminate].
    + destruct (caught_by e [ScraperError]); [|discriminate].
      destruct (stats_add "errors" 1 s1) as [[[]|e'] s3];
        [intros [= <- _]; now left | discriminate].
  - destruct (caught_by e [ScraperError]); [|discriminate].
    destruct (stats_add "errors" 1 s1) as [[[]|e'] s3];
      [intros [= <- _]; now left | discriminate].
Qed.

(** The loop body yields one record for its entry, or is interrupted by
    an exception that is no [Exception] before it yields. *)
Lemma emit_one include_details project s :
  (exists i s',
     emit env include_details project s = (Return tt, s')
     /\ yielded (snd s') = i :: yielded (snd s)
     /\ item_of env project i
     /\ (include_details = false -> i = Listing project))
  \/ (exists e s',
        emit env include_details project s = (Raise e, s')
        /\ isinstance e Exception = false
        /\ yielded (snd s') = yielded (snd s)).
Proof.
  unfold emit. destruct include_details.
  - unfold try_except, mbind, M_bind, bind.
    pose proof (silent_scrape_project_detail env project s) as Hsil.
    destruct (scrape_project_detail env project s) as [[d|e] s1] eqn:Es.
    + left. eexists (Detail d), _. split; [reflexivity|].
      cbn. rewrite <- Hsil. split; [reflexivity|]. split; [|discriminate].
      destruct (detail_origin _ _ _ _ Es) as [->|[html Hp]];
        [right; now left | right; right; now exists html, d].
    + rewrite caught_by_one. destruct (isinstance e Exception) eqn:Ee.
      * left. eexists (Listing project), _. split; [reflexivity|].
        cbn. rewrite <- Hsil. split; [reflexivity|]. split; [now left | reflexivity].
      * right. eexists e, s1. split; [reflexivity|]. split; [exact Ee|exact Hsil].
  - left. eexists (Listing project), _. split; [reflexivity|].
    split; [reflexivity|]. split; [now left | reflexivity].
Qed.

(** X10: for the entries of a listing page the crawl yields one record
    each, in the order of the page: the entry itself, or a detail built
    from it.  No failure of a detail page breaks this; only an exception
    that is no [Exception] stops the loop, after the records of the
    entries before it.  Without [include_details] the records are the
    entries. *)
Theorem X10_one_record_per_entry include_details projects s :
  exists r s' items,
    emit_all env include_details projects s = (r, s')
    /\ yielded (snd s') = (rev items ++ yielded (snd s))%list
    /\ Forall2 (item_of env) (firstn (length items) projects) items
    /\ (r = Return tt -> length items = length projects)
    /\ (forall e, r = Raise e -> isinstance e Exception = false)
    /\ (include_details = false -> r = Return tt /\ items = map Listing projects).
Proof.
  revert s. induction projects as [|project projects IH]; intros s.
  - exists (Return tt), s, []. cbn. repeat split; auto; try constructor; discriminate.
  - cbn [emit_all]. unfold mbind, M_bind, bind.
    destruct (emit_one include_details project s)
      as [(i & s1 & He & Hy & Hi & Hl) | (e & s1 & He & Hne & Hy)]; rewrite He.
    + destruct (IH s1) as (r & s' & items & Hrun & Hys & Hall & Hlen & Hexc & Hplain).
      exists r, s', (i :: items). split; [exact Hrun|].
      split; [rewrite Hys, Hy; cbn [rev]; now rewrite <- app_assoc|].
      split; [cbn [length firstn]; now constructor|].
      split; [intros Hr; cbn [length]; now rewrite (Hlen Hr)|].
      split; [exact Hexc|].
      intros Hd. destruct (Hplain Hd) as [-> ->]. split; [reflexivity|].
      cbn [map]. now rewrite (Hl Hd).
    + exists (Raise e), s1, []. split; [reflexivity|].
      split; [exact Hy|]. split; [constructor|].
      split; [discriminate|]. split; [now intros e' [= <-]|].
      intros ->. destruct (emit_one false project s)
        as [(i & s2 & He' & _) | (e' & s2 & He' & _)];
        unfold emit in He, He'; discriminate.
Qed.

End Entries.

Lemma X10_witness :
  exists r s' items,
    Scraper.emit_all Scenario.details_down false [Scenario.road; Scenario.dam]
      (Scenario.plain_scraper, Scenario.start) = (r, s')
    /\ Scraper.yielded (snd s') = (rev items ++ Scraper.yielded Scenario.start)%list
    /\ Forall2 (Further.item_of Scenario.details_down)
         (firstn (length items) [Scenario.road; Scenario.dam]) items
    /\ (r = Return tt -> length items = length [Scenario.road; Scenario.dam])
    /\ (forall e, r = Raise e -> isinstance e Exception = false)
    /\ (false = false ->
        r = Return tt /\ items = map Models.Listing [Scenario.road; Scenario.dam]).
Proof.
  exact (X10_one_record_per_entry Scenario.details_down false
           [Scenario.road; Scenario.dam] (Scenario.plain_scraper, Scenario.start)).
Defined.

(** ** The crawl: how the loop ends and how it goes on *)

Section Pagination.
Import Scraper Models Further.
Variable env : Env.

Lemma turn_listing_ok include_details url s projects next_url s1 s2 :
  scrape_listing_page env (Some url) None s = (Return (projects, next_url), s1) ->
  emit_all env include_details projects s1 = (Return tt, s2) ->
  turn env include_details url s
  = (Return (match projects with
             | [] => Break
             | _ :: _ => if has_next next_url then Again next_url else Break
             end), s2).
Proof.
  intros Hl He. unfold turn, try_clauses, mbind, M_bind, bind. rewrite Hl.
  cbn [fst snd]. destruct projects as [|project projects].
  - cbn in He. now injection He as <-.
  - rewrite He. unfold has_next.
    destruct next_url as [u|]; [|reflexivity]. now destruct (String.eqb u "").
Qed.

(** X11: the crawl ends normally, right after the page, when the listing
    page has no entry (whatever next link it shows) or has no next link:
    nothing is counted as an error and nothing more is requested. *)
Theorem X11_crawl_ends_without_error turns max_pages include_details
    pages_scraped current_page next_url s projects next_url' s1 s2 :
  limit_reached max_pages pages_scraped = false ->
  scrape_listing_page env (Some (page_url current_page next_url)) None s
  = (Return (projects, next_url'), s1) ->
  emit_all env include_details projects s1 = (Return tt, s2) ->
  projects = [] \/ has_next next_url' = false ->
  crawl env (S turns) max_pages include_details pages_scraped current_page
    next_url s = (Return Finished, s2)
  /\ (projects = [] -> s2 = s1).
Proof.
  intros Hlim Hl He Hend. split.
  - cbn [crawl]. rewrite Hlim. unfold mbind, M_bind, bind.
    rewrite (turn_listing_ok _ _ _ _ _ _ _ Hl He).
    destruct projects; [reflexivity|].
    destruct Hend as [ Hnil | -> ]; [discriminate | reflexivity].
  - intros ->. cbn in He. now injection He.
Qed.

(** X12: when the listing page has entries and a next link, the loop goes
    on with one more page scraped, and the next request goes to the URL
    of the link, whatever the page number. *)
Theorem X12_crawl_follows_next_link turns max_pages include_details
    pages_scraped current_page next_url s project projects u s1 s2 :
  limit_reached max_pages pages_scraped = false ->
  scrape_listing_page env (Some (page_url current_page next_url)) None s
  = (Return (project :: projects, Some u), s1) ->
  emit_all env include_details (project :: projects) s1 = (Return tt, s2) ->
  u <> "" ->
  crawl env (S turns) max_pages include_details pages_scraped current_page
    next_url s
  = crawl env turns max_pages include_details (pages_scraped + 1)
      (current_page + 1) (Some u) s2
  /\ page_url (current_page + 1) (Some u) = u.
Proof.
  intros Hlim Hl He Hu. apply String.eqb_neq in Hu. split.
  - cbn [crawl]. rewrite Hlim. unfold mbind, M_bind, bind.
    rewrite (turn_listing_ok _ _ _ _ _ _ _ Hl He). unfold has_next.
    now rewrite Hu.
  - unfold page_url. now rewrite Hu.
Qed.

(** X13: a page limit of 0 is no limit: the crawl with [max_pages = 0]
    does what the crawl with [max_pages = None] does. *)
Theorem X13_zero_limit_is_no_limit turns include_details :
  forall pages_scraped current_page next_url s,
    crawl env turns (Some 0) include_details pages_scraped current_page next_url s
    = crawl env turns None include_details pages_scraped current_page next_url s.
Proof.
  induction turns as [|turns IH]; intros; [reflexivity|].
  cbn [crawl limit_reached]. cbn. unfold mbind, M_bind, bind.
  destruct (turn env include_details (page_url current_page next_url) s)
    as [[[|next_url']|e] s1]; try reflexivity.
  apply IH.
Qed.

(** X14: with a positive page limit the loop has an end: from
    [pages_scraped] pages on, it makes at most [max_pages - pages_scraped]
    turns, whatever the site answers. *)
Theorem X14_page_limit_bounds_the_loop max_pages include_details :
  0 < max_pages ->
  forall (left : nat) pages_scraped current_page next_url s turns,
    max_pages - pages_scraped <= Z.of_nat left ->
    (left < turns)%nat ->
    fst (crawl env turns (Some max_pages) include_details pages_scraped
           current_page next_url s) <> Return Unfinished.
Proof.
  intros Hpos. induction left as [|left IH];
    intros pages_scraped current_page next_url s turns Hleft Hturns;
    (destruct turns as [|turns]; [lia|]); cbn [crawl limit_reached].
  - replace (max_pages =? 0)%Z with false by (symmetry; apply Z.eqb_neq; lia).
    replace (pages_scraped >=? max_pages)%Z with true
      by (symmetry; apply Z.geb_le; lia).
    cbn. discriminate.
  - replace (max_pages =? 0)%Z with false by (symmetry; apply Z.eqb_neq; lia).
    cbn [negb andb].
    destruct (pages_scraped >=? max_pages)%Z; [cbn; discriminate|].
    unfold mbind, M_bind, bind.
    destruct (turn env include_details (page_url current_page next_url) s)
      as [[[|next_url']|e] s1]; try (cbn; discriminate).
    apply IH; lia.
Qed.

End Pagination.

Lemma X11_witness :
  Scraper.crawl Scenario.open_site 3 None false 0 1 None
    (Scenario.plain_scraper, Scenario.start)
  = (Return Scraper.Finished,
     snd (Scraper.emit_all Scenario.open_site false [Scenario.road; Scenario.dam]
            (snd (Scraper.scrape_listing_page Scenario.open_site
                    (Some Scraper.PROJECTS_URL) None
                    (Scenario.plain_scraper, Scenario.start)))))
  /\ ([Scenario.road; Scenario.dam] = [] ->
      snd (Scraper.emit_all Scenario.open_site false [Scenario.road; Scenario.dam]
             (snd (Scraper.scrape_listing_page Scenario.open_site
                     (Some Scraper.PROJECTS_URL) None
                     (Scenario.plain_scraper, Scenario.start))))
      = snd (Scraper.scrape_listing_page Scenario.open_site
               (Some Scraper.PROJECTS_URL) None
               (Scenario.plain_scraper, Scenario.start))).
Proof.
  apply (X11_crawl_ends_without_error Scenario.open_site 2 None false 0 1 None
           (Scenario.plain_scraper, Scenario.start)
           [Scenario.road; Scenario.dam] None
           (snd (Scraper.scrape_listing_page Scenario.open_site
                   (Some Scraper.PROJECTS_URL) None
                   (Scenario.plain_scraper, Scenario.start)))
           (snd (Scraper.emit_all Scenario.open_site false
                   [Scenario.road; Scenario.dam]
                   (snd (Scraper.scrape_listing_page Scenario.open_site
                           (Some Scraper.PROJECTS_URL) None
                           (Scenario.plain_scraper, Scenario.start)))))).
  - reflexivity.
  - vm_compute. reflexivity.
  - vm_compute. reflexivity.
  - right. reflexivity.
Defined.

Lemma X12_witness :
  Scraper.crawl Scenario.two_pages 3 None false 0 1 None
    (Scenario.plain_scraper, Scenario.start)
  = Scraper.crawl Scenario.two_pages 2 None false (0 + 1) (1 + 1)
      (Some "https://www.adb.org/projects?page=1")
      (snd (Scraper.emit_all Scenario.two_pages false [Scenario.road]
              (snd (Scraper.scrape_listing_page Scenario.two_pages
                      (Some Scraper.PROJECTS_URL) None
                      (Scenario.plain_scraper, Scenario.start)))))
  /\ Scraper.page_url (1 + 1) (Some "https://www.adb.org/projects?page=1")
     = "https://www.adb.org/projects?page=1".
Proof.
  apply (X12_crawl_follows_next_link Scenario.two_pages 2 None false 0 1 None
           (Scenario.plain_scraper, Scenario.start) Scenario.road []
           "https://www.adb.org/projects?page=1"
           (snd (Scraper.scrape_listing_page Scenario.two_pages
                   (Some Scraper.PROJECTS_URL) None
                   (Scenario.plain_scraper, Scenario.start)))
           (snd (Scraper.emit_all Scenario.two_pages false [Scenario.road]
                   (snd (Scraper.scrape_listing_page Scenario.two_pages
                           (Some Scraper.PROJECTS_URL) None
                           (Scenario.plain_scraper, Scenario.start)))))).
  - reflexivity.
  - vm_compute. reflexivity.
  - vm_compute. reflexivity.
  - discriminate.
Defined.

Lemma X14_witness :
  fst (Scraper.crawl Scenario.two_pages 2 (Some 1) false 0 1 None
         (Scenario.plain_scraper, Scenario.start))
  <> Return Scraper.Unfinished.
Proof.
  apply (X14_page_limit_bounds_the_loop Scenario.two_pages 1 false ltac:(lia)
           1%nat 0 1 None (Scenario.plain_scraper, Scenario.start) 2%nat); lia.
Defined.

(** ** The crawl: what it never raises *)

Section NoScraperError.
Import Models Scraper.
Variable env : Env.

Lemma scraper_error_is_exception e :
  isinstance e ScraperError = true -> isinstance e Exception = true.
Proof. unfold isinstance. now destruct (exc_class e). Qed.

Lemma stats_add_raises key n (s : t * World) e s' :
  stats_add key n s = (Raise e, s') -> isinstance e ScraperError = false.
Proof.
  destruct (stats (fst s) !! key) as [v|] eqn:Hv.
  - rewrite (stats_add_present _ _ _ _ Hv). discriminate.
  - rewrite (stats_add_absent _ _ _ Hv). now intros [= <- <-].
Qed.

Lemma detail_raises project s e s' :
  scrape_project_detail env project s = (Raise e, s') ->
  isinstance e ScraperError = false.
Proof.
  unfold scrape_project_detail, try_except.
  match goal with |- context [match ?body s with _ => _ end] =>
    destruct (body s) as [[r|e0] s0] end; [discriminate|].
  destruct (caught_by e0 [ScraperError]) eqn:Ec.
  - unfold mbind, M_bind, bind.
    destruct (stats_add "errors" 1 s0) as [[[]|e1] s1] eqn:Ea; [discriminate|].
    intros [= <- <-]. eapply stats_add_raises, Ea.
  - intros [= <- <-]. now rewrite caught_by_one in Ec.
Qed.

Lemma emit_raises include_details project s e s' :
  emit env include_details project s = (Raise e, s') ->
  isinstance e ScraperError = false.
Proof.
  unfold emit. destruct include_details; [|discriminate].
  unfold try_except.
  match goal with |- context [match ?body s with _ => _ end] =>
    destruct (body s) as [[r|e0] s0] end; [discriminate|].
  destruct (caught_by e0 [Exception]) eqn:Ec; [discriminate|].
  intros [= <- <-]. rewrite caught_by_one in Ec.
  destruct (isinstance e0 ScraperError) eqn:Es; [|reflexivity].
  apply scraper_error_is_exception in Es. congruence.
Qed.

Lemma emit_all_raises include_details projects s e s' :
  emit_all env include_details projects s = (Raise e, s') ->
  isinstance e ScraperError = false.
Proof.
  revert s. induction projects as [|p ps IH]; intros s; cbn [emit_all].
  - discriminate.
  - unfold mbind, M_bind, bind.
    destruct (emit env include_details p s) as [[[]|e0] s0] eqn:E.
    + apply IH.
    + intros [= <- <-]. eapply emit_raises, E.
Qed.

Lemma turn_raises include_details url s e s' :
  turn env include_details url s = (Raise e, s') ->
  isinstance e ScraperError = false.
Proof.
  unfold turn, try_clauses.
  match goal with |- context [match ?body s with _ => _ end] =>
    destruct (body s) as [[r|e0] s0] eqn:Eb end; [discriminate|].
  cbn [dispatch]. rewrite !caught_by_one.
  destruct (isinstance e0 CloudflareBlockError); [discriminate|].
  destruct (isinstance e0 ScraperError) eqn:Es.
  - unfold mbind, M_bind, bind.
    destruct (stats_add "errors" 1 s0) as [[[]|e1] s1] eqn:Ea; [discriminate|].
    intros [= <- <-]. eapply stats_add_raises, Ea.
  - now intros [= <- <-].
Qed.

Lemma crawl_raises turns max_pages include_details pages_scraped current_page
    next_url s e s' :
  crawl env turns max_pages include_details pages_scraped current_page next_url s
  = (Raise e, s') ->
  isinstance e ScraperError = false.
Proof.
  revert pages_scraped current_page next_url s.
  induction turns as [|n IH]; intros pages_scraped current_page next_url s;
    cbn [crawl]; [discriminate|].
  destruct (limit_reached max_pages pages_scraped); [discriminate|].
  unfold mbind, M_bind, bind.
  destruct (turn env include_details (page_url current_page next_url) s)
    as [[[|u]|e0] s0] eqn:Et.
  - discriminate.
  - apply IH.
  - intros [= <- <-]. eapply turn_raises, Et.
Qed.

(** X15: no [ScraperError] leaves the crawl, the detail request or the
    single-project request: an exception that does leave one of them is
    not an instance of [ScraperError] (it comes from a parser, from a
    missing counter, or is not an [Exception] at all).  A caller's
    [except ScraperError] around them never fires. *)
Theorem X15_scraper_errors_stay_inside :
  (forall turns max_pages include_details start_page s e s',
     scrape_projects env turns max_pages include_details start_page s
     = (Raise e, s') ->
     isinstance e ScraperError = false)
  /\ (forall project s e s',
        scrape_project_detail env project s = (Raise e, s') ->
        isinstance e ScraperError = false)
  /\ (forall parse_page project_id s e s',
        Lookup.scrape_single_project env parse_page project_id s = (Raise e, s') ->
        isinstance e ScraperError = false).
Proof.
  split; [|split].
  - intros *. apply crawl_raises.
  - intros *. apply detail_raises.
  - intros parse_page project_id s e s'.
    unfold Lookup.scrape_single_project, try_except.
    match goal with |- context [match ?body s with _ => _ end] =>
      destruct (body s) as [[r|e0] s0] end; [discriminate|].
    destruct (caught_by e0 [ScraperError]) eqn:Ec; [discriminate|].
    intros [= <- <-]. now rewrite caught_by_one in Ec.
Qed.

End NoScraperError.

Lemma X15_witness :
  isinstance (builtin AttributeError "'NoneType' object has no attribute 'get'")
    ScraperError = false.
Proof.
  refine (proj1 (X15_scraper_errors_stay_inside Cases.tripping)
            1%nat None false 1 (Scenario.plain_scraper, Scenario.start) _
            (snd (Scraper.scrape_projects Cases.tripping 1 None false 1
                    (Scenario.plain_scraper, Scenario.start))) _).
  vm_compute. reflexivity.
Defined.

(** ** Fetching a page: the bypass fetcher and the plain session *)

Section FetchPage.
Import Scraper.
Variable env : Env.

(** X16: what [_fetch_page] does with the outcome of the bypass fetcher.
    An answer with a status below 400 is returned and counted in
    [cloudflare_bypassed], and the session is not used.  Every other
    outcome (an answer with status 400 or more, 429 included, or any
    [Exception]) is not reported: the page is requested again through
    the plain session, from the state the fetcher left. *)
Theorem X16_bypass_outcome_or_session url s f r s1 :
  _fetcher (fst s) = Some f ->
  fetcher_fetch env f url (timeout (fst s)) s = (r, s1) ->
  match r with
  | Return (content, status) =>
      if (status <? 400)%Z
      then forall v,
             stats (fst s1) !! "cloudflare_bypassed" = Some v ->
             _fetch_page env url s
             = (Return content,
                (set_stats (<[ "cloudflare_bypassed" := v + 1 ]> (stats (fst s1)))
                   (fst s1), snd s1))
      else _fetch_page env url s = fetch_standard env url s1
  | Raise e =>
      isinstance e Exception = true ->
      _fetch_page env url s = fetch_standard env url s1
  end.
Proof.
  intros Hf Hr.
  unfold _fetch_page, fetch_bypass, try_except, mbind, M_bind, bind, self.
  cbn [fst snd]. rewrite Hf, Hr. destruct r as [[content status]|e]; cbn [fst snd].
  - destruct (status <? 400)%Z eqn:Hlt.
    + intros v Hv. apply Z.ltb_lt in Hlt.
      assert ((status =? 429)%Z = false) as -> by (apply Z.eqb_neq; lia).
      assert ((status >=? 400)%Z = false) as ->
        by (rewrite Z.geb_leb; apply Z.leb_gt; lia).
      now rewrite (stats_add_present _ _ _ _ Hv).
    + apply Z.ltb_ge in Hlt. destruct (status =? 429)%Z; [reflexivity|].
      assert ((status >=? 400)%Z = true) as ->
        by (rewrite Z.geb_leb; apply Z.leb_le; lia).
      reflexivity.
  - intros He. rewrite caught_by_cons, caught_by_one, He, orb_true_r. reflexivity.
Qed.

Lemma wait_returns (rl : RateLimiter.t) (c : Clock.World) :
  exists rl' c', RateLimiter.wait (clock_env env) (rl, c) = (Return tt, (rl', c')).
Proof.
  unfold RateLimiter.wait, Clock.random_uniform, Clock.random_random,
    Clock.time_time, Clock.time_sleep.
  py_unfold.
  destruct (RateLimiter.last_request_time rl) as [t0|]; cbn; [|eauto].
  match goal with |- context [Qltb ?x ?y] => destruct (Qltb x y) eqn:Elt end;
    cbn; [|eauto].
  apply Qltb_true in Elt.
  match goal with |- context [Qltb ?x 0] =>
    assert (Hnn : Qltb x 0 = false) by (apply Qltb_false; lra); rewrite Hnn end.
  cbn. eauto.
Qed.

Lemma pacer_returns (s : t * World) :
  exists rl' c',
    on_field rate_limiter set_rate_limiter
      (fun s0 : RateLimiter.t * World =>
         let '(r, (rl, c)) := RateLimiter.wait (clock_env env) (fst s0, time (snd s0)) in
         (r, (rl, {| time := c; net := net (snd s0); yielded := yielded (snd s0) |})))
      s
    = (Return tt,
       (set_rate_limiter rl' (fst s),
        {| time := c'; net := net (snd s); yielded := yielded (snd s) |})).
Proof.
  unfold on_field. cbn [fst snd].
  destruct (wait_returns (rate_limiter (fst s)) (time (snd s)))
    as (rl' & c' & ->).
  now exists rl', c'.
Qed.

End FetchPage.

#[local] Arguments Scraper._is_cloudflare_block : simpl never.

Section Session.
Import Scraper.
Variable env : Env.

(** The classes of the session's exceptions that [fetch_standard] turns
    into a [NetworkError]. *)
Abbreviation transport := [Timeout; ConnectionError; HTTPError].

(** X17: when the session raises, [fetch_standard] has made one request
    and raises too.  A [Timeout], [ConnectionError] or [HTTPError] of the
    session becomes a [NetworkError] that carries the URL, which
    [_fetch_with_retry] retries; any other exception of the session
    leaves unchanged. *)
Theorem X17_transport_failures url s e0 :
  Net.answer (net_env env) (length (net (snd s))) url (timeout (fst s)) = Raise e0 ->
  exists e s',
    fetch_standard env url s = (Raise e, s')
    /\ net (snd s') = Net.Requested url :: net (snd s)
    /\ (caught_by e0 transport = true ->
        exc_class e = NetworkError /\ exc_url e = Some url
        /\ caught_by e (Retry.exceptions retry_policy) = true)
    /\ (caught_by e0 transport = false -> e = e0).
Proof.
  intros Hout. destruct (pacer_returns env s) as (rl' & c' & Hp).
  unfold fetch_standard. unfold mbind at 1, M_bind at 1, bind at 1. rewrite Hp.
  destruct s as [o w]. cbn [fst snd] in *.
  unfold in_net, Net.session_get. py_unfold. cbn. rewrite Hout. cbn.
  rewrite !caught_by_one.
  assert (Ht : caught_by e0 transport
               = isinstance e0 Timeout
                 || (isinstance e0 ConnectionError || (isinstance e0 HTTPError || false)))
    by reflexivity.
  rewrite Ht.
  destruct (isinstance e0 Timeout) eqn:E1; cbn.
  { eexists _, _. split; [reflexivity|].
    repeat split; intros; try discriminate; reflexivity. }
  destruct (isinstance e0 ConnectionError) eqn:E2; cbn.
  { eexists _, _. split; [reflexivity|].
    repeat split; intros; try discriminate; reflexivity. }
  destruct (isinstance e0 HTTPError) eqn:E3; cbn.
  { eexists _, _. split; [reflexivity|].
    repeat split; intros; try discriminate; reflexivity. }
  eexists e0, _. split; [reflexivity|].
  repeat split; intros; try discriminate; reflexivity.
Qed.

(** X18: when the session answers, [fetch_standard] has made one request,
    and it returns the body exactly when the status is outside 400..599.
    A 429 raises a [RateLimitError] with the value of [Retry-After] (60
    without the header), which is retried; any other status in 400..599
    raises a [CloudflareBlockError] when the response is classified as a
    block, which is not retried, and otherwise a [NetworkError] that
    carries the URL and no status code. *)
Theorem X18_answered_requests url s response :
  Net.answer (net_env env) (length (net (snd s))) url (timeout (fst s))
  = Return response ->
  exists r s',
    fetch_standard env url s = (r, s')
    /\ net (snd s') = Net.Requested url :: net (snd s)
    /\ (~ (400 <= Net.status_code response < 600)%Z ->
        r = Return (Net.text response))
    /\ ((400 <= Net.status_code response < 600)%Z -> exists e, r = Raise e)
    /\ (Net.status_code response = 429 ->
        forall retry_after,
          retry_after_of env response = Some retry_after ->
          r = Raise (mkExc RateLimitError "Rate limited by server" (Some url)
                       (Some 429) (Some retry_after))
          /\ (Net.headers response !! "retry-after" = None -> retry_after = 60))
    /\ (Net.status_code response <> 429 ->
        _is_cloudflare_block response = true ->
        r = Raise (mkExc CloudflareBlockError
                     "Request blocked by Cloudflare protection" (Some url) None None))
    /\ (Net.status_code response <> 429 ->
        _is_cloudflare_block response = false ->
        (400 <= Net.status_code response < 600)%Z ->
        exists e, r = Raise e /\ exc_class e = NetworkError
                  /\ exc_url e = Some url /\ exc_status_code e = None).
Proof.
  intros Hout. destruct (pacer_returns env s) as (rl' & c' & Hp).
  unfold fetch_standard. unfold mbind at 1, M_bind at 1, bind at 1. rewrite Hp.
  destruct s as [o w]. cbn [fst snd] in *.
  unfold in_net, Net.session_get, raise_for_status. py_unfold. cbn. rewrite Hout. cbn.
  assert (Hblock : _is_cloudflare_block response = true ->
                   (400 <= Net.status_code response < 600)%Z).
  { intros [[H|H] _]%is_cloudflare_block_iff; lia. }
  destruct (Z.eqb_spec (Net.status_code response) 429) as [E429|N429].
  - destruct (retry_after_of env response) as [ra|] eqn:Era; cbn;
      eexists _, _; (split; [reflexivity|]); cbn;
      (split; [reflexivity|]); (split; [lia|]);
      (split; [eauto|]); (split; [|split; intros; congruence]).
    + intros _ ra' [= <-]. split; [reflexivity|].
      intros Hh. unfold retry_after_of in Era.
      change (PyStr.lower "Retry-After") with "retry-after" in Era.
      rewrite Hh in Era. congruence.
    + intros _ ra' [=].
  - destruct (_is_cloudflare_block response) eqn:Eb; cbn.
    + eexists _, _. split; [reflexivity|]. cbn. split; [reflexivity|].
      specialize (Hblock eq_refl).
      split; [intros; lia|]. split; [eauto|]. split; [congruence|].
      split; [reflexivity|]. discriminate.
    + destruct ((400 <=? Net.status_code response)%Z
                && (Net.status_code response <? 600)%Z) eqn:Erange; cbn.
      * apply andb_true_iff in Erange as [H1%Z.leb_le H2%Z.ltb_lt].
        rewrite !caught_by_one. cbn.
        eexists _, _. split; [reflexivity|]. cbn. split; [reflexivity|].
        split; [intros; lia|]. split; [eauto|]. split; [congruence|].
        split; [discriminate|]. intros _ _ _. eexists. split; [reflexivity|].
        cbn. repeat split.
        destruct (Net.status_code response <? 400)%Z eqn:E; [|reflexivity].
        apply Z.ltb_lt in E. lia.
      * apply andb_false_iff in Erange.
        eexists _, _. split; [reflexivity|]. cbn. split; [reflexivity|].
        split; [reflexivity|].
        split; [intros [H1 H2]; destruct Erange as [E|E];
                [apply Z.leb_gt in E | apply Z.ltb_ge in E]; lia|].
        split; [congruence|]. split; [discriminate|].
        intros _ _ [H1 H2]. destruct Erange as [E|E];
          [apply Z.leb_gt in E | apply Z.ltb_ge in E]; lia.
Qed.

(** One attempt of [_fetch_page] without bypass fetcher, when the
    session fails on the transport: one request, a [NetworkError], and an
    object that differs in the pacer only. *)
Lemma fetch_page_transport url o w e0 :
  _fetcher o = None ->
  Net.answer (net_env env) (length (net w)) url (timeout o) = Raise e0 ->
  caught_by e0 transport = true ->
  exists e rl' c',
    _fetch_page env url (o, w)
    = (Raise e, (set_rate_limiter rl' o,
                 {| time := c'; net := Net.Requested url :: net w;
                    yielded := yielded w |}))
    /\ exc_class e = NetworkError /\ exc_url e = Some url.
Proof.
  intros Hf Hout Ht.
  unfold _fetch_page, fetch_bypass. unfold mbind at 1, M_bind at 1, bind at 1.
  unfold mbind at 1, M_bind at 1, bind at 1, self at 1. cbn [fst snd].
  rewrite Hf. cbn [mret M_ret ret].
  destruct (pacer_returns env (o, w)) as (rl' & c' & Hp).
  unfold fetch_standard. unfold mbind at 1, M_bind at 1, bind at 1. rewrite Hp.
  cbn [fst snd] in *.
  unfold in_net, Net.session_get. py_unfold. cbn. rewrite Hout. cbn.
  rewrite !caught_by_one.
  assert (Ht' : isinstance e0 Timeout
                || (isinstance e0 ConnectionError || (isinstance e0 HTTPError || false))
                = true) by exact Ht.
  destruct (isinstance e0 Timeout) eqn:E1; cbn.
  { eexists _, rl', c'. repeat split. }
  destruct (isinstance e0 ConnectionError) eqn:E2; cbn.
  { eexists _, rl', c'. repeat split. }
  destruct (isinstance e0 HTTPError) eqn:E3; cbn; [|discriminate].
  eexists _, rl', c'. repeat split.
Qed.

(** The backoff of [_fetch_with_retry] under a fair generator: a sleep,
    which touches the clock only. *)
Lemma scraper_backoff_returns e attempt o w :
  Clock.fair (clock_env env) ->
  0 <= attempt < Retry.max_retries retry_policy ->
  exists c',
    Retry.backoff (St := t * World)
      (fun d => in_time (Clock.time_sleep (clock_env env) d))
      (in_time (Clock.random_random (clock_env env))) retry_policy None e attempt
      (o, w)
    = (Return tt, (o, {| time := c'; net := net w; yielded := yielded w |}))
    /\ length (Clock.slept c') = S (length (Clock.slept (time w))).
Proof.
  intros [_ Hdice] Ha.
  assert (Hin : RetrySpec.in_range (Retry.exponential_base retry_policy ^ attempt)).
  { cbn in Ha.
    assert (attempt = 0 \/ attempt = 1 \/ attempt = 2) as [->|[->| ->]] by lia;
      split; vm_compute; discriminate. }
  assert (Hd : (0 <= RetrySpec.capped_delay retry_policy attempt)%Q)
    by (apply capped_delay_nonneg; repeat split; cbn; lra).
  unfold Retry.backoff, in_time, Clock.random_random, Clock.time_sleep.
  py_unfold. rewrite (backoff_delay_in_range _ _ Hin). cbn.
  destruct (Hdice (Clock.rolls (time w))) as [Hr _].
  match goal with |- context [Qltb ?d 0] =>
    assert (Hnn : Qltb d 0 = false)
      by (apply Qltb_false; apply Qmult_le_0_compat; [exact Hd | lra]);
    rewrite Hnn end.
  cbn. eexists. split; reflexivity.
Qed.

(** X19: a transport failure that persists costs a bounded effort.
    Without bypass fetcher, when the session fails on every request with
    a [Timeout], [ConnectionError] or [HTTPError], [_fetch_with_retry]
    makes exactly four requests ([max_retries = 3]), backing off in
    between, and then raises a [NetworkError] for the URL. *)
Theorem X19_persistent_failure_costs_four_requests url o w :
  Clock.fair (clock_env env) ->
  _fetcher o = None ->
  (forall n, exists e0,
     Net.answer (net_env env) n url (timeout o) = Raise e0
     /\ caught_by e0 transport = true) ->
  exists e o' w',
    _fetch_with_retry env url (o, w) = (Raise e, (o', w'))
    /\ exc_class e = NetworkError /\ exc_url e = Some url
    /\ net w' = ([Net.Requested url; Net.Requested url;
                  Net.Requested url; Net.Requested url] ++ net w)%list
    /\ yielded w' = yielded w.
Proof.
  intros Hfair Hf Hfail.
  assert (Hcaught : forall e, exc_class e = NetworkError ->
                              caught_by e (Retry.exceptions retry_policy) = true).
  { intros e He. cbn. rewrite caught_by_one. unfold isinstance. now rewrite He. }
  assert (Hstep : forall o1 w1,
            _fetcher o1 = None -> timeout o1 = timeout o ->
            exists e rl' c',
              _fetch_page env url (o1, w1)
              = (Raise e, (set_rate_limiter rl' o1,
                           {| time := c'; net := Net.Requested url :: net w1;
                              yielded := yielded w1 |}))
              /\ exc_class e = NetworkError /\ exc_url e = Some url).
  { intros o1 w1 Hf1 Ht1. destruct (Hfail (length (net w1))) as (e0 & Hout & Ht).
    apply (fetch_page_transport url o1 w1 e0); [assumption | now rewrite Ht1 | assumption]. }
  unfold _fetch_with_retry, Retry.wrapper.
  change (range (Retry.max_retries retry_policy + 1)) with [0; 1; 2; 3].
  destruct (Hstep o w Hf eq_refl) as (e1 & rl1 & c1 & H1 & He1 & _).
  destruct (scraper_backoff_returns e1 0 (set_rate_limiter rl1 o)
              {| time := c1; net := Net.Requested url :: net w; yielded := yielded w |}
              Hfair ltac:(cbn; lia)) as (c1' & Hb1 & Hs1).
  erewrite attempts_retry;
    [| exact H1 | now apply Hcaught | discriminate | exact Hb1].
  cbn [net yielded time] in *.
  destruct (Hstep (set_rate_limiter rl1 o)
              {| time := c1'; net := Net.Requested url :: net w; yielded := yielded w |}
              Hf eq_refl) as (e2 & rl2 & c2 & H2 & He2 & _).
  cbn [net yielded time] in *.
  destruct (scraper_backoff_returns e2 1 (set_rate_limiter rl2 (set_rate_limiter rl1 o))
              {| time := c2; net := Net.Requested url :: Net.Requested url :: net w;
                 yielded := yielded w |}
              Hfair ltac:(cbn; lia)) as (c2' & Hb2 & Hs2).
  erewrite attempts_retry;
    [| exact H2 | now apply Hcaught | discriminate | exact Hb2].
  cbn [net yielded time] in *.
  destruct (Hstep (set_rate_limiter rl2 (set_rate_limiter rl1 o))
              {| time := c2'; net := Net.Requested url :: Net.Requested url :: net w;
                 yielded := yielded w |}
              Hf eq_refl) as (e3 & rl3 & c3 & H3 & He3 & _).
  cbn [net yielded time] in *.
  destruct (scraper_backoff_returns e3 2
              (set_rate_limiter rl3 (set_rate_limiter rl2 (set_rate_limiter rl1 o)))
              {| time := c3;
                 net := Net.Requested url :: Net.Requested url
                        :: Net.Requested url :: net w;
                 yielded := yielded w |}
              Hfair ltac:(cbn; lia)) as (c3' & Hb3 & Hs3).
  erewrite attempts_retry;
    [| exact H3 | now apply Hcaught | discriminate | exact Hb3].
  cbn [net yielded time] in *.
  destruct (Hstep (set_rate_limiter rl3 (set_rate_limiter rl2 (set_rate_limiter rl1 o)))
              {| time := c3';
                 net := Net.Requested url :: Net.Requested url
                        :: Net.Requested url :: net w;
                 yielded := yielded w |}
              Hf eq_refl) as (e4 & rl4 & c4 & H4 & He4 & Hu4).
  cbn [net yielded time] in *.
  eexists e4, _, _. split.
  - apply (attempts_exhausted _ _ retry_policy None (_fetch_page env url) []);
      [exact H4 | now apply Hcaught].
  - cbn [net yielded time]. repeat split; assumption.
Qed.

End Session.

Lemma X16_witness :
  Scraper._fetch_page Scenario.open_site Scraper.PROJECTS_URL
    (Scenario.scraper, Scenario.start)
  = (Return Scenario.page_html,
     (Scraper.set_stats
        (<[ "cloudflare_bypassed" := 0 + 1 ]>
           (Scraper.stats
              (fst (snd (Scraper.fetcher_fetch Scenario.open_site
                           (Scraper.Hybrid Scenario.with_fallback)
                           Scraper.PROJECTS_URL 30
                           (Scenario.scraper, Scenario.start))))))
        (fst (snd (Scraper.fetcher_fetch Scenario.open_site
                     (Scraper.Hybrid Scenario.with_fallback)
                     Scraper.PROJECTS_URL 30
                     (Scenario.scraper, Scenario.start)))),
      snd (snd (Scraper.fetcher_fetch Scenario.open_site
                  (Scraper.Hybrid Scenario.with_fallback)
                  Scraper.PROJECTS_URL 30
                  (Scenario.scraper, Scenario.start))))).
Proof.
  apply (X16_bypass_outcome_or_session Scenario.open_site Scraper.PROJECTS_URL
           (Scenario.scraper, Scenario.start)
           (Scraper.Hybrid Scenario.with_fallback)
           (Return (Scenario.page_html, 200))
           (snd (Scraper.fetcher_fetch Scenario.open_site
                   (Scraper.Hybrid Scenario.with_fallback) Scraper.PROJECTS_URL 30
                   (Scenario.scraper, Scenario.start)))
           eq_refl).
  - vm_compute. reflexivity.
  - vm_compute. reflexivity.
Defined.

Lemma X17_witness :
  exists e s',
    Scraper.fetch_standard Scenario.timing_out Scraper.PROJECTS_URL
      (Scenario.plain_scraper, Scenario.start) = (Raise e, s')
    /\ Scraper.net (snd s')
       = Net.Requested Scraper.PROJECTS_URL :: Scraper.net Scenario.start
    /\ (caught_by (builtin Timeout "Read timed out")
          [Timeout; ConnectionError; HTTPError] = true ->
        exc_class e = NetworkError /\ exc_url e = Some Scraper.PROJECTS_URL
        /\ caught_by e (Retry.exceptions Scraper.retry_policy) = true)
    /\ (caught_by (builtin Timeout "Read timed out")
          [Timeout; ConnectionError; HTTPError] = false ->
        e = builtin Timeout "Read timed out").
Proof.
  apply (X17_transport_failures Scenario.timing_out Scraper.PROJECTS_URL
           (Scenario.plain_scraper, Scenario.start)
           (builtin Timeout "Read timed out")).
  reflexivity.
Defined.

Lemma X18_witness :
  exists r s',
    Scraper.fetch_standard Scenario.walled Scraper.PROJECTS_URL
      (Scenario.plain_scraper, Scenario.start) = (r, s')
    /\ r = Raise (mkExc CloudflareBlockError
                    "Request blocked by Cloudflare protection"
                    (Some Scraper.PROJECTS_URL) None None).
Proof.
  destruct (X18_answered_requests Scenario.walled Scraper.PROJECTS_URL
              (Scenario.plain_scraper, Scenario.start)
              {| Net.status_code := 403;
                 Net.headers := {[ "cf-ray" := "8a1b2c3d4e5f-FRA" ]};
                 Net.text := Scenario.challenge_html |} eq_refl)
    as (r & s' & Hrun & _ & _ & _ & _ & Hblock & _).
  exists r, s'. split; [exact Hrun|].
  apply Hblock; [discriminate | vm_compute; reflexivity].
Defined.

Lemma X19_witness :
  exists e o' w',
    Scraper._fetch_with_retry Scenario.timing_out Scraper.PROJECTS_URL
      (Scenario.plain_scraper, Scenario.start) = (Raise e, (o', w'))
    /\ exc_class e = NetworkError /\ exc_url e = Some Scraper.PROJECTS_URL
    /\ Scraper.net w'
       = ([Net.Requested Scraper.PROJECTS_URL; Net.Requested Scraper.PROJECTS_URL;
           Net.Requested Scraper.PROJECTS_URL; Net.Requested Scraper.PROJECTS_URL]
          ++ Scraper.net Scenario.start)%list
    /\ Scraper.yielded w' = Scraper.yielded Scenario.start.
Proof.
  apply (X19_persistent_failure_costs_four_requests Scenario.timing_out
           Scraper.PROJECTS_URL Scenario.plain_scraper Scenario.start).
  - exact steady_fair.
  - reflexivity.
  - intros n. exists (builtin Timeout "Read timed out"). split; reflexivity.
Defined.

(** ** The constructor and the page numbers *)

Section Construction.
Import Scraper.

Lemma create_fetcher_known strategy delay :
  (exists f, create_fetcher strategy delay = Return f)
  <-> strategy = "cloudscraper" \/ strategy = "playwright" \/ strategy = "hybrid".
Proof.
  unfold create_fetcher.
  destruct (String.eqb_spec strategy "cloudscraper") as [->|H1].
  { split; eauto. }
  destruct (String.eqb_spec strategy "playwright") as [->|H2].
  { split; eauto. }
  destruct (String.eqb_spec strategy "hybrid") as [->|H3].
  { split; eauto. }
  split; [intros [f [=]] | intros [|[|]]; congruence].
Qed.

(** X20: the constructor does not fail on a strategy [create_fetcher]
    refuses: the [ValueError] is swallowed and the scraper is built
    without bypass fetcher, exactly as with [bypass_cloudflare=False].
    A scraper without bypass fetcher fetches every page through the plain
    session. *)
Theorem X20_unknown_strategy_disables_bypass
    request_delay max_delay timeout bypass_cloudflare fetch_strategy :
  let o := __init__ request_delay max_delay timeout bypass_cloudflare fetch_strategy in
  (_fetcher o = None
   <-> bypass_cloudflare = false
       \/ ~ (fetch_strategy = "cloudscraper" \/ fetch_strategy = "playwright"
             \/ fetch_strategy = "hybrid"))
  /\ (_fetcher o = None ->
      o = __init__ request_delay max_delay timeout false fetch_strategy
      /\ forall env url w, _fetch_page env url (o, w) = fetch_standard env url (o, w)).
Proof.
  cbn zeta. split.
  - unfold __init__. cbn [_fetcher].
    pose proof (create_fetcher_known fetch_strategy request_delay) as Hk.
    destruct bypass_cloudflare.
    + destruct (create_fetcher fetch_strategy request_delay) as [f|e].
      * split; [discriminate|]. intros [|Hn]; [discriminate|].
        exfalso. apply Hn, Hk. eauto.
      * split; [|reflexivity]. intros _. right. intros Hs.
        apply Hk in Hs as [f [=]].
    + split; [now left | reflexivity].
  - intros Hf. split.
    + unfold __init__ in *. cbn [_fetcher] in Hf. now rewrite Hf.
    + intros env url w.
      unfold _fetch_page, fetch_bypass, mbind, M_bind, bind, self. cbn [fst snd].
      now rewrite Hf.
Qed.

(** X21: listing pages are numbered from 1 by the callers and from 0 by
    the site.  [scrape_listing_page(page=n)] requests the plain projects
    URL when [n <= 1] and [?page=n-1] otherwise; the crawl loop computes
    the same URL from its page counter when that counter is at least 1,
    but for a counter below 1 it asks for [?page=n-1], a negative page. *)
Theorem X21_page_numbers env page s :
  (1 <= page ->
   scrape_listing_page env None (Some page) s
   = scrape_listing_page env (Some (page_url page None)) None s)
  /\ (page <= 1 ->
      scrape_listing_page env None (Some page) s
      = scrape_listing_page env (Some PROJECTS_URL) None s)
  /\ (1 < page ->
      page_url page None = PROJECTS_URL ++ "?page=" ++ PyStr.of_Z (page - 1))
  /\ (page <= 0 ->
      page_url page None = PROJECTS_URL ++ "?page=" ++ PyStr.of_Z (page - 1)).
Proof.
  unfold scrape_listing_page, page_url, build_url_page.
  destruct (Z.eqb_spec page 0) as [->|H0]; cbn [orb].
  { repeat split; intros; try lia; reflexivity. }
  destruct (Z.eqb_spec page 1) as [->|H1].
  { repeat split; intros; try lia; reflexivity. }
  destruct (page >? 1) eqn:Hgt; cbn [negb].
  - apply Z.gtb_lt in Hgt. repeat split; intros; try lia; reflexivity.
  - assert (page <= 1) by (rewrite Z.gtb_ltb in Hgt; apply Z.ltb_ge in Hgt; lia).
    repeat split; intros; try lia; reflexivity.
Qed.

End Construction.

Lemma X20_witness :
  Scraper.__init__ (3 # 2) 3 30 true "selenium"
  = Scraper.__init__ (3 # 2) 3 30 false "selenium"
  /\ Scraper._fetch_page Scenario.open_site Scraper.PROJECTS_URL
       (Scraper.__init__ (3 # 2) 3 30 true "selenium", Scenario.start)
     = Scraper.fetch_standard Scenario.open_site Scraper.PROJECTS_URL
         (Scraper.__init__ (3 # 2) 3 30 true "selenium", Scenario.start).
Proof.
  destruct (proj2 (X20_unknown_strategy_disables_bypass (3 # 2) 3 30 true "selenium")
              eq_refl) as [Hsame Hfetch].
  split; [exact Hsame | apply Hfetch].
Defined.

Lemma X21_witness :
  Scraper.scrape_listing_page Scenario.open_site None (Some 2)
    (Scenario.plain_scraper, Scenario.start)
  = Scraper.scrape_listing_page Scenario.open_site
      (Some (Scraper.page_url 2 None)) None
      (Scenario.plain_scraper, Scenario.start)
  /\ Scraper.page_url 0 None = "https://www.adb.org/projects?page=-1".
Proof.
  split.
  - apply (proj1 (X21_page_numbers Scenario.open_site 2
                    (Scenario.plain_scraper, Scenario.start))). lia.
  - apply (proj2 (proj2 (proj2 (X21_page_numbers Scenario.open_site 0
                    (Scenario.plain_scraper, Scenario.start))))). lia.
Defined.

(** ** The text helpers *)

Section CleanText.
Import PyText Utils Text.

Lemma string_app_cons (c : ascii) (s t : string) :
  String c s ++ t = String c (s ++ t).
Proof. reflexivity. Qed.

Lemma string_app_nil_r (s : string) : s ++ "" = s.
Proof.
  induction s as [|c s IH]; [reflexivity|].
  now rewrite string_app_cons, IH.
Qed.

Lemma string_app_assoc (a b c : string) : (a ++ b) ++ c = a ++ (b ++ c).
Proof.
  induction a as [|x a IH]; [reflexivity|].
  now rewrite !string_app_cons, IH.
Qed.

Lemma solid_app (a b : string) : solid (a ++ b) = solid a && solid b.
Proof.
  induction a as [|c a IH]; [reflexivity|].
  rewrite string_app_cons. cbn [solid]. now rewrite IH, andb_assoc.
Qed.

Lemma scan_some (a w rest : string) :
  solid w = true -> scan (Some a) (w ++ rest) = scan (Some (a ++ w)) rest.
Proof.
  revert a. induction w as [|c w IH]; intros a Hw.
  - now rewrite string_app_nil_r.
  - cbn [solid] in Hw. apply andb_prop in Hw as [Hc Hw]. apply negb_true_iff in Hc.
    rewrite string_app_cons. cbn [scan]. rewrite Hc, IH by exact Hw.
    now rewrite string_app_assoc.
Qed.

Lemma scan_none (w rest : string) :
  word w -> scan None (w ++ rest) = scan (Some w) rest.
Proof.
  intros [Hne Hw]. destruct w as [|c w]; [congruence|].
  cbn [solid] in Hw. apply andb_prop in Hw as [Hc Hw]. apply negb_true_iff in Hc.
  rewrite string_app_cons. cbn [scan]. rewrite Hc.
  now rewrite scan_some.
Qed.

Lemma scan_words (acc : option string) (s : string) :
  match acc with Some a => word a | None => True end ->
  Forall word (scan acc s).
Proof.
  revert acc. induction s as [|c s IH]; intros acc Hacc; cbn [scan].
  - destruct acc; [now constructor | constructor].
  - destruct (isspace c) eqn:Hc.
    + destruct acc as [a|]; [constructor; [exact Hacc|]|]; now apply IH.
    + apply IH. destruct acc as [a|].
      * destruct Hacc as [Hne Ha]. split.
        -- destruct a; discriminate.
        -- rewrite solid_app, Ha. cbn [solid]. now rewrite Hc.
      * split; [discriminate|]. cbn [solid]. now rewrite Hc.
Qed.

Lemma split_words (s : string) : Forall word (split s).
Proof. now apply scan_words. Qed.

Lemma scan_some_nonempty (a s : string) : scan (Some a) s <> [].
Proof.
  revert a. induction s as [|c s IH]; intros a; cbn [scan]; [discriminate|].
  destruct (isspace c); [discriminate | apply IH].
Qed.

Lemma split_blank (s : string) : split s = [] <-> blank s = true.
Proof.
  unfold split. induction s as [|c s IH]; cbn [scan blank]; [easy|].
  destruct (isspace c); cbn [andb]; [exact IH|].
  split; [|discriminate]. intros H. now apply scan_some_nonempty in H.
Qed.

Lemma split_join (words : list string) :
  Forall word words -> split (join " " words) = words.
Proof.
  unfold split. induction 1 as [|w words Hw Hws IH]; [reflexivity|].
  destruct words as [|w2 words].
  - cbn [join]. rewrite <- (string_app_nil_r w) at 1.
    now rewrite scan_none.
  - change (join " " (w :: w2 :: words))
      with (w ++ String " " (join " " (w2 :: words))).
    rewrite scan_none by exact Hw.
    change (scan (Some w) (String " " (join " " (w2 :: words))))
      with (w :: scan None (join " " (w2 :: words))).
    now rewrite IH.
Qed.

Lemma tidy_from_solid (w rest : string) :
  solid w = true -> tidy_from false (w ++ rest) = tidy_from false rest.
Proof.
  induction w as [|c w IH]; intros Hw; [reflexivity|].
  cbn [solid] in Hw. apply andb_prop in Hw as [Hc Hw]. apply negb_true_iff in Hc.
  rewrite string_app_cons. cbn [tidy_from]. rewrite Hc. now apply IH.
Qed.

Lemma tidy_from_word (b : bool) (w rest : string) :
  word w -> tidy_from b (w ++ rest) = tidy_from false rest.
Proof.
  intros [Hne Hw]. destruct w as [|c w]; [congruence|].
  cbn [solid] in Hw. apply andb_prop in Hw as [Hc Hw]. apply negb_true_iff in Hc.
  rewrite string_app_cons. cbn [tidy_from]. rewrite Hc. now apply tidy_from_solid.
Qed.

Lemma tidy_join (b : bool) (words : list string) :
  Forall word words -> words <> [] -> tidy_from b (join " " words) = true.
Proof.
  intros Hws. revert b. induction Hws as [|w words Hw Hws IH]; intros b Hne;
    [congruence|].
  destruct words as [|w2 words].
  - cbn [join]. rewrite <- (string_app_nil_r w).
    now rewrite tidy_from_word.
  - change (join " " (w :: w2 :: words))
      with (w ++ String " " (join " " (w2 :: words))).
    rewrite tidy_from_word by exact Hw.
    cbn [tidy_from]. change (isspace " ") with true.
    change (Ascii.eqb " " " ") with true. cbn [negb andb].
    now apply IH.
Qed.

Lemma tidy_rstrip (b : bool) (s : string) :
  tidy_from b s = true -> rstrip s = s.
Proof.
  revert b. induction s as [|c s IH]; intros b H; [reflexivity|].
  cbn [tidy_from rstrip] in *. destruct (isspace c) eqn:Hc.
  - apply andb_prop in H as [_ H]. rewrite (IH _ H).
    destruct s; [discriminate H | reflexivity].
  - rewrite (IH _ H). now destruct s.
Qed.

Lemma tidy_strip (s : string) : tidy s = true -> strip s = s.
Proof.
  intros H. unfold strip.
  assert (lstrip s = s) as ->; [|now apply (tidy_rstrip true)].
  destruct s as [|c s]; [reflexivity|]. unfold tidy in H.
  cbn [tidy_from lstrip] in *.
  destruct (isspace c); [discriminate H | reflexivity].
Qed.

Lemma tidy_nonempty (s : string) : tidy s = true -> falsy s = false.
Proof. now destruct s. Qed.

Lemma blank_nonempty (s : string) : blank s = false -> falsy s = false.
Proof. now destruct s. Qed.

(** What [clean_text] computes. *)
Lemma clean_text_words (t : string) :
  clean_text (Some t)
  = if blank t then None else Some (join " " (split t)).
Proof.
  unfold clean_text. destruct (blank t) eqn:Hb.
  - destruct (falsy t); [reflexivity|].
    apply split_blank in Hb. now rewrite Hb.
  - rewrite (blank_nonempty _ Hb).
    assert (Hne : split t <> []).
    { intros H. apply split_blank in H. congruence. }
    pose proof (tidy_join true _ (split_words t) Hne) as Ht.
    cbn zeta. rewrite (tidy_strip _ Ht). now rewrite (tidy_nonempty _ Ht).
Qed.

Lemma tidy_not_blank (b : bool) (s : string) :
  tidy_from b s = true -> s <> "" -> blank s = false.
Proof.
  revert b. induction s as [|c s IH]; intros b H Hne; [congruence|].
  cbn [tidy_from blank] in *.
  destruct (isspace c); [|reflexivity]. cbn [andb].
  apply andb_prop in H as [_ H]. apply (IH _ H).
  destruct s; [discriminate H|discriminate].
Qed.

(** X22: [clean_text] gives [None] exactly for [None] and for a text
    without any character that is not whitespace (the empty text
    included); [parse_amount] is the same function. *)
Theorem X22_clean_text_none (text : option string) :
  (clean_text text = None
   <-> text = None \/ exists t, text = Some t /\ blank t = true)
  /\ parse_amount text = clean_text text.
Proof.
  split.
  - destruct text as [t|]; [|split; [now left | reflexivity]].
    rewrite clean_text_words. destruct (blank t) eqn:Hb.
    + split; [right; now exists t | reflexivity].
    + split; [discriminate|]. intros [[=]|(t' & [= <-] & H)]. congruence.
  - destruct text as [t|]; [|reflexivity]. cbn.
    now destruct (falsy t).
Qed.

(** X23: a text [clean_text] returns consists of the words of the input
    (the maximal runs of non-whitespace characters), in order, joined by
    single spaces: it is not empty, has no whitespace at either end and
    none but single spaces inside, splits into the same words as the
    input, and is left unchanged by [clean_text]. *)
Theorem X23_clean_text_normalises (t r : string) :
  clean_text (Some t) = Some r ->
  tidy r = true
  /\ split r = split t
  /\ r = join " " (split t)
  /\ clean_text (Some r) = Some r.
Proof.
  rewrite clean_text_words. destruct (blank t) eqn:Hb; [discriminate|].
  intros [= <-].
  assert (Hne : split t <> []).
  { intros H. apply split_blank in H. congruence. }
  pose proof (tidy_join true _ (split_words t) Hne) as Ht.
  pose proof (split_join _ (split_words t)) as Hs.
  repeat split; try assumption.
  rewrite clean_text_words, Hs.
  rewrite (tidy_not_blank true _ Ht); [reflexivity|].
  intros H. now rewrite H in Ht.
Qed.

End CleanText.

Lemma X23_witness :
  Text.tidy "Road Improvement Project" = true
  /\ PyText.split "Road Improvement Project"
     = PyText.split "  Road   Improvement
	Project "
  /\ "Road Improvement Project"
     = PyText.join " " (PyText.split "  Road   Improvement
	Project ")
  /\ Utils.clean_text (Some "Road Improvement Project")
     = Some "Road Improvement Project".
Proof.
  apply (X23_clean_text_normalises "  Road   Improvement
	Project " "Road Improvement Project").
  vm_compute. reflexivity.
Defined.

(** ** The backends *)

Section Pacing.
Variable env : Clock.Env.
Hypothesis Hfair : Clock.fair env.

Lemma rate_limit_paces {O : Type} (delay last : O -> Q) (set_last : Q -> O -> O)
    (lo hi : Q) (o : O) (c : Clock.World) :
  (0 <= lo)%Q -> (lo <= hi)%Q ->
  exists now c' new,
    rate_limit env delay last set_last lo hi (o, c)
    = (Return tt, (set_last now o, c'))
    /\ now = Clock.clock c'
    /\ (last o + delay o <= now)%Q
    /\ Clock.slept c' = (new ++ Clock.slept c)%list
    /\ (length new <= 1)%nat
    /\ Forall (fun d => (lo < d)%Q
                        /\ ((last o <= Clock.clock c)%Q -> (d <= delay o + hi)%Q)) new.
Proof.
  intros Hlo Hle. destruct Hfair as [Hlapse Hdice].
  unfold rate_limit, Clock.random_uniform, Clock.random_random,
    Clock.time_time, Clock.time_sleep.
  py_unfold. cbn.
  set (elapsed := (Clock.clock c + 0 + Clock.lapse env (Clock.ticks c) - last o)%Q).
  pose proof (Hlapse (Clock.ticks c)) as Hl0.
  pose proof (Hlapse (S (Clock.ticks c))) as Hl1.
  pose proof (Hlapse (S (S (Clock.ticks c)))) as Hl2.
  destruct (Qltb elapsed (delay o)) eqn:Elt; cbn.
  - apply Qltb_true in Elt.
    set (jitter := (lo + (hi - lo) * Clock.dice env (Clock.rolls c))%Q).
    destruct (Hdice (Clock.rolls c)) as [Hr0 Hr1].
    destruct (uniform_between _ _ _ Hle Hr0 Hr1) as [Hj0 Hj1].
    fold jitter in Hj0, Hj1. clearbody jitter.
    assert (Hnn : Qltb (delay o - elapsed + jitter) 0 = false)
      by (apply Qltb_false; lra).
    rewrite Hnn. cbn.
    eexists _, _, [(delay o - elapsed + jitter)%Q].
    split; [reflexivity|]. split; [reflexivity|].
    unfold elapsed in *. clear elapsed.
    split; [lra|]. split; [reflexivity|]. split; [cbn; lia|].
    constructor; [|constructor]. split; [lra|]. intros Hpast. lra.
  - apply Qltb_false in Elt.
    eexists _, _, []. split; [reflexivity|]. split; [reflexivity|].
    unfold elapsed in *. clear elapsed.
    split; [lra|]. split; [reflexivity|]. split; [cbn; lia|]. constructor.
Qed.

(** X24: [_rate_limit] of either backend keeps two requests of the
    backend at least [delay] apart.  With a monotonic clock and
    [random.random()] in [[0, 1)] it does not raise, the new
    [_last_request] is the clock's reading and lies at least [delay]
    after the old one, and it sleeps at most once: for more than 0.1 s
    and at most [delay + 0.5] s in [CloudscraperFetcher], for more than
    0.2 s and at most [delay + 1] s in [PlaywrightFetcher] (the upper
    bounds when the old [_last_request] is not in the future). *)
Theorem X24_backends_keep_their_distance :
  (forall (o : CloudscraperFetcher.t) (c : Clock.World),
     exists o' c' new,
       CloudscraperFetcher._rate_limit env (o, c) = (Return tt, (o', c'))
       /\ CloudscraperFetcher._last_request o' = Clock.clock c'
       /\ (CloudscraperFetcher._last_request o + CloudscraperFetcher.delay o
           <= CloudscraperFetcher._last_request o')%Q
       /\ Clock.slept c' = (new ++ Clock.slept c)%list
       /\ (length new <= 1)%nat
       /\ Forall (fun d =>
                    (1 # 10 < d)%Q
                    /\ ((CloudscraperFetcher._last_request o <= Clock.clock c)%Q ->
                        (d <= CloudscraperFetcher.delay o + (1 # 2))%Q)) new)
  /\ (forall (driver : Driver.Env) (o : PlaywrightFetcher.t)
        (w : PlaywrightFetcher.World),
        exists o' w' new,
          PlaywrightFetcher._rate_limit
            {| PlaywrightFetcher.clock_env := env;
               PlaywrightFetcher.driver_env := driver |} (o, w)
          = (Return tt, (o', w'))
          /\ PlaywrightFetcher.calls w' = PlaywrightFetcher.calls w
          /\ PlaywrightFetcher._last_request o'
             = Clock.clock (PlaywrightFetcher.time w')
          /\ (PlaywrightFetcher._last_request o + PlaywrightFetcher.delay o
              <= PlaywrightFetcher._last_request o')%Q
          /\ Clock.slept (PlaywrightFetcher.time w')
             = (new ++ Clock.slept (PlaywrightFetcher.time w))%list
          /\ (length new <= 1)%nat
          /\ Forall (fun d =>
                       (2 # 10 < d)%Q
                       /\ ((PlaywrightFetcher._last_request o
                            <= Clock.clock (PlaywrightFetcher.time w))%Q ->
                           (d <= PlaywrightFetcher.delay o + 1)%Q)) new).
Proof.
  split.
  - intros o c. unfold CloudscraperFetcher._rate_limit.
    destruct (rate_limit_paces CloudscraperFetcher.delay
                CloudscraperFetcher._last_request
                CloudscraperFetcher.set_last_request (1 # 10) (1 # 2) o c)
      as (now & c' & new & Hrun & Hnow & Hgap & Hslept & Hlen & Hnew); [lra..|].
    exists (CloudscraperFetcher.set_last_request now o), c', new.
    rewrite Hrun. cbn [CloudscraperFetcher._last_request
                       CloudscraperFetcher.set_last_request].
    repeat split; assumption.
  - intros driver o w.
    unfold PlaywrightFetcher._rate_limit, PlaywrightFetcher.in_time.
    cbn [fst snd PlaywrightFetcher.clock_env].
    destruct (rate_limit_paces PlaywrightFetcher.delay
                PlaywrightFetcher._last_request
                PlaywrightFetcher.set_last_request (2 # 10) 1 o
                (PlaywrightFetcher.time w))
      as (now & c' & new & Hrun & Hnow & Hgap & Hslept & Hlen & Hnew); [lra..|].
    rewrite Hrun.
    eexists _, _, new. split; [reflexivity|].
    cbn [PlaywrightFetcher._last_request PlaywrightFetcher.set_last_request
         PlaywrightFetcher.time PlaywrightFetcher.calls].
    repeat split; assumption.
Qed.

End Pacing.

Section Waiting.
Import PlaywrightFetcher Watch.
Variable env : Env.

Lemma waited_ms_app (a b : list Driver.Call) :
  waited_ms (a ++ b) = waited_ms a + waited_ms b.
Proof.
  induction a as [|c a IH]; [reflexivity|].
  cbn [app waited_ms]. destruct c; rewrite ?IH; lia.
Qed.

Lemma waits_ret {A} (a : A) : waits_at_most 0 (mret a : M (t * World) A).
Proof. intros s. exists []. split; [reflexivity | cbn; lia]. Qed.

Lemma waits_raise {A} (e : PyExc) : waits_at_most 0 (raise e : M (t * World) A).
Proof. intros s. exists []. split; [reflexivity | cbn; lia]. Qed.

Lemma waits_self : waits_at_most 0 (self : M (t * World) t).
Proof. intros s. exists []. split; [reflexivity | cbn; lia]. Qed.

Lemma waits_update (f : t -> t) : waits_at_most 0 (update f : M (t * World) unit).
Proof. intros s. exists []. split; [reflexivity | cbn; lia]. Qed.

Lemma waits_more {A} (b b' : Z) (m : M (t * World) A) :
  b <= b' -> waits_at_most b m -> waits_at_most b' m.
Proof.
  intros Hle Hm s. destruct (Hm s) as (new & Hnew & Hw).
  exists new. split; [exact Hnew | lia].
Qed.

Lemma waits_bind {A B} (b1 b2 : Z) (m : M (t * World) A) (k : A -> M (t * World) B) :
  0 <= b2 ->
  waits_at_most b1 m -> (forall a, waits_at_most b2 (k a)) ->
  waits_at_most (b1 + b2) (m ≫= k).
Proof.
  intros Hb2 Hm Hk s. unfold mbind, M_bind, bind.
  destruct (Hm s) as (new1 & Hnew1 & Hw1).
  destruct (m s) as [[a|e] s1]; cbn [fst snd] in *.
  - destruct (Hk a s1) as (new2 & Hnew2 & Hw2).
    exists (new2 ++ new1)%list. rewrite Hnew2, Hnew1, app_assoc.
    split; [reflexivity|]. rewrite waited_ms_app. lia.
  - exists new1. split; [exact Hnew1 | lia].
Qed.

Lemma waits_clauses {A} (b1 b2 : Z) (body : M (t * World) A)
    (clauses : list (list ExcClass * (PyExc -> M (t * World) A))) :
  0 <= b2 ->
  waits_at_most b1 body ->
  Forall (fun clause => forall e, waits_at_most b2 (snd clause e)) clauses ->
  waits_at_most (b1 + b2) (try_clauses body clauses).
Proof.
  intros Hb2 Hbody Hclauses s. unfold try_clauses.
  destruct (Hbody s) as (new1 & Hnew1 & Hw1).
  destruct (body s) as [[a|e] s1]; cbn [fst snd] in *.
  - exists new1. split; [exact Hnew1 | lia].
  - induction Hclauses as [|[classes handler] clauses Hh _ IH]; cbn [dispatch].
    + exists new1. split; [exact Hnew1 | lia].
    + destruct (caught_by e classes); [|exact IH].
      destruct (Hh e s1) as (new2 & Hnew2 & Hw2). cbn [snd] in *.
      exists (new2 ++ new1)%list. rewrite Hnew2, Hnew1, app_assoc.
      split; [reflexivity|]. rewrite waited_ms_app. lia.
Qed.

Lemma waits_in_time {A} (m : M (t * Clock.World) A) : waits_at_most 0 (in_time m).
Proof.
  intros s. unfold in_time. destruct (m (fst s, time (snd s))) as [r [o c]].
  exists []. split; [reflexivity | cbn; lia].
Qed.

Lemma waits_bind_to {A B} (b1 b2 b : Z) (m : M (t * World) A)
    (k : A -> M (t * World) B) :
  waits_at_most b1 m -> (forall a, waits_at_most b2 (k a)) ->
  0 <= b2 -> b1 + b2 <= b ->
  waits_at_most b (m ≫= k).
Proof.
  intros Hm Hk Hb2 Hle. apply (waits_more (b1 + b2)); [exact Hle|].
  now apply waits_bind.
Qed.

Lemma waits_call (c : Driver.Call) :
  0 <= waited_ms [c] ->
  waits_at_most (waited_ms [c]) (drive (Driver.call (driver_env env) c)).
Proof.
  intros H s. exists [c]. split; [reflexivity | lia].
Qed.

Lemma waits_goto url ms :
  waits_at_most 0 (drive (Driver.goto (driver_env env) url ms)).
Proof. intros s. exists [Driver.Goto url ms]. split; [reflexivity | cbn; lia]. Qed.

Lemma waits_content :
  waits_at_most 0 (drive (Driver.content (driver_env env))).
Proof. intros s. exists [Driver.Content]. split; [reflexivity | cbn; lia]. Qed.

Lemma waits_on_page {A} (b : Z) (method : string) (m : M Driver.World A) :
  0 <= b -> waits_at_most b (drive m) -> waits_at_most b (on_page method m).
Proof.
  intros Hb Hm. unfold on_page.
  apply (waits_bind_to 0 b); [apply waits_self | | lia | lia].
  intros o. destruct (_page o); [exact Hm|].
  apply (waits_more 0); [exact Hb | apply waits_raise].
Qed.

Lemma waits_ensure_browser : waits_at_most 0 (_ensure_browser env).
Proof.
  unfold _ensure_browser.
  apply (waits_bind_to 0 0); [apply waits_self | | lia | lia].
  intros o. destruct (_browser o); [apply waits_ret|].
  apply (waits_clauses 0 0); [lia | |].
  - repeat first
      [ apply waits_update
      | apply (waits_call Driver.Import); cbn; lia
      | apply (waits_call Driver.Start); cbn; lia
      | apply (waits_call Driver.Launch); cbn; lia
      | apply (waits_call Driver.NewContext); cbn; lia
      | apply (waits_call Driver.AddInitScript); cbn; lia
      | apply (waits_call Driver.NewPage); cbn; lia
      | apply (waits_bind_to 0 0); [ | intros _ | lia | lia] ].
  - repeat constructor; intros e; apply waits_raise.
Qed.

Lemma waits_challenge_wait fuel k content :
  0 <= k <= 15 ->
  waits_at_most (2000 * (15 - k)) (challenge_wait env fuel (2000 * k) content).
Proof.
  revert k content. induction fuel as [|fuel IH]; intros k content Hk;
    cbn [challenge_wait].
  - apply (waits_more 0); [clear - Hk; lia | apply waits_ret].
  - destruct ((2000 * k <? max_wait)%Z && challenged content) eqn:Hc.
    + apply andb_prop in Hc as [Hlt _]. apply Z.ltb_lt in Hlt.
      unfold max_wait in Hlt.
      assert (Hk' : 0 <= k + 1 <= 15) by (clear - Hk Hlt; lia).
      apply (waits_bind_to 2000 (2000 * (15 - (k + 1))));
        [ | | clear - Hk'; lia | clear; lia].
      * apply waits_on_page; [clear; lia|].
        apply (waits_call (Driver.WaitForTimeout wait_interval)).
        unfold wait_interval. cbn. clear; lia.
      * intros _.
        apply (waits_bind_to 0 (2000 * (15 - (k + 1))));
          [ | | clear - Hk'; lia | clear; lia].
        -- apply waits_on_page; [clear; lia | apply waits_content].
        -- intros content'.
           replace (2000 * k + wait_interval) with (2000 * (k + 1))
             by (unfold wait_interval; clear; lia).
           apply IH. exact Hk'.
    + apply (waits_more 0); [clear - Hk; lia | apply waits_ret].
Qed.

Lemma bind_none {St A B} (m : M St A) (k : A -> M St (option B)) (s : St) :
  fst ((m ≫= k) s) = Return None ->
  exists a s1, m s = (Return a, s1) /\ fst (k a s1) = Return None.
Proof.
  unfold mbind, M_bind, bind. destruct (m s) as [[a|e] s1]; [eauto | discriminate].
Qed.

Lemma challenge_wait_ends fuel k content s :
  0 <= k <= 15 -> 16 - k <= Z.of_nat fuel ->
  fst (challenge_wait env fuel (2000 * k) content s) <> Return None.
Proof.
  revert k content s. induction fuel as [|fuel IH]; intros k content s Hk Hfuel;
    [clear - Hk Hfuel; lia|].
  cbn [challenge_wait].
  destruct ((2000 * k <? max_wait)%Z && challenged content) eqn:Hc; [|discriminate].
  apply andb_prop in Hc as [Hlt _]. apply Z.ltb_lt in Hlt. unfold max_wait in Hlt.
  intros Hnone.
  apply bind_none in Hnone as ([] & s1 & _ & Hnone).
  apply bind_none in Hnone as (content' & s2 & _ & Hnone).
  replace (2000 * k + wait_interval) with (2000 * (k + 1)) in Hnone
    by (unfold wait_interval; clear; lia).
  revert Hnone. apply IH; clear - Hk Hlt Hfuel; lia.
Qed.

(** X25: [PlaywrightFetcher.fetch] waits a bounded time for a challenge
    to clear.  Its loop ends, after at most 15 polls: 16 tests of the
    condition suffice.  Whatever the driver does, one [fetch] only adds
    calls to the driver, and these spend at most 35 seconds in
    [wait_for_timeout] (3 s initially, at most 30 s polling, 2 s at the
    end). *)
Theorem X25_challenge_wait_is_bounded (fuel : nat) (url : string) (timeout : Z)
    (s : t * World) :
  (16 <= fuel)%nat ->
  fst (fetch env fuel url timeout s) <> Return None
  /\ exists new,
       calls (snd (snd (fetch env fuel url timeout s)))
       = (new ++ calls (snd s))%list
       /\ 0 <= waited_ms new <= 35000.
Proof.
  intros Hfuel. split.
  - unfold fetch. intros Hnone.
    apply bind_none in Hnone as ([] & s1 & _ & Hnone).
    apply bind_none in Hnone as ([] & s2 & _ & Hnone).
    apply bind_none in Hnone as (response & s3 & _ & Hnone).
    apply bind_none in Hnone as ([] & s4 & _ & Hnone).
    apply bind_none in Hnone as (content & s5 & _ & Hnone).
    apply bind_none in Hnone as (waited & s6 & Hwait & Hnone).
    destruct waited as [content'|].
    + apply bind_none in Hnone as ([] & s7 & _ & Hnone).
      apply bind_none in Hnone as (content2 & s8 & _ & Hnone).
      discriminate Hnone.
    + pose proof (challenge_wait_ends fuel 0 content s5) as Hends.
      change (2000 * 0) with 0 in Hends. rewrite Hwait in Hends.
      apply Hends; [lia | lia | reflexivity].
  - revert s. change (waits_at_most 35000 (fetch env fuel url timeout)).
    unfold fetch.
    apply (waits_bind_to 0 35000); [apply waits_ensure_browser | | lia | lia].
    intros _.
    apply (waits_bind_to 0 35000); [apply waits_in_time | | lia | lia].
    intros _.
    apply (waits_bind_to 0 35000);
      [apply waits_on_page; [lia | apply waits_goto] | | lia | lia].
    intros response.
    apply (waits_bind_to 3000 32000); [ | | lia | lia].
    { apply waits_on_page; [lia|].
      apply (waits_call (Driver.WaitForTimeout 3000)). cbn. lia. }
    intros _.
    apply (waits_bind_to 0 32000);
      [apply waits_on_page; [lia | apply waits_content] | | lia | lia].
    intros content.
    apply (waits_bind_to 30000 2000); [ | | lia | lia].
    { apply (waits_challenge_wait fuel 0 content). lia. }
    intros [content'|]; [|apply (waits_more 0); [lia | apply waits_ret]].
    apply (waits_bind_to 2000 0); [ | | lia | lia].
    { apply waits_on_page; [lia|].
      apply (waits_call (Driver.WaitForTimeout 2000)). cbn. lia. }
    intros _.
    apply (waits_bind_to 0 0);
      [apply waits_on_page; [lia | apply waits_content] | | lia | lia].
    intros content2. apply waits_ret.
Qed.

End Waiting.

Section HalfBuilt.
Import PlaywrightFetcher Watch.
Variable env : Env.

Lemma drive_call_bind {B} (c : Driver.Call) (k : unit -> M (t * World) B)
    (o : t) (w : World) :
  (drive (Driver.call (driver_env env) c) ≫= k) (o, w)
  = match Driver.outcome (driver_env env) (length (calls w)) c with
    | Return u => k u (o, {| time := time w; calls := c :: calls w |})
    | Raise e => (Raise e, (o, {| time := time w; calls := c :: calls w |}))
    end.
Proof. reflexivity. Qed.

Lemma update_bind {B} (f : t -> t) (k : unit -> M (t * World) B) (o : t) (w : World) :
  (update f ≫= k) (o, w) = k tt (f o, w).
Proof. reflexivity. Qed.

Lemma on_page_missing {A} (method : string) (m : M Driver.World A)
    (o : t) (w : World) :
  _page o = false ->
  on_page method m (o, w)
  = (Raise (builtin AttributeError
              ("'NoneType' object has no attribute '" ++ method ++ "'")),
     (o, w)).
Proof.
  intros H. unfold on_page, mbind, M_bind, bind, self. cbn [fst snd].
  now rewrite H.
Qed.

Lemma ensure_browser_raises s e s' :
  _page (fst s) = false ->
  _ensure_browser env s = (Raise e, s') ->
  _page (fst s') = false
  /\ forall c rest,
       calls (snd s') = c :: rest -> after_launch c = true ->
       _browser (fst s') = true.
Proof.
  destruct s as [o w]. cbn [fst snd]. intros Hpage.
  unfold _ensure_browser.
  unfold mbind at 1, M_bind at 1, bind at 1, self at 1. cbn [fst snd].
  destruct (_browser o) eqn:Hb; [discriminate|].
  unfold try_clauses.
  match goal with |- context [match ?body (o, w) with _ => _ end] =>
    destruct (body (o, w)) as [[[]|e0] s0] eqn:Hbody end; [discriminate|].
  assert (Hs0 : _page (fst s0) = false
                /\ forall c rest, calls (snd s0) = c :: rest ->
                                  after_launch c = true -> _browser (fst s0) = true).
  { revert Hbody.
    rewrite drive_call_bind.
    destruct (Driver.outcome _ _ Driver.Import) as [[]|e1];
      [|intros [= <- <-]; split; [exact Hpage|]; intros c rest [= <- _]; discriminate].
    rewrite drive_call_bind.
    destruct (Driver.outcome _ _ Driver.Start) as [[]|e1];
      [|intros [= <- <-]; split; [exact Hpage|]; intros c rest [= <- _]; discriminate].
    rewrite update_bind, drive_call_bind. cbn [calls length time].
    destruct (Driver.outcome _ _ Driver.Launch) as [[]|e1];
      [|intros [= <- <-]; split; [exact Hpage|]; intros c rest [= <- _]; discriminate].
    rewrite update_bind, drive_call_bind. cbn [calls length time].
    destruct (Driver.outcome _ _ Driver.NewContext) as [[]|e1];
      [|intros [= <- <-]; split; [exact Hpage | reflexivity]].
    rewrite update_bind, drive_call_bind. cbn [calls length time].
    destruct (Driver.outcome _ _ Driver.AddInitScript) as [[]|e1];
      [|intros [= <- <-]; split; [exact Hpage | reflexivity]].
    rewrite drive_call_bind. cbn [calls length time].
    destruct (Driver.outcome _ _ Driver.NewPage) as [[]|e1];
      [|intros [= <- <-]; split; [exact Hpage | reflexivity]].
    discriminate. }
  cbn [dispatch]. unfold raise.
  destruct (caught_by e0 [ImportError]); [intros [= <- <-]; exact Hs0|].
  destruct (caught_by e0 [Exception]); intros [= <- <-]; exact Hs0.
Qed.

(** X26: a browser that was launched but not completed is never
    repaired.  When [_ensure_browser] fails its [_page] is still [None],
    and if the failure came after the launch (the call that failed asked
    for the context, the init script or the page) [_browser] is set.
    From a state with [_browser] set and
    [_page] [None], every [fetch] raises the [AttributeError] of
    [None.goto] without asking the driver anything, and leaves that state
    as it is: [_ensure_browser] sees a browser and does nothing. *)
Theorem X26_half_built_browser_is_never_repaired :
  (forall s e s',
     _page (fst s) = false ->
     _ensure_browser env s = (Raise e, s') ->
     _page (fst s') = false
     /\ forall c rest,
          calls (snd s') = c :: rest -> after_launch c = true ->
          _browser (fst s') = true)
  /\ (forall fuel url timeout s,
        Clock.fair (clock_env env) ->
        _browser (fst s) = true -> _page (fst s) = false ->
        exists s',
          fetch env fuel url timeout s
          = (Raise (builtin AttributeError
                      "'NoneType' object has no attribute 'goto'"), s')
          /\ calls (snd s') = calls (snd s)
          /\ _browser (fst s') = true /\ _page (fst s') = false).
Proof.
  split; [exact ensure_browser_raises|].
  intros fuel url timeout [o w] Hfair Hb Hp. cbn [fst snd] in *.
  unfold fetch.
  unfold mbind at 1, M_bind at 1, bind at 1.
  assert (He : _ensure_browser env (o, w) = (Return tt, (o, w))).
  { unfold _ensure_browser, mbind, M_bind, bind, self. cbn [fst snd].
    now rewrite Hb. }
  rewrite He.
  unfold mbind at 1, M_bind at 1, bind at 1.
  unfold _rate_limit, in_time. cbn [fst snd].
  destruct (rate_limit_paces (clock_env env) Hfair delay _last_request
              set_last_request (2 # 10) 1 o (time w))
    as (now & c' & new & Hrun & _); [lra..|].
  rewrite Hrun.
  unfold mbind at 1, M_bind at 1, bind at 1.
  rewrite (on_page_missing "goto") by exact Hp.
  eexists. split; [reflexivity|]. cbn. auto.
Qed.

End HalfBuilt.

Lemma X26_witness :
  exists s',
    PlaywrightFetcher.fetch Watch.no_context 16 Scraper.PROJECTS_URL 30
      (snd (PlaywrightFetcher.fetch Watch.no_context 16 Scraper.PROJECTS_URL 30
              (Watch.fresh, Watch.start)))
    = (Raise (builtin AttributeError "'NoneType' object has no attribute 'goto'"), s')
    /\ PlaywrightFetcher.calls (snd s')
       = PlaywrightFetcher.calls
           (snd (snd (PlaywrightFetcher.fetch Watch.no_context 16
                        Scraper.PROJECTS_URL 30 (Watch.fresh, Watch.start))))
    /\ PlaywrightFetcher._browser (fst s') = true
    /\ PlaywrightFetcher._page (fst s') = false.
Proof.
  apply (proj2 (X26_half_built_browser_is_never_repaired Watch.no_context)
           16%nat Scraper.PROJECTS_URL 30
           (snd (PlaywrightFetcher.fetch Watch.no_context 16 Scraper.PROJECTS_URL 30
                   (Watch.fresh, Watch.start)))).
  - exact steady_fair.
  - vm_compute. reflexivity.
  - vm_compute. reflexivity.
Defined.

Lemma X25_witness :
  fst (PlaywrightFetcher.fetch Watch.stuck_site 16 Scraper.PROJECTS_URL 30
         (Watch.fresh, Watch.start)) <> Return None
  /\ exists new,
       PlaywrightFetcher.calls
         (snd (snd (PlaywrightFetcher.fetch Watch.stuck_site 16
                      Scraper.PROJECTS_URL 30 (Watch.fresh, Watch.start))))
       = (new ++ PlaywrightFetcher.calls (snd (Watch.fresh, Watch.start)))%list
       /\ 0 <= Watch.waited_ms new <= 35000.
Proof.
  apply (X25_challenge_wait_is_bounded Watch.stuck_site 16 Scraper.PROJECTS_URL 30
           (Watch.fresh, Watch.start)).
  lia.
Defined.

Lemma X24_witness :
  exists o' c' new,
    CloudscraperFetcher._rate_limit Scenario.steady
      (CloudscraperFetcher.__init__ (3 # 2), Scenario.dawn) = (Return tt, (o', c'))
    /\ CloudscraperFetcher._last_request o' = Clock.clock c'
    /\ (CloudscraperFetcher._last_request (CloudscraperFetcher.__init__ (3 # 2))
        + CloudscraperFetcher.delay (CloudscraperFetcher.__init__ (3 # 2))
        <= CloudscraperFetcher._last_request o')%Q
    /\ Clock.slept c' = (new ++ Clock.slept Scenario.dawn)%list
    /\ (length new <= 1)%nat
    /\ Forall (fun d =>
                 (1 # 10 < d)%Q
                 /\ ((CloudscraperFetcher._last_request
                        (CloudscraperFetcher.__init__ (3 # 2))
                      <= Clock.clock Scenario.dawn)%Q ->
                     (d <= CloudscraperFetcher.delay
                             (CloudscraperFetcher.__init__ (3 # 2)) + (1 # 2))%Q)) new.
Proof.
  exact (proj1 (X24_backends_keep_their_distance Scenario.steady steady_fair)
           (CloudscraperFetcher.__init__ (3 # 2)) Scenario.dawn).
Defined.

Section Closing.
Import PlaywrightFetcher Watch.
Variable env : Env.

(** X27: [PlaywrightFetcher.close] is all or nothing.  It calls the
    closers of the attributes that are set, in the order page, context,
    browser, driver.  When all of them succeed the four attributes are
    [None] afterwards and a second [close] calls nothing.  When one of
    them raises, the closers after it are not called and no attribute is
    reset: the object is exactly as before. *)
Theorem X27_close_is_all_or_nothing (s : t * World) :
  exists r s' new,
    close env s = (r, s')
    /\ calls (snd s') = (new ++ calls (snd s))%list
    /\ time (snd s') = time (snd s)
    /\ match r with
       | Return _ =>
           rev new = closers (fst s)
           /\ _page (fst s') = false /\ _context (fst s') = false
           /\ _browser (fst s') = false /\ _playwright (fst s') = false
           /\ close env s' = (Return tt, s')
       | Raise e =>
           fst s' = fst s
           /\ exists rest, closers (fst s) = (rev new ++ rest)%list
       end.
Proof.
  destruct s as [[h d sm b c p pw l] w]. unfold close, closers, drive, Driver.call.
  py_unfold. cbn.
  destruct p, c, b, pw; cbn;
    repeat match goal with
           | |- context [Driver.outcome ?dr ?n ?cl] =>
               destruct (Driver.outcome dr n cl) as [[]|?]; cbn
           end;
    eexists _, _, _; (split; [reflexivity|]); cbn;
    (split; [ match goal with
              | |- ?l = (_ ++ ?old)%list =>
                  first [ instantiate (1 := []); reflexivity
                        | instantiate (1 := [_]); reflexivity
                        | instantiate (1 := [_; _]); reflexivity
                        | instantiate (1 := [_; _; _]); reflexivity
                        | instantiate (1 := [_; _; _; _]); reflexivity ]
              end |]);
    (split; [reflexivity|]);
    cbn; repeat split; eauto.
Qed.

End Closing.
